(** * pylabpsu: the serial query engine and the device session

    A shallow embedding of [pylabpsu.py] (classes [SerialCommunication] and
    [LabPSU]) together with the properties of its query engine, its response
    dispatch and its change-detected status cache.

    Layout:
    - [PyFloat]   : Python's [float] values (IEEE 754 binary64), the builtin
                    [float(str)] and the ['%.3f' % x] conversion;
    - [PyVal]     : the values stored in [LabPSU.status] and Python's [==];
    - [Py]        : exceptions and the state-and-exception monad;
    - [SerialCommunication], [LabPSU] : the two classes, method by method;
    - the theorems. *)

From Stdlib Require Import ZArith String Ascii List Lia Bool.
From Stdlib Require Import SpecFloat DecimalString DecimalPos DecimalN.
From stdpp Require Import gmap strings.

Import ListNotations.
Local Open Scope string_scope.

(** ** Python floats *)

Module PyFloat.
Local Open Scope Z_scope.

(** A Python [float] is an IEEE 754 binary64 number: [S754_finite s m e]
    stands for [(-1)^s * m * 2^e]. *)
Abbreviation float := spec_float.

Definition prec : Z := 53.
Definition emax : Z := 1024.

Definition valid (x : float) : bool := valid_binary prec emax x.

(** [x == y] on two floats: IEEE comparison, so [nan == nan] is false and
    [0.0 == -0.0] is true. *)
Definition eqb (x y : float) : bool := SFeqb x y.

Definition is_nan (x : float) : bool :=
  match x with S754_nan => true | _ => false end.

(** *** [float(str)] *)

Definition code (c : ascii) : Z := Z.of_nat (nat_of_ascii c).

(** The white space [float()] strips from both ends: tab to carriage
    return, the space, and among the code points from 128 to 255 the two
    that are white space, NEL and the no-break space. *)
Definition is_space (c : ascii) : bool :=
  let n := code c in
  ((9 <=? n) && (n <=? 13)) || (n =? 32) || (n =? 133) || (n =? 160).

Definition is_digit (c : ascii) : bool :=
  let n := code c in (48 <=? n) && (n <=? 57).

Definition digit_value (c : ascii) : Z := code c - 48.

Definition to_lower (c : ascii) : ascii :=
  let n := code c in
  if (65 <=? n) && (n <=? 90) then ascii_of_nat (Z.to_nat (n + 32)) else c.

Fixpoint lstrip (s : list ascii) : list ascii :=
  match s with
  | c :: s' => if is_space c then lstrip s' else s
  | [] => []
  end.

Definition strip (s : list ascii) : list ascii :=
  rev (lstrip (rev (lstrip s))).

(** An underscore is accepted only between two digits, and is then
    dropped; [prev] is the previous character, if any. *)
Fixpoint drop_underscores (prev : option ascii) (s : list ascii)
  : option (list ascii) :=
  match s with
  | [] =>
      match prev with
      | Some "_"%char => None
      | _ => Some []
      end
  | c :: s' =>
      if Ascii.eqb c "_" then
        match prev with
        | Some p => if is_digit p then drop_underscores (Some c) s' else None
        | None => None
        end
      else
        match prev with
        | Some "_"%char =>
            if is_digit c
            then option_map (cons c) (drop_underscores (Some c) s')
            else None
        | _ => option_map (cons c) (drop_underscores (Some c) s')
        end
  end.

Definition parse_sign (s : list ascii) : bool * list ascii :=
  match s with
  | "-"%char :: s' => (true, s')
  | "+"%char :: s' => (false, s')
  | _ => (false, s)
  end.

(** The longest prefix of digits, and what follows it. *)
Fixpoint span_digits (s : list ascii) : list ascii * list ascii :=
  match s with
  | c :: s' =>
      if is_digit c
      then let '(ds, rest) := span_digits s' in (c :: ds, rest)
      else ([], s)
  | [] => ([], [])
  end.

Definition digits_to_Z (ds : list ascii) : Z :=
  fold_left (fun acc c => 10 * acc + digit_value c) ds 0.

(** The binary64 number nearest to [(-1)^neg * m * 10^e] (ties to even),
    computed exactly: for a negative [e] the quotient is taken with more
    than [prec + 2] bits and a sticky last bit before it is rounded. *)
Definition of_decimal (neg : bool) (m e : Z) : float :=
  let sgn (z : Z) := if neg then - z else z in
  if m =? 0 then S754_zero neg
  else if 0 <=? e then binary_normalize prec emax (sgn (m * 10 ^ e)) 0 neg
  else
    let d := 10 ^ (- e) in
    let k := Z.max 0 (Z.log2 d - Z.log2 m + 57) in
    let q := (m * 2 ^ k) / d in
    let r := (m * 2 ^ k) mod d in
    let sticky := if r =? 0 then 0 else 1 in
    binary_normalize prec emax (sgn (2 * q + sticky)) (- k - 1) neg.

(** The exponent part [e[+-]digits] at the end of a number; an [e] that
    no digit follows is not an exponent, and is left over. *)
Definition parse_exponent (s : list ascii) : option Z :=
  match s with
  | [] => Some 0
  | c :: s' =>
      if Ascii.eqb (to_lower c) "e" then
        let '(neg, s'') := parse_sign s' in
        match span_digits s'' with
        | ((_ :: _) as ds, []) =>
            Some (if neg then - digits_to_Z ds else digits_to_Z ds)
        | _ => None
        end
      else None
  end.

Definition parse_decimal (neg : bool) (s : list ascii) : option float :=
  let '(ip, rest) := span_digits s in
  let '(fp, rest') :=
    match rest with
    | "."%char :: r => span_digits r
    | _ => ([], rest)
    end in
  match (ip ++ fp)%list with
  | [] => None
  | ds =>
      match parse_exponent rest' with
      | Some ex =>
          Some (of_decimal neg (digits_to_Z ds)
                  (ex - Z.of_nat (length fp)))
      | None => None
      end
  end.

Definition parse_inf_or_nan (neg : bool) (s : list ascii) : option float :=
  let low := string_of_list_ascii (map to_lower s) in
  if String.eqb low "inf" || String.eqb low "infinity"
  then Some (S754_infinity neg)
  else if String.eqb low "nan" then Some S754_nan
  else None.

(** [float(s)]: [None] stands for the [ValueError] Python raises. *)
Definition of_string (s : string) : option float :=
  match drop_underscores None (strip (list_ascii_of_string s)) with
  | None => None
  | Some t =>
      let '(neg, body) := parse_sign t in
      match parse_inf_or_nan neg body with
      | Some x => Some x
      | None => parse_decimal neg body
      end
  end.

(** *** ['%.3f' % x] *)

Definition dec (n : Z) : string :=
  NilZero.string_of_uint (N.to_uint (Z.to_N n)).

(** [m * 2^e] rounded to the nearest integer, ties to even. *)
Definition round_half_even (m e : Z) : Z :=
  if 0 <=? e then m * 2 ^ e
  else
    let d := 2 ^ (- e) in
    let q := m / d in
    let r := m mod d in
    match 2 * r ?= d with
    | Lt => q
    | Gt => q + 1
    | Eq => if Z.even q then q else q + 1
    end.

Definition fixed3 (neg : bool) (n : Z) : string :=
  let f := n mod 1000 in
  (if neg then "-" else "") ++ dec (n / 1000) ++ "."
  ++ dec (f / 100) ++ dec (f / 10 mod 10) ++ dec (f mod 10).

Definition format_3f (x : float) : string :=
  match x with
  | S754_nan => "nan"
  | S754_infinity s => if s then "-inf" else "inf"
  | S754_zero s => fixed3 s 0
  | S754_finite s m e => fixed3 s (round_half_even (Zpos m * 1000) e)
  end.
End PyFloat.


(** ** The values of the status cache *)

Module PyVal.
Local Open Scope Z_scope.

(** [LabPSU.status] starts with the integer [-1] and the boolean [False],
    and is then written with floats and booleans. *)
Inductive t :=
| Int (n : Z)
| Float (x : PyFloat.float)
| Bool (b : bool).

(** [n == x] for an integer and a float compares the two numbers exactly. *)
Definition int_eq_float (n : Z) (x : PyFloat.float) : bool :=
  match x with
  | S754_zero _ => n =? 0
  | S754_finite s m e =>
      let v := if s then Zneg m else Zpos m in
      if 0 <=? e then n =? v * 2 ^ e else n * 2 ^ (- e) =? v
  | S754_infinity _ | S754_nan => false
  end.

(** A boolean is the integer 0 or 1. *)
Definition number (v : t) : Z + PyFloat.float :=
  match v with
  | Int n => inl n
  | Bool b => inl (Z.b2z b)
  | Float x => inr x
  end.

(** [a == b] *)
Definition eqb (a b : t) : bool :=
  match number a, number b with
  | inl n, inl m => n =? m
  | inl n, inr x | inr x, inl n => int_eq_float n x
  | inr x, inr y => PyFloat.eqb x y
  end.

(** [a != b] *)
Definition neb (a b : t) : bool := negb (eqb a b).
End PyVal.

(** ** Exceptions, observable events, and the monad of methods *)

Module Py.
Inductive exn :=
| ValueError (text : string)
| KeyError (key : string)
| AttributeError
| SerialException
| Empty.

(** What a run shows to the outside: the data handed to the serial
    transport, the Qt signals emitted, the warnings issued. *)
Inductive event :=
| Write (data : string)
| Emit (signal : string) (value : PyVal.t)
| Warn (message : string).

(** A call returns, raises, or never returns ([Hang]: it waits for a lock
    that nobody releases). *)
Inductive outcome (A : Type) :=
| Return (a : A)
| Raise (e : exn)
| Hang.
Arguments Return {A} a.
Arguments Raise {A} e.
Arguments Hang {A}.

(** A method over the object state [S]: the outcome, the state it
    leaves (also when it raises), and the events in order. *)
Definition M (S A : Type) : Type := S -> outcome A * S * list event.

Definition ret {S A} (a : A) : M S A := fun s => (Return a, s, []).

Definition bind {S A B} (c : M S A) (k : A -> M S B) : M S B :=
  fun s =>
    match c s with
    | (Return a, s1, t1) =>
        let '(r, s2, t2) := k a s1 in (r, s2, (t1 ++ t2)%list)
    | (Raise e, s1, t1) => (Raise e, s1, t1)
    | (Hang, s1, t1) => (Hang, s1, t1)
    end.

Definition raise {S A} (e : exn) : M S A := fun s => (Raise e, s, []).
Definition hang {S A} : M S A := fun s => (Hang, s, []).
Definition get {S} : M S S := fun s => (Return s, s, []).
Definition modify {S} (f : S -> S) : M S unit := fun s => (Return tt, f s, []).
Definition tell {S} (e : event) : M S unit := fun s => (Return tt, s, [e]).

(** [warnings.warn(message)] *)
Definition warn {S} (message : string) : M S unit := tell (Warn message).

(** [try: c except: ...]: [handler e] is the clause that catches [e],
    if one does. *)
Definition try_except {S A} (c : M S A) (handler : exn -> option (M S A))
  : M S A :=
  fun s =>
    match c s with
    | (Raise e, s1, t1) =>
        match handler e with
        | Some h => let '(r, s2, t2) := h s1 in (r, s2, (t1 ++ t2)%list)
        | None => (Raise e, s1, t1)
        end
    | x => x
    end.

(** [try: c finally: modify f] *)
Definition finally {S A} (c : M S A) (f : S -> S) : M S A :=
  fun s => let '(r, s1, t1) := c s in (r, f s1, t1).

(** [d[key]] on a dictionary. *)
Definition getitem {S V} (d : gmap string V) (key : string) : M S V :=
  match d !! key with
  | Some v => ret v
  | None => raise (KeyError key)
  end.

Definition result {S A} (x : outcome A * S * list event) : outcome A := x.1.1.
Definition state {S A} (x : outcome A * S * list event) : S := x.1.2.
Definition trace {S A} (x : outcome A * S * list event) : list event := x.2.

(** The data written to the transport, the signals and the warnings of a
    trace. *)
Definition writes (t : list event) : list string :=
  omap (fun e => match e with Write d => Some d | _ => None end) t.
Definition emits (t : list event) : list (string * PyVal.t) :=
  omap (fun e => match e with Emit s v => Some (s, v) | _ => None end) t.
Definition warns (t : list event) : list string :=
  omap (fun e => match e with Warn m => Some m | _ => None end) t.
End Py.

Declare Scope py_scope.
Delimit Scope py_scope with py.
Notation "x <- c ;; k" := (Py.bind c (fun x => k))
  (at level 100, c at next level, right associativity) : py_scope.
Notation "c ;; k" := (Py.bind c (fun _ => k))
  (at level 100, right associativity) : py_scope.
Local Open Scope py_scope.

(** ** The matched exchanges of the delivery queue *)

(** The dictionary [{'query': query, 'response': query_response}]. *)
Module Response.
Record t := Build { query : string; response : string }.
End Response.

(** ** class SerialCommunication(serial.threaded.LineReader) *)

Module SerialCommunication.
Import Py.

Definition TERMINATOR : string := String (ascii_of_nat 10) EmptyString.

(** [received_lines] and [responses] are the two [queue.Queue]s, oldest
    element first; [lock] tells whether [self.lock] is held; [transport]
    tells whether [self.transport], the attribute of the base class
    [Packetizer], holds the reader thread ([false] stands for [None]). *)
Record t := Build {
  connected : bool;
  received_lines : list string;
  responses : list Response.t;
  lock : bool;
  transport : bool
}.

Definition set_connected (b : bool) (self : t) : t :=
  Build b (received_lines self) (responses self) (lock self) (transport self).
Definition set_received_lines (q : list string) (self : t) : t :=
  Build (connected self) q (responses self) (lock self) (transport self).
Definition set_responses (q : list Response.t) (self : t) : t :=
  Build (connected self) (received_lines self) q (lock self) (transport self).
Definition set_lock (b : bool) (self : t) : t :=
  Build (connected self) (received_lines self) (responses self) b
    (transport self).
Definition set_transport (b : bool) (self : t) : t :=
  Build (connected self) (received_lines self) (responses self) (lock self) b.

(** [super().__init__()] leaves [self.transport] at [None]. *)
Definition __init__ : t := Build false [] [] false false.

(** [Packetizer.connection_made(transport)], the method of the base
    class: it stores the transport. *)
Definition Packetizer_connection_made : M t unit :=
  modify (set_transport true).

Definition connection_made : M t unit :=
  Packetizer_connection_made ;;
  modify (set_connected true).

(** [Protocol.connection_lost(exc)], the method at the root of the base
    classes: it raises [exc] again when the link ended with an
    exception. *)
Definition Protocol_connection_lost (exc : option exn) : M t unit :=
  match exc with
  | Some e => raise e
  | None => ret tt
  end.

(** [Packetizer.connection_lost(exc)], the method [super()] reaches from
    [SerialCommunication]: it forgets the transport, then calls
    [Protocol.connection_lost]. *)
Definition Packetizer_connection_lost (exc : option exn) : M t unit :=
  modify (set_transport false) ;;
  Protocol_connection_lost exc.

(** [connection_lost(exc)]; [exc] is [None] when the reader thread was
    stopped, the exception that ended it otherwise. *)
Definition connection_lost (exc : option exn) : M t unit :=
  Packetizer_connection_lost exc ;;
  modify (set_connected false).

Definition handle_line (line : string) : M t unit :=
  self <- get ;;
  modify (set_received_lines (received_lines self ++ [line])).

(** [LineReader.write_line(text)], that is
    [self.transport.write(text + TERMINATOR)]: without a transport the
    attribute access on [None] raises [AttributeError]; with one, the text
    and the terminator go to the serial port, which is taken to accept
    them. *)
Definition write_line (text : string) : M t unit :=
  self <- get ;;
  if transport self then tell (Write (text ++ TERMINATOR))
  else raise AttributeError.

(** [with self.lock: body] *)
Definition with_lock {A} (body : M t A) : M t A :=
  self <- get ;;
  if lock self then hang
  else modify (set_lock true) ;; finally body (set_lock false).

(** [self.received_lines.get(timeout=timeout)], when the wait is over:
    the oldest line, or [queue.Empty]. *)
Definition received_lines_get : M t string :=
  self <- get ;;
  match received_lines self with
  | line :: rest => modify (set_received_lines rest) ;; ret line
  | [] => raise Empty
  end.

Definition responses_put (r : Response.t) : M t unit :=
  self <- get ;;
  modify (set_responses (responses self ++ [r])).

(** [self.responses.get(block=False)] *)
Definition responses_get : M t Response.t :=
  self <- get ;;
  match responses self with
  | r :: rest => modify (set_responses rest) ;; ret r
  | [] => raise Empty
  end.

(** The reader thread hands [lines] to [handle_line], in order. *)
Fixpoint reader (lines : list string) : M t unit :=
  match lines with
  | [] => ret tt
  | line :: rest => handle_line line ;; reader rest
  end.

(** [query(query, timeout, expect_response)]. Time is not modelled:
    [during] lists the lines the reader thread delivers while the call
    waits in [received_lines.get], up to its timeout; with no line queued
    and none delivered, the wait ends in [queue.Empty]. Only [query] takes
    lines from [received_lines], so a line that arrives after the call has
    returned can as well be given to the next call. The result is what
    Python returns: [None] on every path. *)
Definition query (query : string) (expect_response : bool)
    (during : list string) : M t (option string) :=
  with_lock (
    write_line query ;;
    if negb expect_response then ret None
    else
      reader during ;;
      try_except
        (query_response <- received_lines_get ;;
         responses_put (Response.Build query query_response))
        (fun e =>
           match e with
           | Empty => Some (warn ("Query timed out: " ++ query))
           | _ => None
           end) ;;
      ret None).
End SerialCommunication.

(** ** class LabPSU(QtCore.QObject) *)

Module LabPSU.
Import Py.

(** [link_worker] tells whether [self.link_worker] holds the
    [ReaderThread] (it is [None] otherwise). *)
Record t := Build {
  status : gmap string PyVal.t;
  alive : bool;
  connected : bool;
  link : option SerialCommunication.t;
  link_worker : bool
}.

Definition set_status (d : gmap string PyVal.t) (self : t) : t :=
  Build d (alive self) (connected self) (link self) (link_worker self).
Definition set_alive (b : bool) (self : t) : t :=
  Build (status self) b (connected self) (link self) (link_worker self).
Definition set_connected (b : bool) (self : t) : t :=
  Build (status self) (alive self) b (link self) (link_worker self).
Definition set_link (l : option SerialCommunication.t) (self : t) : t :=
  Build (status self) (alive self) (connected self) l (link_worker self).
Definition set_link_worker (b : bool) (self : t) : t :=
  Build (status self) (alive self) (connected self) (link self) b.

(** [self.signals]: the Qt signal, by its name, of each status key. *)
Definition signals : gmap string string :=
  list_to_map [
    ("set_voltage", "set_voltage");
    ("set_current", "set_current");
    ("measured_voltage", "measured_voltage");
    ("measured_current", "measured_current");
    ("output", "output")
  ].

Definition signal_connection : string := "connection".

Definition __init__ : t :=
  Build
    (list_to_map [
       ("set_voltage", PyVal.Int (-1));
       ("set_current", PyVal.Int (-1));
       ("measured_voltage", PyVal.Int (-1));
       ("measured_current", PyVal.Int (-1));
       ("output", PyVal.Bool false)
     ])
    true false None false.

(** [signal.emit(value)] *)
Definition emit (signal : string) (value : PyVal.t) : M t unit :=
  tell (Emit signal value).

(** A method of [self.link]; [None] has no methods. *)
Definition on_link {A} (m : M SerialCommunication.t A) : M t A :=
  fun self =>
    match link self with
    | None => (Raise AttributeError, self, [])
    | Some l => let '(r, l', tr) := m l in (r, set_link (Some l') self, tr)
    end.

(** [connect(serial_port, baud_rate)]; [opens] tells whether
    [serial.Serial] opens the port. Starting the reader thread makes it
    call [connection_made]. *)
Definition connect (opens : bool) : M t unit :=
  if negb opens then raise SerialException
  else
    modify (set_link (Some SerialCommunication.__init__)) ;;
    modify (set_link_worker true) ;;
    on_link SerialCommunication.connection_made ;;
    modify (set_connected true) ;;
    self <- get ;;
    emit signal_connection (PyVal.Bool (connected self)).

(** [self.link_worker.stop()]: the reader thread ends and tells the
    protocol, with no exception. *)
Definition link_worker_stop : M t unit :=
  self <- get ;;
  if negb (link_worker self) then raise AttributeError
  else on_link (SerialCommunication.connection_lost None).

Definition disconnect : M t unit :=
  self <- get ;;
  if negb (connected self) then ret tt
  else
    modify (set_connected false) ;;
    link_worker_stop ;;
    modify (set_link_worker false) ;;
    modify (set_link None) ;;
    self <- get ;;
    emit signal_connection (PyVal.Bool (connected self)).

Definition __del__ : M t unit :=
  modify (set_alive false) ;;
  disconnect.

(** [query(query, timeout, expect_response)] *)
Definition query (query : string) (expect_response : bool)
    (during : list string) : M t bool :=
  self <- get ;;
  if negb (connected self) then ret false
  else
    on_link (SerialCommunication.query query expect_response during) ;;
    ret true.

Definition status_set (key : string) (value : PyVal.t) : M t bool :=
  self <- get ;;
  old <- getitem (status self) key ;;
  if PyVal.neb old value then
    modify (set_status (<[key := value]> (status self))) ;;
    signal <- getitem signals key ;;
    self <- get ;;
    stored <- getitem (status self) key ;;
    emit signal stored ;;
    ret true
  else ret false.

(** [float(value)] raises [ValueError] on a string that is no number. *)
Definition float (value : string) : M t PyFloat.float :=
  match PyFloat.of_string value with
  | Some x => ret x
  | None => raise (ValueError value)
  end.

Definition status_set_number (key value : string) : M t bool :=
  x <- float value ;;
  status_set key (PyVal.Float x).

Definition status_set_on_off (key value : string) : M t bool :=
  status_set key (PyVal.Bool (String.eqb value "ON")).

Definition measure_current (during : list string) : M t unit :=
  query ":MEAS:CURR?" true during ;; ret tt.

Definition measure_voltage (during : list string) : M t unit :=
  query ":MEAS:VOLT?" true during ;; ret tt.

(** [state is True] holds for the boolean [True] only. *)
Definition set_output (state : PyVal.t) : M t unit :=
  let output_state :=
    match state with
    | PyVal.Bool true => "ON"
    | _ => "OFF"
    end in
  query (":OUTP " ++ output_state) false [] ;; ret tt.

Definition get_output (during : list string) : M t unit :=
  query ":OUTP?" true during ;; ret tt.

Definition get_current (during : list string) : M t unit :=
  query ":CURR?" true during ;; ret tt.

Definition set_current (current : PyFloat.float) : M t unit :=
  query (":CURR " ++ PyFloat.format_3f current) false [] ;; ret tt.

Definition get_voltage (during : list string) : M t unit :=
  query ":VOLT?" true during ;; ret tt.

Definition set_voltage (voltage : PyFloat.float) : M t unit :=
  query (":VOLT " ++ PyFloat.format_3f voltage) false [] ;; ret tt.

(** The handlers return the boolean of [status_set], the default one
    returns [None]. *)
Definition handled (m : M t bool) : M t (option bool) :=
  b <- m ;; ret (Some b).

Definition response_handlers : gmap string (string -> M t (option bool)) :=
  list_to_map [
    (":MEAS:CURR?", fun value => handled (status_set_number "measured_current" value));
    (":MEAS:VOLT?", fun value => handled (status_set_number "measured_voltage" value));
    (":OUTP?", fun value => handled (status_set_on_off "output" value));
    (":CURR?", fun value => handled (status_set_number "set_current" value));
    (":VOLT?", fun value => handled (status_set_number "set_voltage" value))
  ].

(** The body of the [while] loop of [process_responses]. *)
Definition process_response : M t unit :=
  last_response <- on_link SerialCommunication.responses_get ;;
  let handler :=
    default
      (fun _value : string =>
         warn ("Unknown query: " ++ Response.query last_response) ;;
         ret None)
      (response_handlers !! Response.query last_response) in
  handler (Response.response last_response) ;;
  ret tt.

(** [while not self.link.responses.empty(): ...]: no handler puts a
    response, so the loop runs once for each response of the queue it
    starts with, [queue]. *)
Fixpoint process_loop (queue : list Response.t) : M t unit :=
  match queue with
  | [] => ret tt
  | _ :: rest => process_response ;; process_loop rest
  end.

Definition process_responses : M t unit :=
  self <- get ;;
  if negb (connected self) then ret tt
  else
    l <- on_link get ;;
    process_loop (SerialCommunication.responses l).

(** One turn of [task_query_status], after the test of [self.alive];
    [sleep(1)] only lets time pass. [during i] are the lines that arrive
    while query number [i] of the turn waits. *)
Definition task_query_status_turn (during : nat -> list string) : M t unit :=
  self <- get ;;
  if negb (connected self) then ret tt
  else
    get_output (during 0%nat) ;;
    measure_current (during 1%nat) ;;
    measure_voltage (during 2%nat) ;;
    get_current (during 3%nat) ;;
    get_voltage (during 4%nat).

(** [task_query_status], watched for one turn for each element of
    [turns]: [false] when the loop has ended, [true] when it goes on. *)
Fixpoint task_query_status (turns : list (nat -> list string)) : M t bool :=
  match turns with
  | [] => ret true
  | during :: rest =>
      self <- get ;;
      if negb (alive self) then ret false
      else task_query_status_turn during ;; task_query_status rest
  end.

(** One turn of [task_process_responses], after the test of
    [self.alive]; [sleep(1)] only lets time pass. *)
Definition task_process_responses_turn : M t unit :=
  self <- get ;;
  if negb (connected self) then ret tt
  else process_responses.

(** [task_process_responses], watched for [turns] turns. *)
Fixpoint task_process_responses (turns : nat) : M t bool :=
  match turns with
  | O => ret true
  | S rest =>
      self <- get ;;
      if negb (alive self) then ret false
      else task_process_responses_turn ;; task_process_responses rest
  end.

(** What the reader thread does to the link object, while the session
    holds it. *)
Definition reader_thread (m : M SerialCommunication.t unit) : M t unit :=
  self <- get ;;
  match link self with
  | Some _ => on_link m
  | None => ret tt
  end.
End LabPSU.

(** ** Sequential clients *)

Import Py.

(** Queries that expect a response, submitted one after the other; each
    comes with the lines that arrive while it waits. *)
Fixpoint submit_all (queries : list (string * list string))
  : M SerialCommunication.t unit :=
  match queries with
  | [] => ret tt
  | (q, during) :: rest =>
      SerialCommunication.query q true during ;; submit_all rest
  end.

(** A session is consistent when its cache has every status field and,
    while it is connected, it holds a link whose lock is free and the
    reader thread of that link. *)
Definition consistent (w : LabPSU.t) : Prop :=
  (forall key, is_Some (LabPSU.signals !! key) ->
               is_Some (LabPSU.status w !! key)) /\
  (LabPSU.connected w = true ->
   LabPSU.link_worker w = true /\
   exists l, LabPSU.link w = Some l /\ SerialCommunication.lock l = false).

(** A session is live when the link it holds, if any, has its transport:
    the reader thread has started and has not ended. *)
Definition live (w : LabPSU.t) : Prop :=
  forall l, LabPSU.link w = Some l -> SerialCommunication.transport l = true.

(** The session after [connect], used in the examples. *)
Definition connected_session : LabPSU.t :=
  state (LabPSU.connect true LabPSU.__init__).

(** The link of a session after [connect]: the reader thread has called
    [connection_made]. *)
Definition started_link : SerialCommunication.t :=
  state (SerialCommunication.connection_made SerialCommunication.__init__).

(** The session after [connect] and the loss of the serial link: the
    reader thread has ended with [exc] and called [connection_lost]. *)
Definition link_lost_session (exc : option exn) : LabPSU.t :=
  state (LabPSU.reader_thread (SerialCommunication.connection_lost exc)
           connected_session).

(** The float NaN, the one value that differs from itself. *)
Definition is_nan (v : PyVal.t) : bool :=
  match v with
  | PyVal.Float x => PyFloat.is_nan x
  | _ => false
  end.

(** The finite floats. *)
Definition is_finite (x : PyFloat.float) : bool :=
  match x with
  | S754_zero _ | S754_finite _ _ _ => true
  | S754_infinity _ | S754_nan => false
  end.

(** A string [[-]digits.ddd]. *)
Definition three_decimals (s : string) : Prop :=
  exists (neg : bool) (n : Z) (a b c : ascii),
    s = (if neg then "-" else "") ++ PyFloat.dec n ++ "."
        ++ String a (String b (String c ""))
    /\ PyFloat.is_digit a = true /\ PyFloat.is_digit b = true
    /\ PyFloat.is_digit c = true.

(** The float nearest to 3.3. *)
Definition float_3_3 : PyFloat.float :=
  S754_finite false 7430939385161318 (-51).

(** [n] is the number of thousandths nearest to [m * 2^e], the even one
    of two that are equally near. With [num / den] the exact value of
    [m * 2^e * 1000], twice the distance from [num] to [n * den] is at
    most [den]. *)
Definition nearest_thousandth (m : positive) (e n : Z) : Prop :=
  let num := (Z.pos m * 1000 * 2 ^ Z.max e 0)%Z in
  let den := (2 ^ Z.max (- e) 0)%Z in
  (Z.abs (2 * (num - n * den)) <= den)%Z
  /\ ((Z.abs (2 * (num - n * den)) = den)%Z -> Z.even n = true).

(** The sign and the number of thousandths that a text [[-]digits.ddd]
    stands for; [None] for any other text. *)
Definition read_fixed3 (s : string) : option (bool * Z) :=
  let t := list_ascii_of_string s in
  let '(neg, body) :=
    match t with
    | "-"%char :: r => (true, r)
    | _ => (false, t)
    end in
  match PyFloat.span_digits body with
  | ((_ :: _) as ip, "."%char :: fp) =>
      if (length fp =? 3)%nat && forallb PyFloat.is_digit fp
      then Some (neg, PyFloat.digits_to_Z (ip ++ fp)%list)
      else None
  | _ => None
  end.

(** [s] is the float [x] formatted to fixed three decimal places, in the
    words of the specification and with no reference to the code that
    formats: [s] stands for the number of thousandths nearest to [x], with
    the sign of [x]; an infinity and NaN, which have no decimals, are
    written by name. *)
Definition formatted_3_places (x : PyFloat.float) (s : string) : Prop :=
  match x with
  | S754_finite neg m e =>
      exists n, nearest_thousandth m e n /\ read_fixed3 s = Some (neg, n)
  | S754_zero neg => read_fixed3 s = Some (neg, 0%Z)
  | S754_infinity neg => s = if neg then "-inf" else "inf"
  | S754_nan => s = "nan"
  end.

(** The queries whose replies are parsed as numbers. *)
Definition numeric_queries : list string :=
  [":MEAS:CURR?"; ":MEAS:VOLT?"; ":CURR?"; ":VOLT?"].

(** A connected session whose delivery queue holds the reply [abc] to
    [:MEAS:VOLT?], then the reply [ON] to [:OUTP?]. *)
Definition garbled_session : LabPSU.t :=
  state ((LabPSU.measure_voltage ["abc"] ;; LabPSU.get_output ["ON"])
           connected_session).

(** ** class ApplicationWindow(QtWidgets.QMainWindow) *)

(** The window acts on [self.backend], the session; what it reads from its
    widgets is an argument here. *)
Module ApplicationWindow.
Import Py.

(** The truth value of a cached value, as [not value] takes it. *)
Definition truth (v : PyVal.t) : bool :=
  match v with
  | PyVal.Int n => negb (n =? 0)%Z
  | PyVal.Float (S754_zero _) => false
  | PyVal.Float _ => true
  | PyVal.Bool b => b
  end.

(** [device_connect()]; [opens] tells whether the port named in the input
    field opens. *)
Definition device_connect (opens : bool) : M LabPSU.t unit :=
  backend <- get ;;
  if negb (LabPSU.connected backend) then LabPSU.connect opens
  else LabPSU.disconnect.

(** [device_set_voltage()], with the value of the voltage input. *)
Definition device_set_voltage (value : PyFloat.float) : M LabPSU.t unit :=
  LabPSU.set_voltage value.

(** [device_set_current()], with the value of the current input. *)
Definition device_set_current (value : PyFloat.float) : M LabPSU.t unit :=
  LabPSU.set_current value.

Definition device_toggle_output : M LabPSU.t unit :=
  backend <- get ;;
  output <- getitem (LabPSU.status backend) "output" ;;
  LabPSU.set_output (PyVal.Bool (negb (truth output))).
End ApplicationWindow.

(** ** Runs of the program *)

(** The calls that reach a session: those of the window, the turns of the
    two threads of the session, and what the reader thread does. *)
Inductive call :=
| Connect (opens : bool)
| Disconnect
| Del
| SetVoltage (x : PyFloat.float)
| SetCurrent (x : PyFloat.float)
| SetOutput (state : PyVal.t)
| PollTurn (during : nat -> list string)
| DrainTurn
| HandleLine (line : string)
| ConnectionLost (exc : option exn)
| DeviceConnect (opens : bool)
| DeviceToggleOutput.

Definition run (c : call) : M LabPSU.t unit :=
  match c with
  | Connect opens => LabPSU.connect opens
  | Disconnect => LabPSU.disconnect
  | Del => LabPSU.__del__
  | SetVoltage x => LabPSU.set_voltage x
  | SetCurrent x => LabPSU.set_current x
  | SetOutput v => LabPSU.set_output v
  | PollTurn during => LabPSU.task_query_status_turn during
  | DrainTurn => LabPSU.task_process_responses_turn
  | HandleLine line =>
      LabPSU.reader_thread (SerialCommunication.handle_line line)
  | ConnectionLost exc =>
      LabPSU.reader_thread (SerialCommunication.connection_lost exc)
  | DeviceConnect opens => ApplicationWindow.device_connect opens
  | DeviceToggleOutput => ApplicationWindow.device_toggle_output
  end.

(** The session after a sequence of calls; a call that raises leaves the
    session as it was when it raised. *)
Definition run_all (calls : list call) (w : LabPSU.t) : LabPSU.t :=
  fold_left (fun w c => state (run c w)) calls w.

(** ** What a reply says *)

(** The status field of a numeric query. *)
Definition number_field (q : string) : option string :=
  if String.eqb q ":MEAS:CURR?" then Some "measured_current"
  else if String.eqb q ":MEAS:VOLT?" then Some "measured_voltage"
  else if String.eqb q ":CURR?" then Some "set_current"
  else if String.eqb q ":VOLT?" then Some "set_voltage"
  else None.

(** The field and the value a matched exchange carries, if its query is
    known and its payload is understood. *)
Definition reading (r : Response.t) : option (string * PyVal.t) :=
  if String.eqb (Response.query r) ":OUTP?"
  then Some ("output", PyVal.Bool (String.eqb (Response.response r) "ON"))
  else
    match number_field (Response.query r) with
    | Some key =>
        option_map (fun x => (key, PyVal.Float x))
          (PyFloat.of_string (Response.response r))
    | None => None
    end.

(** An exchange is well formed unless its query is numeric and [float]
    rejects its payload. *)
Definition well_formed (r : Response.t) : bool :=
  match number_field (Response.query r) with
  | Some _ =>
      match PyFloat.of_string (Response.response r) with
      | Some _ => true
      | None => false
      end
  | None => true
  end.

(** The field an exchange writes, if any. *)
Definition field_of (r : Response.t) : option string :=
  option_map fst (reading r).

(** The cache shows [v]: it holds [v] itself or a value equal to it. *)
Definition shows (cached v : PyVal.t) : Prop :=
  cached = v \/ PyVal.eqb cached v = true.

(** The types of the cache: booleans under [output], and under the other
    keys the initial [-1] or a float. *)
Definition typed (w : LabPSU.t) : Prop :=
  forall key v, LabPSU.status w !! key = Some v ->
    if String.eqb key "output" then exists b, v = PyVal.Bool b
    else v = PyVal.Int (-1) \/ exists x, v = PyVal.Float x.

(** A disconnected session holds no link and no reader thread. *)
Definition idle (w : LabPSU.t) : Prop :=
  LabPSU.connected w = false ->
  LabPSU.link w = None /\ LabPSU.link_worker w = false.

(** ** Notions used in the properties *)

(** A method of the session that keeps it consistent. *)
Definition preserves {A} (c : M LabPSU.t A) : Prop :=
  forall w, consistent w -> consistent (state (c w)).

(** A method of the link that leaves a free lock free. *)
Definition keeps_lock_free {A} (m : M SerialCommunication.t A) : Prop :=
  forall l, SerialCommunication.lock l = false ->
            SerialCommunication.lock (state (m l)) = false.

(** The five queries of a turn, with the lines that arrive during each. *)
Definition battery (during : nat -> list string)
  : list (string * list string) :=
  [(":OUTP?", during 0%nat); (":MEAS:CURR?", during 1%nat);
   (":MEAS:VOLT?", during 2%nat); (":CURR?", during 3%nat);
   (":VOLT?", during 4%nat)].

(** The write into the cache that [status_set] makes. *)
Definition cache_set (st : gmap string PyVal.t) (key : string)
    (v : PyVal.t) : gmap string PyVal.t :=
  match st !! key with
  | Some old => if PyVal.neb old v then <[key := v]> st else st
  | None => st
  end.

(** The notification that goes with that write. *)
Definition notice (st : gmap string PyVal.t) (key : string) (v : PyVal.t)
  : list event :=
  match st !! key with
  | Some old => if PyVal.neb old v then [Emit key v] else []
  | None => []
  end.

(** The cache and the events after one exchange. *)
Definition cache_step (st : gmap string PyVal.t) (r : Response.t)
  : gmap string PyVal.t :=
  match reading r with
  | Some (key, v) => cache_set st key v
  | None => st
  end.

Definition events_step (st : gmap string PyVal.t) (r : Response.t)
  : list event :=
  match reading r with
  | Some (key, v) => notice st key v
  | None => [Warn ("Unknown query: " ++ Response.query r)]
  end.

(** The cache and the events after a queue of exchanges. *)
Fixpoint cache_after (st : gmap string PyVal.t) (rs : list Response.t)
  : gmap string PyVal.t :=
  match rs with
  | [] => st
  | r :: rest => cache_after (cache_step st r) rest
  end.

Fixpoint events_after (st : gmap string PyVal.t) (rs : list Response.t)
  : list event :=
  match rs with
  | [] => []
  | r :: rest => (events_step st r ++ events_after (cache_step st r) rest)%list
  end.

(** The five queries of the dispatch table. *)
Definition known_queries : list string :=
  [":MEAS:CURR?"; ":MEAS:VOLT?"; ":OUTP?"; ":CURR?"; ":VOLT?"].

(** A value fits a key when it has the type the cache keeps under it. *)
Definition fits (key : string) (v : PyVal.t) : Prop :=
  if String.eqb key "output" then exists b, v = PyVal.Bool b
  else v = PyVal.Int (-1) \/ exists x, v = PyVal.Float x.

(** What every method but [connect] and [disconnect] keeps: the types of
    the cache, the flags of the session, and whether it holds a link. *)
Definition step (w w' : LabPSU.t) : Prop :=
  (typed w -> typed w')
  /\ LabPSU.connected w' = LabPSU.connected w
  /\ LabPSU.link_worker w' = LabPSU.link_worker w
  /\ LabPSU.alive w' = LabPSU.alive w
  /\ (LabPSU.link w' = None <-> LabPSU.link w = None).

Definition kept {A} (c : M LabPSU.t A) : Prop :=
  forall w, step w (state (c w)).

(** A session is sound when it is consistent, its cache is typed, and it
    holds no link while disconnected. *)
Definition sound (w : LabPSU.t) : Prop :=
  consistent w /\ typed w /\ idle w.

(** The lines that answer the five queries of a turn, one for each. *)
Definition answers (out cur volt scur svolt : string) (i : nat)
  : list string :=
  match i with
  | 0 => [out]
  | 1 => [cur]
  | 2 => [volt]
  | 3 => [scur]
  | _ => [svolt]
  end%nat.

(** * Properties *)

(** ** Python values *)

Lemma SFeqb_refl (x : PyFloat.float) :
  PyFloat.is_nan x = false -> PyFloat.eqb x x = true.
Proof.
  unfold PyFloat.eqb, SFeqb.
  destruct x as [s|s| |s m e]; cbn; try discriminate; intros _.
  - reflexivity.
  - destruct s; reflexivity.
  - rewrite Z.compare_refl.
    assert (Hm : Pos.compare_cont Eq m m = Eq) by apply Pos.compare_cont_refl.
    destruct s; rewrite Hm; reflexivity.
Qed.

Lemma nan_neq_nan : PyFloat.eqb S754_nan S754_nan = false.
Proof. reflexivity. Qed.

(** [float(str)] on sample strings: numbers, white space, underscores,
    infinities, NaN, overflow and underflow, and strings that are no
    number. *)
Example float_of_string_samples :
  map PyFloat.of_string
    ["0.5"; " 0.5 "; "1_0.5e-1"; "+.5e+2"; "1."; "0.1"; "1e23"; "5e-324";
     "1e400"; "1e-400"; "-Infinity"; "nan"; "-0.0"]
  = [Some (S754_finite false 4503599627370496 (-53));
     Some (S754_finite false 4503599627370496 (-53));
     Some (S754_finite false 4728779608739021 (-52));
     Some (S754_finite false 7036874417766400 (-47));
     Some (S754_finite false 4503599627370496 (-52));
     Some (S754_finite false 7205759403792794 (-56));
     Some (S754_finite false 5960464477539062 24);
     Some (S754_finite false 1 (-1074));
     Some (S754_infinity false);
     Some (S754_zero false);
     Some (S754_infinity true);
     Some S754_nan;
     Some (S754_zero true)]
  /\ map PyFloat.of_string
       ["abc"; ""; "."; "1e"; "1__0"; "_1"; "1_"; "0x10"; "- 1"; "infinit";
        "1,5"; "ON"]
     = repeat None 12.
Proof. vm_compute. split; reflexivity. Qed.

(** ['%.3f' % x] on sample numbers, given by their decimal strings. *)
Example format_3f_samples :
  map (fun s => option_map PyFloat.format_3f (PyFloat.of_string s))
    ["3.3"; "0.5"; "-0.0001"; "2.0005"; "0.0015"; "0.125"; "0.9995";
     "1234567.8915"; "123456789012345678"; "-0.0"; "inf"; "-inf"; "nan"]
  = map Some
      ["3.300"; "0.500"; "-0.000"; "2.001"; "0.002"; "0.125"; "1.000";
       "1234567.891"; "123456789012345680.000"; "-0.000"; "inf"; "-inf";
       "nan"].
Proof. vm_compute. reflexivity. Qed.

(** [==] across the types of the cache: [-1 == -1.0], [False == 0.0],
    [True == 1.0], [2**53 + 1 != float(2**53 + 1)], [0.0 == -0.0]. *)
Example eqb_samples :
  PyVal.eqb (PyVal.Int (-1)) (PyVal.Float (S754_finite true 4503599627370496 (-52)))
  = true
  /\ PyVal.eqb (PyVal.Bool false) (PyVal.Float (S754_zero false)) = true
  /\ PyVal.eqb (PyVal.Bool true)
       (PyVal.Float (S754_finite false 4503599627370496 (-52))) = true
  /\ PyVal.eqb (PyVal.Int (2 ^ 53 + 1))
       (PyVal.Float (S754_finite false 4503599627370496 1)) = false
  /\ PyVal.eqb (PyVal.Float (S754_zero false)) (PyVal.Float (S754_zero true))
     = true.
Proof. vm_compute. repeat split; reflexivity. Qed.

Lemma PyVal_eqb_refl (v : PyVal.t) : is_nan v = false -> PyVal.eqb v v = true.
Proof.
  destruct v as [n|x|b]; cbn; intros H.
  - apply Z.eqb_refl.
  - now apply SFeqb_refl.
  - apply Z.eqb_refl.
Qed.

Lemma PyVal_eqb_nan (v : PyVal.t) : is_nan v = true -> PyVal.eqb v v = false.
Proof.
  destruct v as [n|x|b]; cbn; try discriminate.
  destruct x; cbn; try discriminate. reflexivity.
Qed.

(** ** The two dictionaries *)

Lemma signals_name (key signal : string) :
  LabPSU.signals !! key = Some signal -> signal = key.
Proof.
  unfold LabPSU.signals. cbn [list_to_map foldr fst snd uncurry].
  intros H.
  repeat (apply lookup_insert_Some in H as [[<- <-]|[_ H]]; [reflexivity|]).
  rewrite lookup_empty in H. discriminate.
Qed.

(** ** Record updates that change nothing *)

Lemma set_link_same (w : LabPSU.t) (l : SerialCommunication.t) :
  LabPSU.link w = Some l -> LabPSU.set_link (Some l) w = w.
Proof. destruct w; cbn; intros ->; reflexivity. Qed.

Lemma link_set_link (x : option SerialCommunication.t) (w : LabPSU.t) :
  LabPSU.link (LabPSU.set_link x w) = x.
Proof. destruct w; reflexivity. Qed.

Lemma set_lock_same (l : SerialCommunication.t) :
  SerialCommunication.lock l = false ->
  SerialCommunication.set_lock false l = l.
Proof. destruct l; cbn; intros ->; reflexivity. Qed.

(** ** The query engine *)

(** A query that expects no response only writes. *)
Lemma link_query_no_response (l : SerialCommunication.t) (q : string)
    (during : list string) :
  SerialCommunication.lock l = false ->
  SerialCommunication.transport l = true ->
  SerialCommunication.query q false during l
  = (Return None, l, [Write (q ++ SerialCommunication.TERMINATOR)]).
Proof.
  intros Hl Ht. destruct l as [c rl rs lk tp]; cbn in Hl, Ht; subst lk tp.
  reflexivity.
Qed.

(** Without a transport the write raises before anything is sent; the
    lock is released on the way out and the link is as before. *)
Lemma link_query_no_transport (l : SerialCommunication.t) (q : string)
    (e : bool) (during : list string) :
  SerialCommunication.lock l = false ->
  SerialCommunication.transport l = false ->
  SerialCommunication.query q e during l = (Raise AttributeError, l, []).
Proof.
  intros Hl Ht. destruct l as [c rl rs lk tp]; cbn in Hl, Ht; subst lk tp.
  reflexivity.
Qed.

(** The reader thread appends the lines it delivers. *)
Lemma reader_appends (lines : list string) (l : SerialCommunication.t) :
  SerialCommunication.reader lines l
  = (Return tt,
     SerialCommunication.set_received_lines
       (SerialCommunication.received_lines l ++ lines)%list l,
     []).
Proof.
  revert l. induction lines as [|x xs IH]; intros [c rl rs lk tp].
  - cbn. rewrite app_nil_r. reflexivity.
  - cbn [SerialCommunication.reader]. unfold bind.
    cbn -[SerialCommunication.reader]. rewrite IH. cbn.
    rewrite <- app_assoc. reflexivity.
Qed.

(** A query whose reply arrives in time. *)
Lemma link_query_reply (l : SerialCommunication.t) (q line : string)
    (during rest : list string) :
  SerialCommunication.lock l = false ->
  SerialCommunication.transport l = true ->
  (SerialCommunication.received_lines l ++ during)%list = line :: rest ->
  SerialCommunication.query q true during l
  = (Return None,
     SerialCommunication.Build
       (SerialCommunication.connected l) rest
       (SerialCommunication.responses l ++ [Response.Build q line])%list
       false (SerialCommunication.transport l),
     [Write (q ++ SerialCommunication.TERMINATOR)]).
Proof.
  intros Hl Ht Hq.
  destruct l as [c rl rs lk tp]; cbn in Hl, Ht, Hq; subst lk tp.
  unfold SerialCommunication.query, SerialCommunication.with_lock,
    SerialCommunication.write_line, finally, bind, get, modify, tell.
  cbn -[SerialCommunication.reader]. rewrite reader_appends.
  cbn. rewrite Hq. reflexivity.
Qed.

(** A query whose reply does not arrive in time. *)
Lemma link_query_timeout (l : SerialCommunication.t) (q : string) :
  SerialCommunication.lock l = false ->
  SerialCommunication.transport l = true ->
  SerialCommunication.received_lines l = [] ->
  SerialCommunication.query q true [] l
  = (Return None, l,
     [Write (q ++ SerialCommunication.TERMINATOR);
      Warn ("Query timed out: " ++ q)]).
Proof.
  intros Hl Ht Hq.
  destruct l as [c rl rs lk tp]; cbn in Hl, Ht, Hq; subst lk rl tp.
  reflexivity.
Qed.

(** A query that expects a response, on a link with its transport, never
    raises and leaves the lock free: it enqueues an exchange or warns. *)
Lemma link_query_expect (l : SerialCommunication.t) (q : string)
    (during : list string) :
  SerialCommunication.lock l = false ->
  SerialCommunication.transport l = true ->
  SerialCommunication.query q true during l
  = match (SerialCommunication.received_lines l ++ during)%list with
    | line :: rest =>
        (Return None,
         SerialCommunication.Build
           (SerialCommunication.connected l) rest
           (SerialCommunication.responses l ++ [Response.Build q line])%list
           false (SerialCommunication.transport l),
         [Write (q ++ SerialCommunication.TERMINATOR)])
    | [] =>
        (Return None, l,
         [Write (q ++ SerialCommunication.TERMINATOR);
          Warn ("Query timed out: " ++ q)])
    end.
Proof.
  intros Hl Ht.
  destruct (SerialCommunication.received_lines l ++ during)%list
    as [|line rest] eqn:Hq.
  - apply app_eq_nil in Hq as [Hr ->]. now apply link_query_timeout.
  - now apply link_query_reply.
Qed.

(** The session-level [query] when the session is disconnected. *)
Lemma query_disconnected (w : LabPSU.t) (q : string) (e : bool)
    (during : list string) :
  LabPSU.connected w = false ->
  LabPSU.query q e during w = (Return false, w, []).
Proof.
  intros Hc. unfold LabPSU.query, bind, get. cbn. rewrite Hc. reflexivity.
Qed.

(** The session-level [query] when the session is connected. *)
Lemma query_connected (w : LabPSU.t) (l : SerialCommunication.t)
    (q : string) (e : bool) (during : list string) :
  LabPSU.connected w = true ->
  LabPSU.link w = Some l ->
  LabPSU.query q e during w
  = let '(r, l', tr) := SerialCommunication.query q e during l in
    (match r with
     | Return _ => Return true
     | Raise x => Raise x
     | Hang => Hang
     end, LabPSU.set_link (Some l') w, tr).
Proof.
  intros Hc Hl. unfold LabPSU.query, bind at 1, get. cbn [negb]. rewrite Hc.
  cbn [negb]. unfold bind, LabPSU.on_link. rewrite Hl.
  destruct (SerialCommunication.query q e during l) as [[[a|x|] l'] tr];
    cbn; try reflexivity.
  rewrite app_nil_r. reflexivity.
Qed.

(** A command that expects no response, on a connected session whose
    link has its transport: one line is written and the session is as
    before. *)
Lemma command_connected (w : LabPSU.t) (l : SerialCommunication.t)
    (q : string) :
  LabPSU.connected w = true ->
  LabPSU.link w = Some l ->
  SerialCommunication.lock l = false ->
  SerialCommunication.transport l = true ->
  LabPSU.query q false [] w
  = (Return true, w, [Write (q ++ SerialCommunication.TERMINATOR)]).
Proof.
  intros Hc Hl Hk Ht. rewrite (query_connected w l) by assumption.
  rewrite link_query_no_response by assumption.
  rewrite set_link_same by assumption. reflexivity.
Qed.

(** Any query on a connected session whose link has lost its transport:
    [AttributeError], nothing written, the session as before. *)
Lemma query_no_transport (w : LabPSU.t) (l : SerialCommunication.t)
    (q : string) (e : bool) (during : list string) :
  LabPSU.connected w = true ->
  LabPSU.link w = Some l ->
  SerialCommunication.lock l = false ->
  SerialCommunication.transport l = false ->
  LabPSU.query q e during w = (Raise AttributeError, w, []).
Proof.
  intros Hc Hl Hk Ht. rewrite (query_connected w l) by assumption.
  rewrite link_query_no_transport by assumption.
  rewrite set_link_same by assumption. reflexivity.
Qed.

(** A method that calls [query] and drops its result. *)
Lemma drop_result {S A} (c : M S A) (s : S) :
  (c ;; ret tt) s
  = (match result (c s) with
     | Return _ => Return tt
     | Raise x => Raise x
     | Hang => Hang
     end, state (c s), trace (c s)).
Proof.
  unfold bind, ret, result, state, trace.
  destruct (c s) as [[[a|x|] s'] tr]; cbn; try reflexivity.
  rewrite app_nil_r. reflexivity.
Qed.

(** An exception leaves the rest of the method undone. *)
Lemma bind_raise {S A B} (c : M S A) (k : A -> M S B) (s s1 : S) (x : exn)
    (t1 : list event) :
  c s = (Raise x, s1, t1) -> (a <- c ;; k a) s = (Raise x, s1, t1).
Proof. intros Hc. unfold bind. rewrite Hc. reflexivity. Qed.

(** A query leaves the transport of the link as it is. *)
Lemma query_keeps_transport (l : SerialCommunication.t) (q : string)
    (e : bool) (during : list string) :
  SerialCommunication.lock l = false ->
  SerialCommunication.transport
    (state (SerialCommunication.query q e during l))
  = SerialCommunication.transport l.
Proof.
  intros Hk. destruct (SerialCommunication.transport l) eqn:Ht.
  - destruct e.
    + rewrite link_query_expect by assumption.
      destruct (_ ++ _)%list; exact Ht.
    + rewrite link_query_no_response by assumption. exact Ht.
  - rewrite link_query_no_transport by assumption. exact Ht.
Qed.

(** ** The shape of ['%.3f' % x] *)

Lemma dec_digit (k : Z) :
  (0 <= k <= 9)%Z ->
  exists c, PyFloat.dec k = String c "" /\ PyFloat.is_digit c = true.
Proof.
  intros Hk.
  assert (H : (k = 0 \/ k = 1 \/ k = 2 \/ k = 3 \/ k = 4 \/ k = 5 \/ k = 6
               \/ k = 7 \/ k = 8 \/ k = 9)%Z) by lia.
  repeat destruct H as [->|H]; try subst k; eexists; split; reflexivity.
Qed.

Lemma fixed3_three_decimals (neg : bool) (n : Z) :
  three_decimals (PyFloat.fixed3 neg n).
Proof.
  unfold three_decimals, PyFloat.fixed3.
  assert (Hf : (0 <= n mod 1000 < 1000)%Z) by (apply Z.mod_pos_bound; lia).
  set (f := (n mod 1000)%Z) in *.
  destruct (dec_digit (f / 100)) as (a & Ha & Hda).
  { split; [apply Z.div_pos; lia|].
    assert (f / 100 < 10)%Z by (apply Z.div_lt_upper_bound; lia). lia. }
  destruct (dec_digit (f / 10 mod 10)) as (b & Hb & Hdb).
  { assert (0 <= f / 10 mod 10 < 10)%Z by (apply Z.mod_pos_bound; lia). lia. }
  destruct (dec_digit (f mod 10)) as (c & Hc & Hdc).
  { assert (0 <= f mod 10 < 10)%Z by (apply Z.mod_pos_bound; lia). lia. }
  exists neg, (n / 1000)%Z, a, b, c. rewrite Ha, Hb, Hc. cbn. auto.
Qed.

Lemma format_3f_three_decimals (x : PyFloat.float) :
  is_finite x = true -> three_decimals (PyFloat.format_3f x).
Proof.
  destruct x; cbn; try discriminate; intros _; apply fixed3_three_decimals.
Qed.

(** ** The number that ['%.3f' % x] writes *)

(** Rounding to the nearest integer, ties to even, gives the nearest
    number of thousandths. *)
Lemma round_half_even_nearest (m : positive) (e : Z) :
  nearest_thousandth m e (PyFloat.round_half_even (Z.pos m * 1000) e)
  /\ (0 <= PyFloat.round_half_even (Z.pos m * 1000) e)%Z.
Proof.
  unfold nearest_thousandth, PyFloat.round_half_even.
  set (M := (Z.pos m * 1000)%Z). assert (HM : (0 < M)%Z) by (unfold M; lia).
  destruct (Z.leb_spec 0 e) as [He|He].
  - rewrite Z.max_l, Z.max_r by lia. change (2 ^ 0)%Z with 1%Z.
    assert (0 < 2 ^ e)%Z by (apply Z.pow_pos_nonneg; lia).
    split; [split|]; [lia|lia|nia].
  - rewrite Z.max_r, Z.max_l by lia. change (2 ^ 0)%Z with 1%Z.
    rewrite Z.mul_1_r.
    assert (Hd : (0 < 2 ^ (- e))%Z) by (apply Z.pow_pos_nonneg; lia).
    set (d := (2 ^ (- e))%Z) in *.
    pose proof (Z.div_mod M d ltac:(lia)) as HMd.
    pose proof (Z.mod_pos_bound M d Hd) as Hr.
    assert (Hq : (0 <= M / d)%Z) by (apply Z.div_pos; lia).
    set (q := (M / d)%Z) in *. set (r := (M mod d)%Z) in *.
    assert (Hqd : (M - q * d = r)%Z) by lia.
    assert (Hqd1 : (M - (q + 1) * d = r - d)%Z) by lia.
    destruct (Z.compare_spec (2 * r) d) as [Heq|Hlt|Hgt].
    + destruct (Z.even q) eqn:Hev.
      * rewrite Hqd. split; [split|]; [lia| auto |lia].
      * rewrite Hqd1. split; [split|]; [lia| |lia].
        intros _. rewrite Z.even_add, Hev. reflexivity.
    + rewrite Hqd. split; [split|]; lia.
    + rewrite Hqd1. split; [split|]; lia.
Qed.

(** At most one number of thousandths is the nearest. *)
Lemma nearest_thousandth_unique (m : positive) (e n n' : Z) :
  nearest_thousandth m e n -> nearest_thousandth m e n' -> n = n'.
Proof.
  unfold nearest_thousandth.
  assert (Hd : (0 < 2 ^ Z.max (- e) 0)%Z) by (apply Z.pow_pos_nonneg; lia).
  set (d := (2 ^ Z.max (- e) 0)%Z) in *.
  set (X := (Z.pos m * 1000 * 2 ^ Z.max e 0)%Z).
  intros [H1 E1] [H2 E2].
  assert (Hk : exists k, (n' = n + k)%Z) by (exists (n' - n)%Z; lia).
  destruct Hk as [k ->].
  replace (X - (n + k) * d)%Z with (X - n * d - k * d)%Z in H2, E2 by lia.
  set (a := (X - n * d)%Z) in *.
  assert (Hk : (-1 <= k <= 1)%Z) by nia.
  assert (Hc : (k = -1 \/ k = 0 \/ k = 1)%Z) by lia.
  destruct Hc as [-> | [-> | ->]]; [|lia|].
  - assert (Ha : (Z.abs (2 * a) = d)%Z) by lia.
    assert (Ha' : (Z.abs (2 * (a - -1 * d)) = d)%Z) by lia.
    specialize (E1 Ha). specialize (E2 Ha').
    rewrite Z.even_add, E1 in E2. discriminate.
  - assert (Ha : (Z.abs (2 * a) = d)%Z) by lia.
    assert (Ha' : (Z.abs (2 * (a - 1 * d)) = d)%Z) by lia.
    specialize (E1 Ha). specialize (E2 Ha').
    rewrite Z.even_add, E1 in E2. discriminate.
Qed.

(** The text of a decimal numeral, digit by digit. *)
Lemma digits_of_uint_acc (d : Decimal.uint) (acc : positive) :
  fold_left (fun a c => (10 * a + PyFloat.digit_value c)%Z)
    (list_ascii_of_string (NilEmpty.string_of_uint d)) (Z.pos acc)
  = Z.pos (Pos.of_uint_acc d acc).
Proof.
  revert acc. induction d; intros acc; cbn [NilEmpty.string_of_uint
    list_ascii_of_string fold_left Pos.of_uint_acc]; [reflexivity|..].
  all: rewrite <- IHd; f_equal.
  all: match goal with
       | |- context [PyFloat.digit_value ?c] =>
           let v := eval vm_compute in (PyFloat.digit_value c) in
           change (PyFloat.digit_value c) with v
       end; lia.
Qed.

Lemma digits_of_uint (d : Decimal.uint) :
  PyFloat.digits_to_Z (list_ascii_of_string (NilEmpty.string_of_uint d))
  = Z.of_N (Pos.of_uint d).
Proof.
  unfold PyFloat.digits_to_Z.
  induction d; cbn [NilEmpty.string_of_uint list_ascii_of_string fold_left
    Pos.of_uint]; [reflexivity|exact IHd|..].
  all: cbn [Z.of_N]; rewrite <- digits_of_uint_acc; reflexivity.
Qed.

(** The digits of a numeral are read as a whole, up to the point. *)
Lemma span_digits_uint (d : Decimal.uint) (rest : list ascii) :
  PyFloat.span_digits
    (list_ascii_of_string (NilEmpty.string_of_uint d) ++ "."%char :: rest)
  = (list_ascii_of_string (NilEmpty.string_of_uint d), "."%char :: rest).
Proof.
  induction d; cbn [NilEmpty.string_of_uint list_ascii_of_string app];
    [reflexivity|..].
  all: cbn [PyFloat.span_digits]; rewrite IHd; reflexivity.
Qed.

Lemma list_ascii_of_string_app (s t : string) :
  list_ascii_of_string (s ++ t)
  = (list_ascii_of_string s ++ list_ascii_of_string t)%list.
Proof.
  induction s as [|c s IH]; [reflexivity|].
  change (String c s ++ t) with (String c (s ++ t)).
  cbn [list_ascii_of_string app]. f_equal. exact IH.
Qed.

(** A text [[-]digits.abc] is read back as its sign and its digits. *)
Lemma read_fixed3_text (neg : bool) (d : Decimal.uint) (a b c : ascii) :
  d <> Decimal.Nil ->
  PyFloat.is_digit a = true -> PyFloat.is_digit b = true ->
  PyFloat.is_digit c = true ->
  read_fixed3 ((if neg then "-" else "") ++ NilEmpty.string_of_uint d ++ "."
               ++ String a (String b (String c "")))
  = Some (neg,
          PyFloat.digits_to_Z
            (list_ascii_of_string (NilEmpty.string_of_uint d) ++ [a; b; c])%list).
Proof.
  intros Hd Ha Hb Hc. unfold read_fixed3.
  pose proof (span_digits_uint d [a; b; c]) as Hsp.
  rewrite !list_ascii_of_string_app.
  destruct neg, d; try congruence.
  all: cbn [NilEmpty.string_of_uint list_ascii_of_string app] in *.
  all: cbv beta iota zeta; rewrite Hsp; cbv beta iota zeta.
  all: cbn [length Nat.eqb forallb andb]; rewrite Ha, Hb, Hc; reflexivity.
Qed.

Lemma dec_digit_value (k : Z) :
  (0 <= k <= 9)%Z ->
  exists c, PyFloat.dec k = String c "" /\ PyFloat.is_digit c = true
            /\ PyFloat.digit_value c = k.
Proof.
  intros Hk.
  assert (H : (k = 0 \/ k = 1 \/ k = 2 \/ k = 3 \/ k = 4 \/ k = 5 \/ k = 6
               \/ k = 7 \/ k = 8 \/ k = 9)%Z) by lia.
  repeat destruct H as [->|H]; try subst k; eexists; repeat split; reflexivity.
Qed.

(** The text that [fixed3] makes of [n] thousandths stands for [n]. *)
Lemma read_fixed3_fixed3 (neg : bool) (n : Z) :
  (0 <= n)%Z -> read_fixed3 (PyFloat.fixed3 neg n) = Some (neg, n).
Proof.
  intros Hn. unfold PyFloat.fixed3.
  assert (Hf : (0 <= n mod 1000 < 1000)%Z) by (apply Z.mod_pos_bound; lia).
  pose proof (Z.div_mod n 1000 ltac:(lia)) as Hn1000.
  assert (Hi : (0 <= n / 1000)%Z) by (apply Z.div_pos; lia).
  set (f := (n mod 1000)%Z) in *. set (i := (n / 1000)%Z) in *.
  destruct (dec_digit_value (f / 100)) as (a & Ha & Hda & Hva).
  { split; [apply Z.div_pos; lia|].
    assert (f / 100 < 10)%Z by (apply Z.div_lt_upper_bound; lia). lia. }
  destruct (dec_digit_value (f / 10 mod 10)) as (b & Hb & Hdb & Hvb).
  { assert (0 <= f / 10 mod 10 < 10)%Z by (apply Z.mod_pos_bound; lia). lia. }
  destruct (dec_digit_value (f mod 10)) as (c & Hc & Hdc & Hvc).
  { assert (0 <= f mod 10 < 10)%Z by (apply Z.mod_pos_bound; lia). lia. }
  rewrite Ha, Hb, Hc.
  change (String a "" ++ String b "" ++ String c "")
    with (String a (String b (String c ""))).
  unfold PyFloat.dec.
  assert (Hnil : N.to_uint (Z.to_N i) <> Decimal.Nil).
  { destruct (Z.to_N i); [discriminate|].
    apply DecimalPos.Unsigned.to_uint_nonnil. }
  assert (Hs : NilZero.string_of_uint (N.to_uint (Z.to_N i))
               = NilEmpty.string_of_uint (N.to_uint (Z.to_N i))).
  { destruct (N.to_uint (Z.to_N i)); [congruence|..]; reflexivity. }
  rewrite Hs, read_fixed3_text by assumption.
  f_equal. f_equal.
  unfold PyFloat.digits_to_Z. rewrite fold_left_app.
  fold (PyFloat.digits_to_Z
          (list_ascii_of_string
             (NilEmpty.string_of_uint (N.to_uint (Z.to_N i))))).
  rewrite digits_of_uint.
  change (Pos.of_uint (N.to_uint (Z.to_N i)))
    with (N.of_uint (N.to_uint (Z.to_N i))).
  rewrite DecimalN.Unsigned.of_to, Z2N.id by assumption.
  cbn [fold_left]. rewrite Hva, Hvb, Hvc.
  pose proof (Z.div_mod f 10 ltac:(lia)) as H10.
  pose proof (Z.div_mod (f / 10) 10 ltac:(lia)) as H100.
  rewrite Z.div_div in H100 by lia. change (10 * 10)%Z with 100%Z in H100.
  lia.
Qed.

(** ['%.3f' % x] is [x] formatted to fixed three decimal places. *)
Lemma format_3f_formatted (x : PyFloat.float) :
  formatted_3_places x (PyFloat.format_3f x).
Proof.
  destruct x as [s|s| |s m e]; cbn [formatted_3_places PyFloat.format_3f].
  - apply read_fixed3_fixed3. lia.
  - destruct s; reflexivity.
  - reflexivity.
  - destruct (round_half_even_nearest m e) as [Hn H0].
    eexists. split; [exact Hn|]. now apply read_fixed3_fixed3.
Qed.

(** ** The commands *)

(** C8: on a connected session [set_output(True)] writes the literal line
    [:OUTP ON] and [set_output(False)] the literal line [:OUTP OFF]; the
    call returns after the write and leaves the session as it was: no
    inbound line is taken and no exchange is enqueued. *)
Theorem set_output_writes_literal (w : LabPSU.t) (l : SerialCommunication.t) :
  LabPSU.connected w = true ->
  LabPSU.link w = Some l ->
  SerialCommunication.lock l = false ->
  SerialCommunication.transport l = true ->
  LabPSU.set_output (PyVal.Bool true) w
  = (Return tt, w, [Write (":OUTP ON" ++ SerialCommunication.TERMINATOR)])
  /\ LabPSU.set_output (PyVal.Bool false) w
     = (Return tt, w, [Write (":OUTP OFF" ++ SerialCommunication.TERMINATOR)]).
Proof.
  intros Hc Hl Hk Ht. unfold LabPSU.set_output. split.
  all: rewrite drop_result, (command_connected w l) by assumption.
  all: reflexivity.
Qed.

Lemma set_output_writes_literal_witness :
  LabPSU.connected connected_session = true
  /\ LabPSU.set_output (PyVal.Bool true) connected_session
     = (Return tt, connected_session,
        [Write (":OUTP ON" ++ SerialCommunication.TERMINATOR)])
  /\ LabPSU.set_output (PyVal.Bool false) connected_session
     = (Return tt, connected_session,
        [Write (":OUTP OFF" ++ SerialCommunication.TERMINATOR)]).
Proof.
  split; [reflexivity|].
  apply (set_output_writes_literal connected_session started_link);
    reflexivity.
Defined.

(** C7: on a connected session whose link has its transport, for every
    float [x], [set_voltage(x)] writes exactly [:VOLT ] followed by a text
    [s] and [set_current(x)] exactly [:CURR ] followed by the same [s],
    where [s] is [x] formatted to fixed three decimal places: a text
    [[-]digits.ddd] that stands for the number of thousandths nearest to
    [x] (the even one of two equally near) with the sign of [x], as in
    [3.300] for 3.3 and [0.500] for 0.5; an infinity is written [inf] or
    [-inf] and NaN [nan]. Both calls return after the write, with no wait
    for a reply, and leave the session as it was. *)
Theorem set_voltage_current_write_3f (w : LabPSU.t)
    (l : SerialCommunication.t) (x : PyFloat.float) :
  LabPSU.connected w = true ->
  LabPSU.link w = Some l ->
  SerialCommunication.lock l = false ->
  SerialCommunication.transport l = true ->
  exists s : string,
    formatted_3_places x s
    /\ (is_finite x = true -> three_decimals s)
    /\ LabPSU.set_voltage x w
       = (Return tt, w,
          [Write (":VOLT " ++ s ++ SerialCommunication.TERMINATOR)])
    /\ LabPSU.set_current x w
       = (Return tt, w,
          [Write (":CURR " ++ s ++ SerialCommunication.TERMINATOR)])
    /\ (x = float_3_3 -> s = "3.300")
    /\ (PyFloat.of_string "0.5" = Some x -> s = "0.500").
Proof.
  intros Hc Hl Hk Ht. exists (PyFloat.format_3f x).
  unfold LabPSU.set_voltage, LabPSU.set_current.
  rewrite !drop_result, !(command_connected w l) by assumption.
  cbn [result state trace fst snd].
  split; [apply format_3f_formatted|].
  split; [apply format_3f_three_decimals|].
  split; [reflexivity|]. split; [reflexivity|].
  split.
  - intros ->. vm_compute. reflexivity.
  - intros Hx. vm_compute in Hx. injection Hx as <-. vm_compute. reflexivity.
Qed.

Lemma float_3_3_parsed : PyFloat.of_string "3.3" = Some float_3_3.
Proof. vm_compute. reflexivity. Qed.

Lemma set_voltage_current_write_3f_witness :
  LabPSU.connected connected_session = true
  /\ LabPSU.link connected_session = Some started_link
  /\ SerialCommunication.lock started_link = false
  /\ SerialCommunication.transport started_link = true
  /\ LabPSU.set_voltage float_3_3 connected_session
     = (Return tt, connected_session,
        [Write (":VOLT 3.300" ++ SerialCommunication.TERMINATOR)])
  /\ LabPSU.set_current float_3_3 connected_session
     = (Return tt, connected_session,
        [Write (":CURR 3.300" ++ SerialCommunication.TERMINATOR)])
  /\ read_fixed3 "3.300" = Some (false, 3300%Z).
Proof.
  split; [reflexivity|]. split; [reflexivity|]. split; [reflexivity|].
  split; [reflexivity|].
  destruct (set_voltage_current_write_3f connected_session started_link
              float_3_3 eq_refl eq_refl eq_refl eq_refl)
    as (s & _ & _ & Hv & Hi & Hs & _).
  rewrite (Hs eq_refl) in Hv, Hi.
  split; [exact Hv|]. split; [exact Hi|]. reflexivity.
Defined.

(** ** The session-level [query] and the connection *)

(** C10: on a disconnected session the session-level [query] returns
    [False], and it and the eight commands built on it write nothing and
    leave the session, with its status cache, as it was; on a connected
    session whose link has its transport, [query] returns [True] whether
    or not the exchange times out; it never touches the status cache. The
    claim fails on a session that has lost its serial link: the session is
    still connected, its link has no transport, and [query] raises
    [AttributeError] instead of returning [True], with nothing written. It
    does so after [connect] and a [connection_lost] with the exception
    that ended the reader thread. *)
Theorem query_returns_connected (w : LabPSU.t) (q : string) (e : bool)
    (during : list string) :
  consistent w ->
  LabPSU.status (state (LabPSU.query q e during w)) = LabPSU.status w
  /\ (LabPSU.connected w = false ->
      LabPSU.query q e during w = (Return false, w, [])
      /\ (forall x, LabPSU.set_voltage x w = (Return tt, w, []))
      /\ (forall x, LabPSU.set_current x w = (Return tt, w, []))
      /\ (forall s, LabPSU.set_output s w = (Return tt, w, []))
      /\ LabPSU.measure_current during w = (Return tt, w, [])
      /\ LabPSU.measure_voltage during w = (Return tt, w, [])
      /\ LabPSU.get_output during w = (Return tt, w, [])
      /\ LabPSU.get_current during w = (Return tt, w, [])
      /\ LabPSU.get_voltage during w = (Return tt, w, []))
  /\ (LabPSU.connected w = true -> live w ->
      result (LabPSU.query q e during w) = Return true)
  /\ (forall l, LabPSU.connected w = true -> LabPSU.link w = Some l ->
      SerialCommunication.transport l = false ->
      LabPSU.query q e during w = (Raise AttributeError, w, []))
  /\ LabPSU.connected (link_lost_session (Some SerialException)) = true
  /\ LabPSU.query q e during (link_lost_session (Some SerialException))
     = (Raise AttributeError, link_lost_session (Some SerialException), []).
Proof.
  intros [_ Hw]. split; [|split; [|split; [|split; [|split]]]].
  - destruct (LabPSU.connected w) eqn:Hc.
    + destruct (Hw eq_refl) as (_ & l & Hl & Hk).
      rewrite (query_connected w l) by assumption.
      destruct (SerialCommunication.query q e during l) as [[r l'] tr].
      destruct w; reflexivity.
    + rewrite query_disconnected by assumption. reflexivity.
  - intros Hc.
    unfold LabPSU.set_voltage, LabPSU.set_current, LabPSU.set_output,
      LabPSU.measure_current, LabPSU.measure_voltage, LabPSU.get_output,
      LabPSU.get_current, LabPSU.get_voltage.
    split; [now apply query_disconnected|].
    repeat split; intros; rewrite drop_result, query_disconnected by assumption;
      reflexivity.
  - intros Hc Hlive. destruct (Hw Hc) as (_ & l & Hl & Hk).
    pose proof (Hlive l Hl) as Ht.
    rewrite (query_connected w l) by assumption.
    destruct e.
    + rewrite link_query_expect by assumption.
      destruct (_ ++ _)%list; reflexivity.
    + rewrite link_query_no_response by assumption. reflexivity.
  - intros l Hc Hl Ht. destruct (Hw Hc) as (_ & l' & Hl' & Hk).
    rewrite Hl in Hl'. injection Hl' as <-.
    now apply (query_no_transport w l).
  - reflexivity.
  - apply (query_no_transport _ (SerialCommunication.Build true [] [] false
                                   false)); reflexivity.
Qed.

(** ** The status cache *)

(** [status_set] on a key of the cache: write and notify when the value
    differs from the cached one, nothing otherwise. *)
Lemma status_set_spec (w : LabPSU.t) (key signal : string)
    (old v : PyVal.t) :
  LabPSU.status w !! key = Some old ->
  LabPSU.signals !! key = Some signal ->
  LabPSU.status_set key v w
  = if PyVal.neb old v
    then (Return true,
          LabPSU.set_status (<[key := v]> (LabPSU.status w)) w,
          [Emit signal v])
    else (Return false, w, []).
Proof.
  intros Hk Hs. unfold LabPSU.status_set, bind at 1 2, get, getitem.
  cbn [fst snd]. rewrite Hk. cbn [ret].
  destruct (PyVal.neb old v); [|reflexivity].
  unfold bind, modify, getitem, LabPSU.emit, tell, ret, get.
  rewrite Hs. cbn. rewrite lookup_insert_eq. reflexivity.
Qed.

(** C9: the handler of the output state writes the boolean
    [value == 'ON'], which is true exactly for the payload [ON]; every
    other payload, as [OFF], [0], [on] or [ON] with a character more,
    gives false. The dispatch table sends the replies to [:OUTP?] to that
    handler. *)
Theorem output_reply_true_iff_ON (value : string) :
  (forall key w,
      LabPSU.status_set_on_off key value w
      = LabPSU.status_set key (PyVal.Bool (String.eqb value "ON")) w)
  /\ (String.eqb value "ON" = true <-> value = "ON")
  /\ LabPSU.response_handlers !! ":OUTP?"
     = Some (fun v => LabPSU.handled (LabPSU.status_set_on_off "output" v))
  /\ map (fun s => String.eqb s "ON") ["ON"; "OFF"; "0"; "on"; "ON "; " ON"; ""]
     = [true; false; false; false; false; false; false].
Proof.
  split; [reflexivity|]. split; [apply String.eqb_eq|].
  split; reflexivity.
Qed.

Lemma consistent_init : consistent LabPSU.__init__.
Proof.
  split; [|discriminate].
  intros key [s Hs]. pose proof (signals_name _ _ Hs) as ->.
  unfold LabPSU.signals in Hs. cbn [list_to_map foldr fst snd uncurry] in Hs.
  repeat (apply lookup_insert_Some in Hs as [[<- _]|[_ Hs]];
          [vm_compute; eauto|]).
  rewrite lookup_empty in Hs. discriminate.
Qed.

Lemma consistent_connected_session : consistent connected_session.
Proof.
  split.
  - apply consistent_init.
  - intros _. split; [reflexivity|]. eexists. split; reflexivity.
Qed.

Lemma live_connected_session : live connected_session.
Proof. intros l Hl. injection Hl as <-. reflexivity. Qed.

Lemma consistent_link_lost_session (exc : option exn) :
  consistent (link_lost_session exc).
Proof.
  destruct exc; (split; [apply consistent_init|]).
  all: intros _; split; [reflexivity|]; eexists; split; reflexivity.
Qed.

Lemma query_returns_connected_witness :
  consistent LabPSU.__init__
  /\ LabPSU.query ":VOLT?" true ["5.0"] LabPSU.__init__
     = (Return false, LabPSU.__init__, [])
  /\ result (LabPSU.query ":VOLT?" true [] connected_session) = Return true
  /\ result (LabPSU.query ":VOLT?" true ["5.0"]
               (link_lost_session (Some SerialException)))
     = Raise AttributeError.
Proof.
  split; [apply consistent_init|]. split; [|split].
  - apply (query_returns_connected LabPSU.__init__ ":VOLT?" true ["5.0"]
             consistent_init).
    reflexivity.
  - apply (query_returns_connected connected_session ":VOLT?" true []
             consistent_connected_session);
      [reflexivity|apply live_connected_session].
  - destruct (query_returns_connected LabPSU.__init__ ":VOLT?" true ["5.0"]
                consistent_init) as (_ & _ & _ & _ & _ & H).
    rewrite H. reflexivity.
Defined.

(** C1, as the code has it: for a status field [key] with cached value
    [old], [status_set(key, v)] writes the cache, emits the one
    notification [(key, v)] and returns [True] when [old != v], and
    writes nothing, emits nothing and returns [False] when [old == v].
    The comparison is Python's, with no tolerance. A second call with the
    same field and value is then silent for every [v] that equals itself,
    that is every value but the float NaN; for NaN, which differs from
    itself, the second call writes and notifies again. *)
Theorem status_set_change_detection (w : LabPSU.t) (key signal : string)
    (old v : PyVal.t) :
  LabPSU.status w !! key = Some old ->
  LabPSU.signals !! key = Some signal ->
  let r := LabPSU.status_set key v w in
  signal = key
  /\ (PyVal.neb old v = true ->
      r = (Return true,
           LabPSU.set_status (<[key := v]> (LabPSU.status w)) w,
           [Emit key v]))
  /\ (PyVal.neb old v = false -> r = (Return false, w, []))
  /\ (is_nan v = false ->
      LabPSU.status_set key v (state r) = (Return false, state r, []))
  /\ (is_nan v = true ->
      result (LabPSU.status_set key v (state r)) = Return true
      /\ trace (LabPSU.status_set key v (state r)) = [Emit key v]).
Proof.
  intros Hk Hs r. pose proof (signals_name _ _ Hs) as ->.
  subst r. rewrite (status_set_spec w key key old v Hk Hs).
  split; [reflexivity|].
  split; [intros ->; reflexivity|].
  split; [intros ->; reflexivity|].
  assert (Hnext : forall b : bool,
    PyVal.eqb v v = b ->
    LabPSU.status_set key v
      (state (if PyVal.neb old v
              then (Return true,
                    LabPSU.set_status (<[key := v]> (LabPSU.status w)) w,
                    [Emit key v])
              else (Return false, w, [])))
    = if negb b
      then (Return true,
            LabPSU.set_status (<[key := v]> (LabPSU.status w)) w,
            [Emit key v])
      else (Return false,
            state (if PyVal.neb old v
                   then (Return true,
                         LabPSU.set_status (<[key := v]> (LabPSU.status w)) w,
                         [Emit key v])
                   else (Return false, w, [])), [])).
  { intros b Hb. destruct (PyVal.neb old v) eqn:Hne; cbn [state fst snd].
    - rewrite (status_set_spec _ key key v v);
        [|destruct w; cbn; apply lookup_insert_eq|assumption].
      unfold PyVal.neb. rewrite Hb. destruct b; cbn [negb]; [reflexivity|].
      destruct w; cbn. rewrite insert_insert_eq. reflexivity.
    - rewrite (status_set_spec _ key key old v Hk Hs), Hne.
      unfold PyVal.neb in Hne. apply negb_false_iff in Hne.
      (* the cached value equals [v], so [v] equals itself *)
      destruct b; [reflexivity|].
      exfalso. destruct v as [n|x|c]; cbn in Hb.
      + rewrite Z.eqb_refl in Hb. discriminate.
      + destruct x as [s|s| |s m e].
        * discriminate.
        * destruct s; discriminate.
        * destruct old as [n|y|c]; cbn in Hne; try discriminate.
          destruct y; discriminate.
        * rewrite SFeqb_refl in Hb by reflexivity. discriminate.
      + rewrite Z.eqb_refl in Hb. discriminate. }
  split.
  - intros Hn. rewrite (Hnext true (PyVal_eqb_refl v Hn)). reflexivity.
  - intros Hn. rewrite (Hnext false (PyVal_eqb_nan v Hn)). split; reflexivity.
Qed.

Lemma status_set_change_detection_witness :
  LabPSU.status LabPSU.__init__ !! "measured_voltage" = Some (PyVal.Int (-1))
  /\ LabPSU.status_set "measured_voltage"
       (PyVal.Float (S754_finite false 5629499534213120 (-50))) LabPSU.__init__
     = (Return true,
        LabPSU.set_status
          (<["measured_voltage" :=
               PyVal.Float (S754_finite false 5629499534213120 (-50))]>
             (LabPSU.status LabPSU.__init__)) LabPSU.__init__,
        [Emit "measured_voltage"
           (PyVal.Float (S754_finite false 5629499534213120 (-50)))]).
Proof.
  split; [reflexivity|].
  apply (status_set_change_detection LabPSU.__init__ "measured_voltage"
           "measured_voltage" (PyVal.Int (-1))
           (PyVal.Float (S754_finite false 5629499534213120 (-50)))
           eq_refl eq_refl).
  reflexivity.
Defined.

(** C1, the counterexample: the float NaN differs from itself, so two
    consecutive calls with the same field and the same value notify
    twice. The device reply [nan] brings that value in: two such replies
    to [:MEAS:VOLT?] give two notifications. *)
Lemma status_set_nan_notifies_twice :
  let v := PyVal.Float S754_nan in
  let r1 := LabPSU.status_set "measured_voltage" v LabPSU.__init__ in
  let r2 := LabPSU.status_set "measured_voltage" v (state r1) in
  (result r1 = Return true /\ emits (trace r1) = [("measured_voltage", v)])
  /\ (result r2 = Return true /\ emits (trace r2) = [("measured_voltage", v)])
  /\ emits (trace ((LabPSU.measure_voltage ["nan"] ;;
                    LabPSU.measure_voltage ["nan"] ;;
                    LabPSU.process_responses) connected_session))
     = [("measured_voltage", v); ("measured_voltage", v)].
Proof. vm_compute. repeat split; reflexivity. Qed.

(** ** Submitting queries *)

(** C4, as the code has it: on a link that has its transport, a query
    that expects a response and gets a line in time puts the exchange
    [{query, line}] at the end of the delivery queue, frees the lock and
    returns [None]: the reply reaches the callers through the queue only.
    A query that expects no response returns [None] after the write, takes
    no inbound line and enqueues nothing. *)
Theorem link_query_enqueues_exchange (l : SerialCommunication.t)
    (q line : string) (during rest : list string) :
  SerialCommunication.lock l = false ->
  SerialCommunication.transport l = true ->
  (SerialCommunication.received_lines l ++ during)%list = line :: rest ->
  SerialCommunication.query q true during l
  = (Return None,
     SerialCommunication.Build
       (SerialCommunication.connected l) rest
       (SerialCommunication.responses l ++ [Response.Build q line])%list
       false (SerialCommunication.transport l),
     [Write (q ++ SerialCommunication.TERMINATOR)])
  /\ SerialCommunication.query q false during l
     = (Return None, l, [Write (q ++ SerialCommunication.TERMINATOR)]).
Proof.
  intros Hl Ht Hq. split.
  - now apply link_query_reply.
  - now apply link_query_no_response.
Qed.

Lemma link_query_enqueues_exchange_witness :
  SerialCommunication.lock started_link = false
  /\ SerialCommunication.transport started_link = true
  /\ SerialCommunication.query ":VOLT?" true ["5.0"] started_link
     = (Return None,
        SerialCommunication.Build true [] [Response.Build ":VOLT?" "5.0"]
          false true,
        [Write (":VOLT?" ++ SerialCommunication.TERMINATOR)]).
Proof.
  split; [reflexivity|]. split; [reflexivity|].
  apply (link_query_enqueues_exchange started_link
           ":VOLT?" "5.0" ["5.0"] [] eq_refl eq_refl eq_refl).
Defined.

(** C4, the counterexample: the reply [5.0] to [:VOLT?] arrives in time
    and is enqueued, and the call returns [None], not the line. *)
Lemma link_query_returns_none :
  let r := SerialCommunication.query ":VOLT?" true ["5.0"] started_link in
  SerialCommunication.responses (state r) = [Response.Build ":VOLT?" "5.0"]
  /\ result r = Return None
  /\ result r <> Return (Some "5.0").
Proof. cbn. repeat split; discriminate. Qed.

(** C5: a query of a connected session, whose link has its transport,
    that expects a response and gets none in time writes its line once,
    warns [Query timed out], enqueues no exchange and leaves the session,
    its status cache and the free lock as they were; [query] returns as
    usual. The next query is served: its reply is paired with it at the
    end of the delivery queue. *)
Theorem query_timeout_recoverable (w : LabPSU.t) (l : SerialCommunication.t)
    (q : string) :
  LabPSU.connected w = true ->
  LabPSU.link w = Some l ->
  SerialCommunication.lock l = false ->
  SerialCommunication.transport l = true ->
  SerialCommunication.received_lines l = [] ->
  LabPSU.query q true [] w
  = (Return true, w,
     [Write (q ++ SerialCommunication.TERMINATOR);
      Warn ("Query timed out: " ++ q)])
  /\ forall (q2 line : string) (during : list string),
      LabPSU.query q2 true (line :: during)
        (state (LabPSU.query q true [] w))
      = (Return true,
         LabPSU.set_link
           (Some (SerialCommunication.Build
                    (SerialCommunication.connected l) during
                    (SerialCommunication.responses l
                     ++ [Response.Build q2 line])%list
                    false (SerialCommunication.transport l))) w,
         [Write (q2 ++ SerialCommunication.TERMINATOR)]).
Proof.
  intros Hc Hl Hk Ht Hq.
  assert (H1 : LabPSU.query q true [] w
               = (Return true, w,
                  [Write (q ++ SerialCommunication.TERMINATOR);
                   Warn ("Query timed out: " ++ q)])).
  { rewrite (query_connected w l) by assumption.
    rewrite link_query_timeout by assumption.
    rewrite set_link_same by assumption. reflexivity. }
  split; [exact H1|].
  intros q2 line during. rewrite H1. cbn [state fst snd].
  rewrite (query_connected w l) by assumption.
  rewrite (link_query_reply l q2 line (line :: during) during Hk Ht)
    by (rewrite Hq; reflexivity).
  reflexivity.
Qed.

Lemma query_timeout_recoverable_witness :
  LabPSU.connected connected_session = true
  /\ LabPSU.query ":MEAS:CURR?" true [] connected_session
     = (Return true, connected_session,
        [Write (":MEAS:CURR?" ++ SerialCommunication.TERMINATOR);
         Warn "Query timed out: :MEAS:CURR?"]).
Proof.
  split; [reflexivity|].
  apply (query_timeout_recoverable connected_session started_link
           ":MEAS:CURR?" eq_refl eq_refl eq_refl eq_refl eq_refl).
Defined.

(** ** The order of the exchanges *)

Lemma submit_all_cons (q : string) (during : list string)
    (rest : list (string * list string)) (l : SerialCommunication.t) :
  SerialCommunication.lock l = false ->
  SerialCommunication.transport l = true ->
  submit_all ((q, during) :: rest) l
  = let first := SerialCommunication.query q true during l in
    let next := submit_all rest (state first) in
    (result next, state next, (trace first ++ trace next)%list).
Proof.
  intros Hk Ht. cbn [submit_all]. unfold bind.
  rewrite link_query_expect by assumption.
  destruct (_ ++ _)%list; cbn [result state trace fst snd];
    destruct (submit_all rest _) as [[r1 s1] t1]; reflexivity.
Qed.

(** C6: queries that expect a response are submitted one after the other
    on a link that has its transport, each holding the lock from its write
    to the end of its wait. The run returns with the lock free, and if no
    query times out the delivery queue grows by one exchange for each
    query, in the order of submission, the Nth query paired with the Nth
    inbound line. *)
Theorem exchanges_in_submission_order (queries : list (string * list string))
    (l : SerialCommunication.t) :
  SerialCommunication.lock l = false ->
  SerialCommunication.transport l = true ->
  warns (trace (submit_all queries l)) = [] ->
  let inbound :=
    (SerialCommunication.received_lines l ++ concat (map snd queries))%list in
  let after := state (submit_all queries l) in
  result (submit_all queries l) = Return tt
  /\ SerialCommunication.lock after = false
  /\ writes (trace (submit_all queries l))
     = map (fun q => fst q ++ SerialCommunication.TERMINATOR) queries
  /\ (length queries <= length inbound)%nat
  /\ SerialCommunication.responses after
     = (SerialCommunication.responses l
        ++ zip_with Response.Build (map fst queries) inbound)%list
  /\ SerialCommunication.received_lines after
     = drop (length queries) inbound.
Proof.
  revert l. induction queries as [|[q during] rest IH]; intros l Hk Ht Hw.
  - cbn. rewrite !app_nil_r. repeat split; [assumption|lia].
  - cbv zeta. rewrite submit_all_cons in * by assumption.
    cbn [result state trace fst snd map concat length] in *.
    rewrite link_query_expect in * by assumption.
    rewrite !(app_assoc (SerialCommunication.received_lines l) during).
    destruct (SerialCommunication.received_lines l ++ during)%list
      as [|line more] eqn:Hq; cbn [result state trace fst snd] in *.
    { cbn in Hw. discriminate. }
    cbn [app] in Hw.
    match type of Hw with
    | warns (_ :: ?t) = [] => change (warns t = []) in Hw
    end.
    match type of Hw with
    | warns (trace (submit_all rest ?l1)) = [] =>
        specialize (IH l1 eq_refl Ht Hw)
    end.
    cbv zeta in IH.
    cbn [SerialCommunication.received_lines SerialCommunication.responses]
      in IH.
    destruct IH as (Hr & Hl & Hwr & Hlen & Hres & Hrec).
    split; [exact Hr|]. split; [exact Hl|].
    split; [cbn; f_equal; exact Hwr|].
    split; [cbn [app length]; lia|].
    split.
    + rewrite Hres. cbn [app zip_with]. rewrite <- app_assoc. reflexivity.
    + rewrite Hrec. reflexivity.
Qed.

Lemma exchanges_in_submission_order_witness :
  SerialCommunication.lock started_link = false
  /\ SerialCommunication.transport started_link = true
  /\ SerialCommunication.responses
       (state (submit_all [(":OUTP?", ["ON"]); (":MEAS:CURR?", ["0.100"]);
                           (":MEAS:VOLT?", ["5.000"])]
                 started_link))
     = [Response.Build ":OUTP?" "ON"; Response.Build ":MEAS:CURR?" "0.100";
        Response.Build ":MEAS:VOLT?" "5.000"].
Proof.
  split; [reflexivity|]. split; [reflexivity|].
  apply (exchanges_in_submission_order
           [(":OUTP?", ["ON"]); (":MEAS:CURR?", ["0.100"]);
            (":MEAS:VOLT?", ["5.000"])]
           started_link eq_refl eq_refl eq_refl).
Defined.

(** ** The drain loop *)

(** The loop body takes the oldest exchange of the delivery queue. *)
Lemma on_link_responses_get (w : LabPSU.t) (l : SerialCommunication.t)
    (r : Response.t) (rest : list Response.t) :
  LabPSU.link w = Some l ->
  SerialCommunication.responses l = r :: rest ->
  LabPSU.on_link SerialCommunication.responses_get w
  = (Return r,
     LabPSU.set_link (Some (SerialCommunication.set_responses rest l)) w,
     []).
Proof.
  intros Hl Hr. unfold LabPSU.on_link. rewrite Hl.
  unfold SerialCommunication.responses_get, bind at 1, get.
  cbn [fst snd]. rewrite Hr. reflexivity.
Qed.

(** A reply to an unknown query is warned about, and the loop goes on. *)
Lemma process_response_unknown (w : LabPSU.t) (l : SerialCommunication.t)
    (q value : string) (rest : list Response.t) :
  LabPSU.link w = Some l ->
  SerialCommunication.responses l = Response.Build q value :: rest ->
  LabPSU.response_handlers !! q = None ->
  LabPSU.process_response w
  = (Return tt,
     LabPSU.set_link (Some (SerialCommunication.set_responses rest l)) w,
     [Warn ("Unknown query: " ++ q)]).
Proof.
  intros Hl Hr Hq.
  unfold LabPSU.process_response, bind at 1.
  rewrite (on_link_responses_get w l _ rest Hl Hr).
  cbn [Response.query Response.response]. rewrite Hq. reflexivity.
Qed.

(** A reply to a numeric query that [float] does not parse raises
    [ValueError] out of the loop body, after the reply left the queue. *)
Lemma process_response_malformed (w : LabPSU.t) (l : SerialCommunication.t)
    (q value : string) (rest : list Response.t) :
  LabPSU.link w = Some l ->
  SerialCommunication.responses l = Response.Build q value :: rest ->
  In q numeric_queries ->
  PyFloat.of_string value = None ->
  LabPSU.process_response w
  = (Raise (ValueError value),
     LabPSU.set_link (Some (SerialCommunication.set_responses rest l)) w,
     []).
Proof.
  intros Hl Hr Hq Hv.
  unfold LabPSU.process_response, bind at 1.
  rewrite (on_link_responses_get w l _ rest Hl Hr).
  cbn [Response.query Response.response].
  assert (Hh : exists key,
             LabPSU.response_handlers !! q
             = Some (fun v => LabPSU.handled (LabPSU.status_set_number key v))).
  { cbn in Hq. destruct Hq as [<-|[<-|[<-|[<-|[]]]]]; eexists; reflexivity. }
  destruct Hh as [key ->].
  unfold default, LabPSU.handled, LabPSU.status_set_number, LabPSU.float, bind.
  unfold id. cbv beta. rewrite Hv. reflexivity.
Qed.

(** C2, what the code does: the reply [abc] to [:MEAS:VOLT?] is followed
    in the delivery queue by the reply [ON] to [:OUTP?]. [float('abc')]
    raises [ValueError], which nothing catches: it leaves
    [process_responses] and ends [task_process_responses], however many
    turns the thread is given. Nothing is logged, the cache is as it was,
    and the second reply stays in the queue, unprocessed: [output] is
    still [False]. With the reply [5.0] instead, both replies are
    processed. *)
Theorem malformed_number_ends_drain_loop (turns : nat) :
  let r := LabPSU.task_process_responses (S turns) garbled_session in
  result r = Raise (ValueError "abc")
  /\ trace r = []
  /\ LabPSU.status (state r) = LabPSU.status LabPSU.__init__
  /\ LabPSU.status (state r) !! "output" = Some (PyVal.Bool false)
  /\ option_map SerialCommunication.responses (LabPSU.link (state r))
     = Some [Response.Build ":OUTP?" "ON"]
  /\ emits (trace (LabPSU.task_process_responses 1
                     (state ((LabPSU.measure_voltage ["5.0"] ;;
                              LabPSU.get_output ["ON"]) connected_session))))
     = [("measured_voltage",
         PyVal.Float (S754_finite false 5629499534213120 (-50)));
        ("output", PyVal.Bool true)].
Proof. vm_compute. repeat split; reflexivity. Qed.

(** ** Loss of the link *)

(** C3, what the code does: when the reader thread reports the loss of
    the link of a connected session, [connection_lost] changes the link
    object only. The base class forgets the transport, and raises the
    exception again when the loss came with one, so that the link's own
    [connected] flag is cleared only on a loss without exception. Nothing
    reaches the session: [LabPSU.connected] is still [True], the status
    cache is as it was and no notification is emitted. The loops do not
    go idle: the next turn of the poll loop runs its body, its first query
    raises [AttributeError] on the missing transport with nothing
    written, and the exception ends [task_query_status]; the drain loop
    still processes the exchanges of the delivery queue. The sibling path
    [disconnect()] does what the claim says: it makes the session
    disconnected and emits the connection notification with [False],
    after which a turn of either loop does nothing. *)
Theorem connection_lost_not_propagated (w : LabPSU.t)
    (l : SerialCommunication.t) (exc : option exn) :
  consistent w ->
  LabPSU.connected w = true ->
  LabPSU.link w = Some l ->
  let r := LabPSU.reader_thread (SerialCommunication.connection_lost exc) w in
  result r = match exc with None => Return tt | Some e => Raise e end
  /\ LabPSU.link (state r)
     = Some (match exc with
             | None =>
                 SerialCommunication.set_connected false
                   (SerialCommunication.set_transport false l)
             | Some _ => SerialCommunication.set_transport false l
             end)
  /\ LabPSU.connected (state r) = true
  /\ LabPSU.status (state r) = LabPSU.status w
  /\ LabPSU.alive (state r) = LabPSU.alive w
  /\ trace r = []
  /\ (forall during,
        LabPSU.task_query_status_turn during (state r)
        = (Raise AttributeError, state r, []))
  /\ (LabPSU.alive w = true ->
      forall during rest,
        LabPSU.task_query_status (during :: rest) (state r)
        = (Raise AttributeError, state r, []))
  /\ LabPSU.task_process_responses_turn (state r)
     = LabPSU.process_loop (SerialCommunication.responses l) (state r)
  /\ (let d := LabPSU.disconnect w in
      result d = Return tt
      /\ LabPSU.connected (state d) = false
      /\ trace d = [Emit LabPSU.signal_connection (PyVal.Bool false)]
      /\ (forall during,
            LabPSU.task_query_status_turn during (state d)
            = (Return tt, state d, []))
      /\ LabPSU.task_process_responses_turn (state d)
         = (Return tt, state d, [])).
Proof.
  intros [_ Hw] Hc Hl. cbv zeta.
  destruct (Hw Hc) as (Hlw & l' & Hl' & Hk).
  rewrite Hl in Hl'. injection Hl' as <-.
  destruct w as [st al co lk lw]. cbn in Hc, Hl, Hlw. subst co lk lw.
  destruct l as [c rl rs k tp]. cbn in Hk. subst k.
  split; [destruct exc; reflexivity|].
  split; [destruct exc; reflexivity|].
  split; [destruct exc; reflexivity|].
  split; [destruct exc; reflexivity|].
  split; [destruct exc; reflexivity|].
  split; [destruct exc; reflexivity|].
  split; [intros during; destruct exc; reflexivity|].
  split; [cbn [LabPSU.alive]; intros -> during rest; destruct exc;
          reflexivity|].
  split; [|repeat split].
  unfold LabPSU.task_process_responses_turn, LabPSU.process_responses, bind,
    get, LabPSU.on_link.
  destruct exc; cbn -[LabPSU.process_loop].
  all: unfold LabPSU.set_link, SerialCommunication.set_transport,
         SerialCommunication.set_connected; cbn -[LabPSU.process_loop].
  all: match goal with
       | |- context [LabPSU.process_loop ?q ?s] =>
           destruct (LabPSU.process_loop q s) as [[r s1] t1]
       end; destruct r; reflexivity.
Qed.

Lemma connection_lost_not_propagated_witness :
  consistent connected_session
  /\ LabPSU.connected connected_session = true
  /\ LabPSU.link connected_session = Some started_link
  /\ LabPSU.connected (link_lost_session (Some SerialException)) = true
  /\ LabPSU.task_query_status [fun _ => []]
       (link_lost_session (Some SerialException))
     = (Raise AttributeError, link_lost_session (Some SerialException), [])
  /\ trace (LabPSU.disconnect connected_session)
     = [Emit LabPSU.signal_connection (PyVal.Bool false)]
  /\ LabPSU.connected (state (LabPSU.disconnect connected_session)) = false.
Proof.
  split; [apply consistent_connected_session|]. split; [reflexivity|].
  split; [reflexivity|].
  destruct (connection_lost_not_propagated connected_session started_link
              (Some SerialException) consistent_connected_session
              eq_refl eq_refl)
    as (_ & _ & Hc & _ & _ & _ & _ & Hq & _ & Hd).
  destruct Hd as (_ & Hdc & Hdt & _).
  split; [exact Hc|]. split; [exact (Hq eq_refl _ _)|].
  split; [exact Hdt | exact Hdc].
Defined.

(** ** Consistency is an invariant *)

(** Whatever the reader thread does to the link, the fields of the session
    itself stay as they were. *)
Lemma reader_thread_frame (m : M SerialCommunication.t unit) (w : LabPSU.t) :
  let r := LabPSU.reader_thread m w in
  LabPSU.connected (state r) = LabPSU.connected w
  /\ LabPSU.status (state r) = LabPSU.status w
  /\ LabPSU.alive (state r) = LabPSU.alive w
  /\ LabPSU.link_worker (state r) = LabPSU.link_worker w.
Proof.
  destruct w as [st al co [l|] lw]; cbn; [|repeat split].
  unfold LabPSU.reader_thread, bind, get, LabPSU.on_link. cbn.
  destruct (m l) as [[r l'] tr]. destruct r; repeat split.
Qed.

Create HintDb preserves.

Lemma preserves_bind {A B} (c : M LabPSU.t A) (k : A -> M LabPSU.t B) :
  preserves c -> (forall a, preserves (k a)) -> preserves (x <- c ;; k x).
Proof.
  intros Hc Hk w Hw. specialize (Hc w Hw). unfold bind.
  destruct (c w) as [[[a|e|] w1] t1]; cbn [state fst snd] in *; try assumption.
  specialize (Hk a w1 Hc). destruct (k a w1) as [[r w2] t2]. exact Hk.
Qed.

Lemma preserves_ret {A} (a : A) : preserves (ret a).
Proof. intros w Hw. exact Hw. Qed.

Lemma preserves_raise {A} (e : exn) : preserves (@raise LabPSU.t A e).
Proof. intros w Hw. exact Hw. Qed.

Lemma preserves_get : preserves (@get LabPSU.t).
Proof. intros w Hw. exact Hw. Qed.

Lemma preserves_tell (e : event) : preserves (@tell LabPSU.t e).
Proof. intros w Hw. exact Hw. Qed.

Lemma preserves_getitem {V} (d : gmap string V) (key : string) :
  preserves (@getitem LabPSU.t V d key).
Proof. intros w Hw. unfold getitem. destruct (d !! key); exact Hw. Qed.

Lemma preserves_if {A} (b : bool) (c1 c2 : M LabPSU.t A) :
  preserves c1 -> preserves c2 -> preserves (if b then c1 else c2).
Proof. destruct b; auto. Qed.

Lemma preserves_on_link {A} (m : M SerialCommunication.t A) :
  keeps_lock_free m -> preserves (LabPSU.on_link m).
Proof.
  intros Hm w [Hkeys Hw]. unfold LabPSU.on_link.
  destruct (LabPSU.link w) as [l|] eqn:Hl.
  - specialize (Hm l). destruct (m l) as [[r l'] tr].
    cbn [state fst snd] in *.
    split; [destruct w; exact Hkeys|].
    intros Hc. destruct w as [st al co lk lw]. cbn in *.
    destruct (Hw Hc) as (Hlw & l0 & [= <-] & Hk).
    split; [assumption|]. exists l'. split; [reflexivity|]. now apply Hm.
  - split; [exact Hkeys|].
    intros Hc. destruct (Hw Hc) as (_ & l0 & [=] & _).
Qed.

Lemma keeps_lock_free_query (q : string) (e : bool) (during : list string) :
  keeps_lock_free (SerialCommunication.query q e during).
Proof.
  intros l Hk. destruct (SerialCommunication.transport l) eqn:Ht.
  - destruct e.
    + rewrite link_query_expect by assumption.
      destruct (_ ++ _)%list; [assumption|reflexivity].
    + rewrite link_query_no_response by assumption. assumption.
  - rewrite link_query_no_transport by assumption. assumption.
Qed.

Lemma keeps_lock_free_responses_get :
  keeps_lock_free SerialCommunication.responses_get.
Proof. intros [c rl [|r rs] lk tp] Hk; exact Hk. Qed.

Lemma keeps_lock_free_get : keeps_lock_free (@get SerialCommunication.t).
Proof. intros l Hk. exact Hk. Qed.

Lemma keeps_lock_free_handle_line (line : string) :
  keeps_lock_free (SerialCommunication.handle_line line).
Proof. intros [c rl rs lk tp] Hk. exact Hk. Qed.

Lemma keeps_lock_free_connection_lost (exc : option exn) :
  keeps_lock_free (SerialCommunication.connection_lost exc).
Proof. intros [c rl rs lk tp] Hk. destruct exc; exact Hk. Qed.

#[export] Hint Resolve preserves_ret preserves_raise preserves_get
  preserves_tell preserves_getitem preserves_if preserves_on_link
  keeps_lock_free_query keeps_lock_free_responses_get keeps_lock_free_get
  keeps_lock_free_handle_line keeps_lock_free_connection_lost : preserves.

Ltac preserves_step :=
  first [ apply preserves_bind; [|intros ?] | apply preserves_if ];
  auto with preserves.

Lemma preserves_query (q : string) (e : bool) (during : list string) :
  preserves (LabPSU.query q e during).
Proof. unfold LabPSU.query. repeat preserves_step. Qed.

Lemma preserves_status_set (key : string) (v : PyVal.t) :
  preserves (LabPSU.status_set key v).
Proof.
  intros w [Hkeys Hw]. unfold LabPSU.status_set, bind at 1 2, get, getitem.
  cbn [fst snd]. destruct (LabPSU.status w !! key) as [old|] eqn:Hold;
    [|split; assumption].
  cbn [ret]. destruct (PyVal.neb old v); [|split; assumption].
  assert (Hc : consistent
                 (LabPSU.set_status (<[key := v]> (LabPSU.status w)) w)).
  { split; [|destruct w; exact Hw].
    intros k Hk. destruct w as [st al co lk lw]. cbn in *.
    destruct (decide (key = k)) as [->|Hne].
    - rewrite lookup_insert_eq. eauto.
    - rewrite lookup_insert_ne by assumption. auto. }
  unfold bind, modify, getitem, LabPSU.emit, tell, ret, get.
  cbn [fst snd state]. destruct (LabPSU.signals !! key); [|exact Hc].
  cbn. destruct w; cbn in *. rewrite lookup_insert_eq. exact Hc.
Qed.

#[export] Hint Resolve preserves_query preserves_status_set : preserves.

Lemma preserves_process_response : preserves LabPSU.process_response.
Proof.
  unfold LabPSU.process_response. preserves_step. preserves_step.
  unfold default, from_option.
  destruct (LabPSU.response_handlers !! Response.query a) as [h|] eqn:Hh.
  - unfold LabPSU.response_handlers in Hh.
    cbn [list_to_map foldr fst snd uncurry] in Hh.
    repeat (apply lookup_insert_Some in Hh as [[_ <-]|[_ Hh]];
            [unfold id, LabPSU.handled, LabPSU.status_set_number,
               LabPSU.status_set_on_off, LabPSU.float;
             repeat preserves_step;
             destruct (PyFloat.of_string _); auto with preserves|]).
    rewrite lookup_empty in Hh. discriminate.
  - unfold warn. repeat preserves_step.
Qed.

Lemma preserves_process_responses : preserves LabPSU.process_responses.
Proof.
  unfold LabPSU.process_responses. repeat preserves_step.
  induction (SerialCommunication.responses a0) as [|r rs IH];
    cbn [LabPSU.process_loop]; [auto with preserves|].
  apply preserves_bind; [apply preserves_process_response|intros _; exact IH].
Qed.

Lemma preserves_connect (opens : bool) : preserves (LabPSU.connect opens).
Proof.
  intros w [Hkeys Hw]. destruct opens; [|split; assumption].
  destruct w as [st al co lk lw]. split; [exact Hkeys|].
  intros _. split; [reflexivity|]. eexists. split; reflexivity.
Qed.

Lemma preserves_disconnect : preserves LabPSU.disconnect.
Proof.
  intros w [Hkeys Hw]. destruct w as [st al [|] lk lw]; [|split; assumption].
  destruct (Hw eq_refl) as (Hlw & l & Hl & Hk). cbn in Hlw, Hl. subst lw lk.
  split; [exact Hkeys|discriminate].
Qed.

Lemma preserves_reader_thread (m : M SerialCommunication.t unit) :
  keeps_lock_free m -> preserves (LabPSU.reader_thread m).
Proof.
  intros Hm. unfold LabPSU.reader_thread. preserves_step.
  destruct (LabPSU.link a); auto with preserves.
Qed.

(** * Further properties of the code *)

(** ** The lock and the inbound queue *)

(** [query] leaves the lock as it found it. If the lock is held, the call
    does not return and writes nothing; if it is free and the link has its
    transport, the call returns [None] with the lock free again after
    exactly one write, the query and its terminator, whether a reply comes
    or not; if it is free and the link has no transport, the call raises
    [AttributeError] with nothing written, and the lock is free again. *)
Theorem query_lock_discipline (l : SerialCommunication.t) (q : string)
    (e : bool) (during : list string) :
  (SerialCommunication.lock l = true ->
   SerialCommunication.query q e during l = (Hang, l, []))
  /\ (SerialCommunication.lock l = false ->
      SerialCommunication.transport l = true ->
      result (SerialCommunication.query q e during l) = Return None
      /\ SerialCommunication.lock
           (state (SerialCommunication.query q e during l)) = false
      /\ writes (trace (SerialCommunication.query q e during l))
         = [q ++ SerialCommunication.TERMINATOR])
  /\ (SerialCommunication.lock l = false ->
      SerialCommunication.transport l = false ->
      SerialCommunication.query q e during l = (Raise AttributeError, l, [])).
Proof.
  split; [|split].
  - intros Hk. destruct l as [c rl rs lk tp]. cbn in Hk. subst lk.
    reflexivity.
  - intros Hk Ht. destruct e.
    + rewrite link_query_expect by assumption.
      destruct (_ ++ _)%list; repeat split; assumption.
    + rewrite link_query_no_response by assumption. repeat split; assumption.
  - intros Hk Ht. now apply link_query_no_transport.
Qed.

Lemma query_lock_discipline_witness :
  SerialCommunication.query ":VOLT?" true ["5.0"]
    (SerialCommunication.set_lock true started_link)
  = (Hang, SerialCommunication.set_lock true started_link, [])
  /\ writes (trace (SerialCommunication.query ":VOLT?" true [] started_link))
     = [":VOLT?" ++ SerialCommunication.TERMINATOR]
  /\ SerialCommunication.query ":VOLT?" true [] SerialCommunication.__init__
     = (Raise AttributeError, SerialCommunication.__init__, []).
Proof.
  split; [|split].
  - apply (query_lock_discipline
             (SerialCommunication.set_lock true started_link)
             ":VOLT?" true ["5.0"]). reflexivity.
  - apply (query_lock_discipline started_link ":VOLT?" true []);
      reflexivity.
  - apply (query_lock_discipline SerialCommunication.__init__
             ":VOLT?" true []); reflexivity.
Defined.

(** A reply that comes after its query timed out is not discarded: on a
    link that has its transport it waits in [received_lines] and is paired
    with the next query, whose own reply is left behind for the query
    after that. *)
Theorem late_reply_paired_with_next_query (l : SerialCommunication.t)
    (q1 q2 late own : string) :
  SerialCommunication.lock l = false ->
  SerialCommunication.transport l = true ->
  SerialCommunication.received_lines l = [] ->
  let r := (SerialCommunication.query q1 true [] ;;
            SerialCommunication.handle_line late ;;
            SerialCommunication.query q2 true [own]) l in
  result r = Return None
  /\ warns (trace r) = ["Query timed out: " ++ q1]
  /\ SerialCommunication.responses (state r)
     = (SerialCommunication.responses l ++ [Response.Build q2 late])%list
  /\ SerialCommunication.received_lines (state r) = [own]
  /\ SerialCommunication.lock (state r) = false.
Proof.
  intros Hk Ht Hq. destruct l as [c rl rs lk tp]. cbn in Hk, Ht, Hq.
  subst lk rl tp. cbn. repeat split.
Qed.

Lemma late_reply_paired_with_next_query_witness :
  SerialCommunication.responses
    (state ((SerialCommunication.query ":MEAS:VOLT?" true [] ;;
             SerialCommunication.handle_line "5.000" ;;
             SerialCommunication.query ":OUTP?" true ["ON"])
              started_link))
  = [Response.Build ":OUTP?" "5.000"].
Proof.
  apply (late_reply_paired_with_next_query started_link
           ":MEAS:VOLT?" ":OUTP?" "5.000" "ON" eq_refl eq_refl eq_refl).
Defined.

(** What a run of queries does to a link that has its transport,
    timeouts or not. *)
Lemma submit_all_effect (queries : list (string * list string))
    (l : SerialCommunication.t) :
  SerialCommunication.lock l = false ->
  SerialCommunication.transport l = true ->
  let r := submit_all queries l in
  result r = Return tt
  /\ SerialCommunication.lock (state r) = false
  /\ SerialCommunication.connected (state r) = SerialCommunication.connected l
  /\ writes (trace r)
     = map (fun q => fst q ++ SerialCommunication.TERMINATOR) queries
  /\ emits (trace r) = []
  /\ (length (warns (trace r))
      + length (SerialCommunication.responses (state r))
      = length (SerialCommunication.responses l) + length queries)%nat
  /\ exists new, SerialCommunication.responses (state r)
                 = (SerialCommunication.responses l ++ new)%list.
Proof.
  revert l. induction queries as [|[q during] rest IH]; intros l Hk Ht.
  - cbn. repeat split; try assumption; try lia.
    exists []. rewrite app_nil_r. reflexivity.
  - cbv zeta. rewrite submit_all_cons by assumption. cbv zeta.
    rewrite link_query_expect by assumption.
    destruct (SerialCommunication.received_lines l ++ during)%list
      as [|line more]; cbn [result state trace fst snd].
    + destruct (IH l Hk Ht) as (Hr & Hl & Hc & Hw & He & Hn & new & Hnew).
      split; [exact Hr|]. split; [exact Hl|]. split; [exact Hc|].
      split; [cbn; f_equal; exact Hw|].
      split; [exact He|].
      split; [cbn [app warns omap list_omap length] in *;
              change (S (length (warns (trace (submit_all rest l))))
                      + length (SerialCommunication.responses
                                  (state (submit_all rest l)))
                      = length (SerialCommunication.responses l)
                        + S (length rest))%nat; lia|].
      exists new. exact Hnew.
    + match goal with
      | |- context [submit_all rest ?l1] =>
          destruct (IH l1 eq_refl Ht)
            as (Hr & Hl & Hc & Hw & He & Hn & new & Hnew)
      end.
      cbn [SerialCommunication.responses SerialCommunication.connected] in *.
      split; [exact Hr|]. split; [exact Hl|]. split; [exact Hc|].
      split; [cbn; f_equal; exact Hw|].
      split; [exact He|].
      split.
      * cbn [app length] in *.
        change (length (warns (trace (submit_all rest
                  (SerialCommunication.Build (SerialCommunication.connected l)
                     more
                     (SerialCommunication.responses l
                      ++ [Response.Build q line])%list false
                     (SerialCommunication.transport l)))))
                + length (SerialCommunication.responses
                            (state (submit_all rest
                  (SerialCommunication.Build (SerialCommunication.connected l)
                     more
                     (SerialCommunication.responses l
                      ++ [Response.Build q line])%list false
                     (SerialCommunication.transport l)))))
                = length (SerialCommunication.responses l) + S (length rest))%nat.
        rewrite length_app in Hn. cbn in Hn. lia.
      * exists ([Response.Build q line] ++ new)%list.
        rewrite Hnew, <- app_assoc. reflexivity.
Qed.

(** No query is lost: queries submitted one after the other on a link
    that has its transport are all written, in order, and each one either
    adds an exchange to the delivery queue or a timeout warning; exchanges
    already queued stay in front. The run returns with the lock free. *)
Theorem every_query_paired_or_warned (queries : list (string * list string))
    (l : SerialCommunication.t) :
  SerialCommunication.lock l = false ->
  SerialCommunication.transport l = true ->
  let r := submit_all queries l in
  result r = Return tt
  /\ SerialCommunication.lock (state r) = false
  /\ writes (trace r)
     = map (fun q => fst q ++ SerialCommunication.TERMINATOR) queries
  /\ (length (warns (trace r))
      + length (SerialCommunication.responses (state r))
      = length (SerialCommunication.responses l) + length queries)%nat
  /\ exists new, SerialCommunication.responses (state r)
                 = (SerialCommunication.responses l ++ new)%list.
Proof.
  intros Hk Ht. destruct (submit_all_effect queries l Hk Ht)
    as (Hr & Hl & _ & Hw & _ & Hn & Hnew).
  repeat split; assumption.
Qed.

Lemma every_query_paired_or_warned_witness :
  let r := submit_all [(":OUTP?", []); (":MEAS:CURR?", ["0.100"])]
             started_link in
  (length (warns (trace r))
   + length (SerialCommunication.responses (state r)) = 0 + 2)%nat.
Proof.
  apply (every_query_paired_or_warned
           [(":OUTP?", []); (":MEAS:CURR?", ["0.100"])]
           started_link eq_refl eq_refl).
Defined.

(** ** The poll loop *)

Lemma set_link_set_link (a b : option SerialCommunication.t) (w : LabPSU.t) :
  LabPSU.set_link a (LabPSU.set_link b w) = LabPSU.set_link a w.
Proof. destruct w; reflexivity. Qed.

(** A polled query on a connected session is the query on its link. *)
Lemma poll_last (w : LabPSU.t) (l : SerialCommunication.t) (q : string)
    (during : list string) :
  LabPSU.connected w = true ->
  LabPSU.link w = Some l ->
  SerialCommunication.lock l = false ->
  SerialCommunication.transport l = true ->
  (LabPSU.query q true during ;; ret tt) w
  = (Return tt,
     LabPSU.set_link
       (Some (state (SerialCommunication.query q true during l))) w,
     trace (SerialCommunication.query q true during l)).
Proof.
  intros Hc Hl Hk Ht.
  rewrite drop_result, (query_connected w l) by assumption.
  rewrite link_query_expect by assumption.
  destruct (_ ++ _)%list; reflexivity.
Qed.

Lemma poll_step {B} (k : M LabPSU.t B) (w : LabPSU.t)
    (l : SerialCommunication.t) (q : string) (during : list string) :
  LabPSU.connected w = true ->
  LabPSU.link w = Some l ->
  SerialCommunication.lock l = false ->
  SerialCommunication.transport l = true ->
  ((LabPSU.query q true during ;; ret tt) ;; k) w
  = let f := SerialCommunication.query q true during l in
    let n := k (LabPSU.set_link (Some (state f)) w) in
    (result n, state n, (trace f ++ trace n)%list).
Proof.
  intros Hc Hl Hk Ht. unfold bind at 1.
  rewrite (poll_last w l) by assumption.
  cbv zeta. destruct (k _) as [[r s1] t1]. reflexivity.
Qed.

(** A turn of the poll loop on a connected session whose link has its
    transport submits the battery to the link. *)
Lemma poll_turn_as_submit_all (w : LabPSU.t) (l : SerialCommunication.t)
    (during : nat -> list string) :
  LabPSU.connected w = true ->
  LabPSU.link w = Some l ->
  SerialCommunication.lock l = false ->
  SerialCommunication.transport l = true ->
  LabPSU.task_query_status_turn during w
  = (result (submit_all (battery during) l),
     LabPSU.set_link (Some (state (submit_all (battery during) l))) w,
     trace (submit_all (battery during) l)).
Proof.
  intros Hc Hl Hk Ht.
  assert (Hfree : forall q d l0, SerialCommunication.lock l0 = false ->
            SerialCommunication.lock
              (state (SerialCommunication.query q true d l0)) = false)
    by (intros; now apply keeps_lock_free_query).
  assert (Htrans : forall q d l0, SerialCommunication.lock l0 = false ->
            SerialCommunication.transport l0 = true ->
            SerialCommunication.transport
              (state (SerialCommunication.query q true d l0)) = true)
    by (intros q d l0 H0 H1; now rewrite query_keeps_transport).
  assert (Hcon : forall x, LabPSU.connected (LabPSU.set_link x w) = true)
    by (intros; destruct w; exact Hc).
  assert (Hlink : forall x, LabPSU.link (LabPSU.set_link (Some x) w) = Some x)
    by (intros; destruct w; reflexivity).
  unfold LabPSU.task_query_status_turn, bind at 1, get. cbn [fst snd].
  rewrite Hc. cbn [negb].
  unfold LabPSU.get_output, LabPSU.measure_current, LabPSU.measure_voltage,
    LabPSU.get_current, LabPSU.get_voltage, battery.
  rewrite (poll_step _ w l) by assumption. cbv zeta.
  set (l1 := state (SerialCommunication.query ":OUTP?" true (during 0%nat) l)).
  assert (H1 : SerialCommunication.lock l1 = false) by (apply Hfree, Hk).
  assert (T1 : SerialCommunication.transport l1 = true)
    by (apply Htrans; assumption).
  rewrite (poll_step _ _ l1) by auto. cbv zeta. rewrite set_link_set_link.
  set (l2 := state (SerialCommunication.query ":MEAS:CURR?" true
                      (during 1%nat) l1)).
  assert (H2 : SerialCommunication.lock l2 = false) by (apply Hfree, H1).
  assert (T2 : SerialCommunication.transport l2 = true)
    by (apply Htrans; assumption).
  rewrite (poll_step _ _ l2) by auto. cbv zeta. rewrite set_link_set_link.
  set (l3 := state (SerialCommunication.query ":MEAS:VOLT?" true
                      (during 2%nat) l2)).
  assert (H3 : SerialCommunication.lock l3 = false) by (apply Hfree, H2).
  assert (T3 : SerialCommunication.transport l3 = true)
    by (apply Htrans; assumption).
  rewrite (poll_step _ _ l3) by auto. cbv zeta. rewrite set_link_set_link.
  set (l4 := state (SerialCommunication.query ":CURR?" true
                      (during 3%nat) l3)).
  assert (H4 : SerialCommunication.lock l4 = false) by (apply Hfree, H3).
  assert (T4 : SerialCommunication.transport l4 = true)
    by (apply Htrans; assumption).
  rewrite (poll_last _ l4) by auto. rewrite set_link_set_link.
  cbn [result state trace fst snd].
  rewrite (submit_all_cons _ _ _ l) by assumption. cbv zeta. fold l1.
  rewrite (submit_all_cons _ _ _ l1) by assumption. cbv zeta. fold l2.
  rewrite (submit_all_cons _ _ _ l2) by assumption. cbv zeta. fold l3.
  rewrite (submit_all_cons _ _ _ l3) by assumption. cbv zeta. fold l4.
  rewrite (submit_all_cons _ _ _ l4) by assumption. cbv zeta.
  cbn [submit_all ret result state trace fst snd].
  rewrite link_query_expect by assumption.
  destruct (_ ++ _)%list; cbn [result state trace fst snd];
    rewrite ?app_nil_r; reflexivity.
Qed.

(** The transport of the link after a run of queries. *)
Lemma submit_all_transport (queries : list (string * list string))
    (l : SerialCommunication.t) :
  SerialCommunication.lock l = false ->
  SerialCommunication.transport l = true ->
  SerialCommunication.transport (state (submit_all queries l)) = true.
Proof.
  revert l. induction queries as [|[q during] rest IH]; intros l Hk Ht.
  - exact Ht.
  - rewrite submit_all_cons by assumption. cbv zeta.
    cbn [state fst snd]. apply IH.
    + now apply keeps_lock_free_query.
    + now rewrite query_keeps_transport.
Qed.

(** A turn of the poll loop on a connected session whose link has lost
    its transport: the first query raises, and nothing is written. *)
Lemma poll_turn_no_transport (w : LabPSU.t) (l : SerialCommunication.t)
    (during : nat -> list string) :
  LabPSU.connected w = true ->
  LabPSU.link w = Some l ->
  SerialCommunication.lock l = false ->
  SerialCommunication.transport l = false ->
  LabPSU.task_query_status_turn during w = (Raise AttributeError, w, []).
Proof.
  intros Hc Hl Hk Ht.
  unfold LabPSU.task_query_status_turn, bind at 1, get. cbn [fst snd].
  rewrite Hc. cbn [negb]. unfold LabPSU.get_output.
  rewrite (bind_raise _ _ w w AttributeError []); [reflexivity|].
  apply bind_raise. now apply (query_no_transport w l).
Qed.

(** A turn of the poll loop on a connected session whose link has its
    transport writes the five queries, [:OUTP?], [:MEAS:CURR?],
    [:MEAS:VOLT?], [:CURR?], [:VOLT?], in that order and whatever the
    device answers or fails to answer. Each of them ends in an exchange on
    the delivery queue or in a timeout warning. The turn emits no
    notification and leaves the status cache, the connection state and the
    transport alone. On a disconnected session the turn does nothing. On a
    connected session whose link has lost its transport the first query
    raises [AttributeError]: the turn writes nothing and does not
    return. *)
Theorem poll_turn_issues_battery (w : LabPSU.t)
    (during : nat -> list string) :
  consistent w ->
  let r := LabPSU.task_query_status_turn during w in
  (LabPSU.connected w = false -> r = (Return tt, w, []))
  /\ (LabPSU.connected w = true -> live w ->
      result r = Return tt
      /\ writes (trace r)
         = map (fun q => q ++ SerialCommunication.TERMINATOR)
             [":OUTP?"; ":MEAS:CURR?"; ":MEAS:VOLT?"; ":CURR?"; ":VOLT?"]
      /\ emits (trace r) = []
      /\ LabPSU.status (state r) = LabPSU.status w
      /\ LabPSU.connected (state r) = true
      /\ consistent (state r)
      /\ live (state r)
      /\ exists l l',
          LabPSU.link w = Some l /\ LabPSU.link (state r) = Some l'
          /\ (length (warns (trace r))
              + length (SerialCommunication.responses l')
              = length (SerialCommunication.responses l) + 5)%nat)
  /\ (forall l, LabPSU.connected w = true -> LabPSU.link w = Some l ->
      SerialCommunication.transport l = false ->
      r = (Raise AttributeError, w, [])).
Proof.
  intros Hw. cbv zeta. split; [|split].
  - intros Hc. unfold LabPSU.task_query_status_turn, bind, get. cbn.
    rewrite Hc. reflexivity.
  - intros Hc Hlive.
    destruct Hw as [Hkeys Hw]. destruct (Hw Hc) as (Hlw & l & Hl & Hk).
    pose proof (Hlive l Hl) as Ht.
    rewrite (poll_turn_as_submit_all w l) by assumption.
    destruct (submit_all_effect (battery during) l Hk Ht)
      as (Hr & Hlk & _ & Hwr & He & Hn & _).
    cbn [result state trace fst snd].
    split; [exact Hr|]. split; [exact Hwr|]. split; [exact He|].
    split; [destruct w; reflexivity|].
    split; [destruct w; exact Hc|].
    split; [|split].
    + split; [destruct w; exact Hkeys|].
      intros _. split; [destruct w; exact Hlw|].
      eexists. split; [destruct w; reflexivity|exact Hlk].
    + intros l' Hl'. rewrite link_set_link in Hl'. injection Hl' as <-.
      exact (submit_all_transport (battery during) l Hk Ht).
    + exists l, (state (submit_all (battery during) l)).
      split; [exact Hl|]. split; [destruct w; reflexivity|exact Hn].
  - intros l Hc Hl Ht. destruct Hw as [_ Hw].
    destruct (Hw Hc) as (_ & l' & Hl' & Hk).
    rewrite Hl in Hl'. injection Hl' as <-.
    now apply (poll_turn_no_transport w l).
Qed.

Lemma poll_turn_issues_battery_witness :
  consistent connected_session
  /\ writes (trace (LabPSU.task_query_status_turn (fun _ => [])
                      connected_session))
     = map (fun q => q ++ SerialCommunication.TERMINATOR)
         [":OUTP?"; ":MEAS:CURR?"; ":MEAS:VOLT?"; ":CURR?"; ":VOLT?"]
  /\ LabPSU.task_query_status_turn (fun _ => []) LabPSU.__init__
     = (Return tt, LabPSU.__init__, [])
  /\ LabPSU.task_query_status_turn (fun _ => [])
       (link_lost_session (Some SerialException))
     = (Raise AttributeError, link_lost_session (Some SerialException), []).
Proof.
  split; [apply consistent_connected_session|]. split; [|split].
  - apply (poll_turn_issues_battery connected_session (fun _ => [])
             consistent_connected_session);
      [reflexivity|apply live_connected_session].
  - apply (poll_turn_issues_battery LabPSU.__init__ (fun _ => [])
             consistent_init). reflexivity.
  - destruct (poll_turn_issues_battery
                (link_lost_session (Some SerialException)) (fun _ => [])
                (consistent_link_lost_session (Some SerialException)))
      as (_ & _ & H).
    apply (H (SerialCommunication.Build true [] [] false false));
      reflexivity.
Defined.

(** ** The dispatch of the replies *)

(** The handler the dispatch table gives for a query. *)
Lemma response_handlers_lookup (q : string) :
  LabPSU.response_handlers !! q
  = if String.eqb q ":OUTP?"
    then Some (fun v => LabPSU.handled (LabPSU.status_set_on_off "output" v))
    else match number_field q with
         | Some key =>
             Some (fun v => LabPSU.handled (LabPSU.status_set_number key v))
         | None => None
         end.
Proof.
  unfold number_field.
  destruct (String.eqb_spec q ":OUTP?") as [->|H1]; [reflexivity|].
  destruct (String.eqb_spec q ":MEAS:CURR?") as [->|H2]; [reflexivity|].
  destruct (String.eqb_spec q ":MEAS:VOLT?") as [->|H3]; [reflexivity|].
  destruct (String.eqb_spec q ":CURR?") as [->|H4]; [reflexivity|].
  destruct (String.eqb_spec q ":VOLT?") as [->|H5]; [reflexivity|].
  unfold LabPSU.response_handlers. cbn [list_to_map foldr fst snd uncurry].
  rewrite !lookup_insert_ne by congruence. apply lookup_empty.
Qed.

(** The keys the numeric queries write are keys of the signal table. *)
Lemma number_field_signal (q key : string) :
  number_field q = Some key -> LabPSU.signals !! key = Some key.
Proof.
  unfold number_field.
  repeat (destruct (String.eqb q _); [intros [= <-]; reflexivity|]).
  discriminate.
Qed.

Lemma reading_signal (r : Response.t) (key : string) (v : PyVal.t) :
  reading r = Some (key, v) -> LabPSU.signals !! key = Some key.
Proof.
  unfold reading. destruct (String.eqb _ ":OUTP?").
  - intros [= <- _]. reflexivity.
  - destruct (number_field _) as [k|] eqn:Hk; [|discriminate].
    destruct (PyFloat.of_string _); [|discriminate].
    cbn. intros [= <- _]. now apply (number_field_signal (Response.query r)).
Qed.

Lemma set_status_same (w : LabPSU.t) :
  LabPSU.set_status (LabPSU.status w) w = w.
Proof. destruct w; reflexivity. Qed.

(** [status_set] on a status field of a consistent session returns, with
    at most the one notification of its field. *)
Lemma status_set_field (w : LabPSU.t) (key : string) (v : PyVal.t) :
  consistent w ->
  LabPSU.signals !! key = Some key ->
  exists b : bool,
    LabPSU.status_set key v w
    = (Return b, LabPSU.set_status (cache_set (LabPSU.status w) key v) w,
       notice (LabPSU.status w) key v).
Proof.
  intros [Hkeys _] Hs. destruct (Hkeys key) as [old Hold]; [eauto|].
  rewrite (status_set_spec w key key old v Hold Hs).
  unfold cache_set, notice. rewrite Hold. destruct (PyVal.neb old v).
  - exists true. reflexivity.
  - exists false. rewrite set_status_same. reflexivity.
Qed.

(** What the loop body does with a well-formed exchange at the head of the
    delivery queue: it takes it off the queue and writes its reading into
    the cache, or warns when its query is unknown. *)
Lemma process_response_well_formed (w : LabPSU.t)
    (l : SerialCommunication.t) (r : Response.t) (rest : list Response.t) :
  consistent w ->
  LabPSU.link w = Some l ->
  SerialCommunication.responses l = r :: rest ->
  well_formed r = true ->
  let w1 := LabPSU.set_link (Some (SerialCommunication.set_responses rest l)) w in
  LabPSU.process_response w
  = (Return tt,
     match reading r with
     | Some (key, v) =>
         LabPSU.set_status (cache_set (LabPSU.status w) key v) w1
     | None => w1
     end,
     match reading r with
     | Some (key, v) => notice (LabPSU.status w) key v
     | None => [Warn ("Unknown query: " ++ Response.query r)]
     end).
Proof.
  intros Hw Hl Hr Hwf. cbv zeta.
  assert (Hw1 : consistent
            (LabPSU.set_link (Some (SerialCommunication.set_responses rest l)) w)).
  { destruct Hw as [Hkeys Hc]. split; [destruct w; exact Hkeys|].
    intros Hco. destruct w as [st al co lk lw]. cbn in *. subst lk.
    destruct (Hc Hco) as (Hlw & l0 & [= <-] & Hk).
    split; [assumption|]. eexists. split; [reflexivity|].
    destruct l; exact Hk. }
  assert (Hst : LabPSU.status
            (LabPSU.set_link (Some (SerialCommunication.set_responses rest l)) w)
            = LabPSU.status w) by (destruct w; reflexivity).
  unfold LabPSU.process_response, bind at 1.
  rewrite (on_link_responses_get w l r rest Hl Hr).
  rewrite response_handlers_lookup. unfold reading, well_formed in *.
  destruct (String.eqb (Response.query r) ":OUTP?").
  - destruct (status_set_field _ "output"
                (PyVal.Bool (String.eqb (Response.response r) "ON"))
                Hw1 eq_refl) as (b & Hs).
    rewrite Hst in Hs.
    unfold default, from_option, id, LabPSU.handled, LabPSU.status_set_on_off,
      bind. rewrite Hs. cbn. rewrite !app_nil_r. reflexivity.
  - destruct (number_field (Response.query r)) as [key|] eqn:Hkey.
    + destruct (PyFloat.of_string (Response.response r)) as [x|] eqn:Hx;
        [|discriminate].
      destruct (status_set_field _ key (PyVal.Float x) Hw1
                  (number_field_signal _ _ Hkey)) as (b & Hs).
      rewrite Hst in Hs.
      unfold default, from_option, id, LabPSU.handled,
        LabPSU.status_set_number, LabPSU.float, bind.
      rewrite Hx. cbn [ret]. rewrite Hs. cbn. rewrite !app_nil_r. reflexivity.
    + reflexivity.
Qed.

(** ** The drain loop as a fold *)

(** On a queue of well-formed exchanges the loop of [process_responses]
    returns with the queue empty, the cache and the events being those of
    the fold. *)
Lemma process_loop_well_formed (rs : list Response.t) :
  forall (w : LabPSU.t) (l : SerialCommunication.t),
    consistent w ->
    LabPSU.link w = Some l ->
    SerialCommunication.responses l = rs ->
    forallb well_formed rs = true ->
    LabPSU.process_loop rs w
    = (Return tt,
       LabPSU.set_status (cache_after (LabPSU.status w) rs)
         (LabPSU.set_link (Some (SerialCommunication.set_responses [] l)) w),
       events_after (LabPSU.status w) rs).
Proof.
  induction rs as [|r rest IH]; intros w l Hw Hl Hr Hwf.
  - destruct w as [st al co lk lw], l as [c rl rs lk']. cbn in *. subst.
    reflexivity.
  - cbn [forallb] in Hwf. apply andb_true_iff in Hwf as [Hwf1 Hwf2].
    pose proof (preserves_process_response w Hw) as Hw2.
    pose proof (process_response_well_formed w l r rest Hw Hl Hr Hwf1) as Hp.
    cbv zeta in Hp. rewrite Hp in Hw2. cbn [state fst snd] in Hw2.
    cbn [LabPSU.process_loop]. unfold bind. rewrite Hp.
    erewrite (IH _ (SerialCommunication.set_responses rest l) Hw2);
      [| destruct (reading r) as [[k v]|], w; reflexivity
       | destruct l; reflexivity
       | exact Hwf2].
    cbn [cache_after events_after]. unfold cache_step, events_step.
    destruct (reading r) as [[k v]|], w, l; reflexivity.
Qed.

Lemma well_formed_false (r : Response.t) :
  well_formed r = false ->
  In (Response.query r) numeric_queries
  /\ PyFloat.of_string (Response.response r) = None.
Proof.
  unfold well_formed, number_field, numeric_queries.
  destruct (String.eqb_spec (Response.query r) ":MEAS:CURR?") as [->|_].
  { destruct (PyFloat.of_string _); [discriminate|]. cbn. auto. }
  destruct (String.eqb_spec (Response.query r) ":MEAS:VOLT?") as [->|_].
  { destruct (PyFloat.of_string _); [discriminate|]. cbn. auto. }
  destruct (String.eqb_spec (Response.query r) ":CURR?") as [->|_].
  { destruct (PyFloat.of_string _); [discriminate|]. cbn. auto. }
  destruct (String.eqb_spec (Response.query r) ":VOLT?") as [->|_].
  { destruct (PyFloat.of_string _); [discriminate|]. cbn. auto 6. }
  discriminate.
Qed.

(** The loop on a queue whose first malformed exchange is [bad]: the
    exchanges before it are processed, [bad] is taken and raises, the ones
    after it stay queued. *)
Lemma process_loop_malformed (good : list Response.t) :
  forall (w : LabPSU.t) (l : SerialCommunication.t) (bad : Response.t)
         (rest : list Response.t),
    consistent w ->
    LabPSU.link w = Some l ->
    SerialCommunication.responses l = (good ++ bad :: rest)%list ->
    forallb well_formed good = true ->
    well_formed bad = false ->
    LabPSU.process_loop (good ++ bad :: rest) w
    = (Raise (ValueError (Response.response bad)),
       LabPSU.set_status (cache_after (LabPSU.status w) good)
         (LabPSU.set_link (Some (SerialCommunication.set_responses rest l)) w),
       events_after (LabPSU.status w) good).
Proof.
  induction good as [|r good IH]; intros w l bad rest Hw Hl Hr Hwf Hbad.
  - cbn [app] in *. cbn [LabPSU.process_loop]. unfold bind.
    destruct (well_formed_false bad Hbad) as [Hq Hv].
    destruct bad as [q value]. cbn [Response.query Response.response] in *.
    rewrite (process_response_malformed w l q value rest Hl Hr Hq Hv).
    destruct w; reflexivity.
  - cbn [forallb] in Hwf. apply andb_true_iff in Hwf as [Hwf1 Hwf2].
    cbn [app] in *.
    pose proof (preserves_process_response w Hw) as Hw2.
    pose proof (process_response_well_formed w l r _ Hw Hl Hr Hwf1) as Hp.
    cbv zeta in Hp. rewrite Hp in Hw2. cbn [state fst snd] in Hw2.
    cbn [LabPSU.process_loop]. unfold bind. rewrite Hp.
    erewrite (IH _ (SerialCommunication.set_responses (good ++ bad :: rest) l)
                bad rest Hw2);
      [| destruct (reading r) as [[k v]|], w; reflexivity
       | destruct l; reflexivity
       | exact Hwf2
       | exact Hbad].
    cbn [cache_after events_after]. unfold cache_step, events_step.
    destruct (reading r) as [[k v]|], w, l; reflexivity.
Qed.

(** *** Facts about the fold *)

Lemma cache_set_lookup_other (st : gmap string PyVal.t) (key k : string)
    (v : PyVal.t) :
  key <> k -> cache_set st key v !! k = st !! k.
Proof.
  intros Hne. unfold cache_set. destruct (st !! key) as [old|]; [|reflexivity].
  destruct (PyVal.neb old v); [|reflexivity].
  now rewrite lookup_insert_ne.
Qed.

Lemma cache_set_lookup_same (st : gmap string PyVal.t) (key : string)
    (old v : PyVal.t) :
  st !! key = Some old ->
  exists c, cache_set st key v !! key = Some c /\ shows c v.
Proof.
  intros Hold. unfold cache_set. rewrite Hold.
  destruct (PyVal.neb old v) eqn:Hne.
  - exists v. rewrite lookup_insert_eq. split; [reflexivity|now left].
  - exists old. split; [exact Hold|]. right.
    unfold PyVal.neb in Hne. now apply negb_false_iff in Hne.
Qed.

Lemma cache_set_is_Some (st : gmap string PyVal.t) (key k : string)
    (v : PyVal.t) :
  is_Some (cache_set st key v !! k) <-> is_Some (st !! k).
Proof.
  destruct (decide (key = k)) as [->|Hne].
  - unfold cache_set. destruct (st !! k) as [old|] eqn:Hold.
    + destruct (PyVal.neb old v).
      * rewrite lookup_insert_eq. split; eauto.
      * rewrite Hold. reflexivity.
    + rewrite Hold. reflexivity.
  - now rewrite cache_set_lookup_other.
Qed.

Lemma cache_after_is_Some (rs : list Response.t) :
  forall (st : gmap string PyVal.t) (k : string),
    is_Some (cache_after st rs !! k) <-> is_Some (st !! k).
Proof.
  induction rs as [|r rest IH]; intros st k; [reflexivity|].
  cbn [cache_after]. rewrite IH. unfold cache_step.
  destruct (reading r) as [[key v]|]; [apply cache_set_is_Some|reflexivity].
Qed.

Lemma cache_after_untouched (rs : list Response.t) :
  forall (st : gmap string PyVal.t) (k : string),
    (forall r, In r rs -> field_of r <> Some k) ->
    cache_after st rs !! k = st !! k.
Proof.
  induction rs as [|r rest IH]; intros st k Hno; [reflexivity|].
  cbn [cache_after]. rewrite IH by (intros; apply Hno; now right).
  specialize (Hno r (or_introl eq_refl)). unfold field_of, cache_step in *.
  destruct (reading r) as [[key v]|]; [|reflexivity].
  apply cache_set_lookup_other. cbn in Hno. congruence.
Qed.

Lemma cache_after_app (a b : list Response.t) (st : gmap string PyVal.t) :
  cache_after st (a ++ b) = cache_after (cache_after st a) b.
Proof. revert st. induction a as [|r a IH]; intros st; cbn; auto. Qed.

Lemma events_step_length (st : gmap string PyVal.t) (r : Response.t) :
  (length (events_step st r) <= 1)%nat /\ writes (events_step st r) = [].
Proof.
  unfold events_step, notice. destruct (reading r) as [[key v]|].
  - destruct (st !! key) as [old|]; [destruct (PyVal.neb old v)|]; cbn; auto.
  - cbn. auto.
Qed.

Lemma writes_app (a b : list event) : writes (a ++ b) = (writes a ++ writes b)%list.
Proof.
  induction a as [|e a IH]; [reflexivity|].
  destruct e; cbn; unfold writes in *; cbn; rewrite ?IH; reflexivity.
Qed.

Lemma events_after_bounds (rs : list Response.t) :
  forall st : gmap string PyVal.t,
    (length (events_after st rs) <= length rs)%nat
    /\ writes (events_after st rs) = []
    /\ forall s v, In (Emit s v) (events_after st rs) ->
                   exists r, In r rs /\ reading r = Some (s, v).
Proof.
  induction rs as [|r rest IH]; intros st.
  - cbn. repeat split; [lia|]. intros s v [].
  - cbn [events_after]. destruct (IH (cache_step st r)) as (Hl & Hw & He).
    destruct (events_step_length st r) as [Hl1 Hw1].
    split; [rewrite length_app; cbn [length]; lia|].
    split; [rewrite writes_app, Hw, Hw1; reflexivity|].
    intros s v Hin. apply in_app_or in Hin as [Hin|Hin].
    + exists r. split; [now left|].
      unfold events_step, notice in Hin.
      destruct (reading r) as [[key v0]|].
      * destruct (st !! key) as [old|]; [destruct (PyVal.neb old v0)|];
          cbn in Hin; try contradiction.
        destruct Hin as [[= <- <-]|[]]. reflexivity.
      * cbn in Hin. destruct Hin as [[=]|[]].
    + destruct (He s v Hin) as (r0 & Hr0 & Hrd). exists r0.
      split; [now right|exact Hrd].
Qed.

(** Once the cache shows a value that is not NaN, further exchanges with
    that reading change nothing and notify nothing. *)
Lemma events_after_repeated (rs : list Response.t) :
  forall (st : gmap string PyVal.t) (key : string) (c v : PyVal.t),
    st !! key = Some c ->
    PyVal.eqb c v = true ->
    (forall r, In r rs -> reading r = Some (key, v)) ->
    events_after st rs = [] /\ cache_after st rs = st.
Proof.
  induction rs as [|r rest IH]; intros st key c v Hc Heq Hall; [now split|].
  cbn [events_after cache_after]. unfold events_step, cache_step.
  rewrite (Hall r (or_introl eq_refl)). unfold notice, cache_set.
  rewrite Hc. unfold PyVal.neb. rewrite Heq. cbn [negb app].
  apply (IH st key c v Hc Heq). intros r0 Hr0. apply Hall. now right.
Qed.

(** [process_responses] on a connected session is its loop. *)
Lemma process_responses_connected (w : LabPSU.t) (l : SerialCommunication.t) :
  LabPSU.connected w = true ->
  LabPSU.link w = Some l ->
  LabPSU.process_responses w
  = LabPSU.process_loop (SerialCommunication.responses l) w.
Proof.
  intros Hc Hl. unfold LabPSU.process_responses, bind at 1, get.
  cbn [fst snd]. rewrite Hc. cbn [negb]. unfold bind, LabPSU.on_link.
  rewrite Hl. cbn [get fst snd]. rewrite set_link_same by assumption.
  destruct (LabPSU.process_loop _ w) as [[r s1] t1]. reflexivity.
Qed.

(** ** Draining the delivery queue *)

(** [process_responses] on a connected session whose queued exchanges are
    all well formed returns with the delivery queue empty. It writes
    nothing to the transport, makes at most one event for each exchange,
    notifies only readings that were in the queue, and leaves the inbound
    lines, the lock and the connection state alone. *)
Theorem process_responses_drains_queue (w : LabPSU.t)
    (l : SerialCommunication.t) :
  consistent w ->
  LabPSU.connected w = true ->
  LabPSU.link w = Some l ->
  forallb well_formed (SerialCommunication.responses l) = true ->
  let r := LabPSU.process_responses w in
  result r = Return tt
  /\ LabPSU.link (state r) = Some (SerialCommunication.set_responses [] l)
  /\ LabPSU.connected (state r) = true
  /\ LabPSU.alive (state r) = LabPSU.alive w
  /\ writes (trace r) = []
  /\ (length (trace r) <= length (SerialCommunication.responses l))%nat
  /\ (forall s v, In (Emit s v) (trace r) ->
        exists x, In x (SerialCommunication.responses l)
                  /\ reading x = Some (s, v))
  /\ consistent (state r).
Proof.
  intros Hw Hc Hl Hwf. cbv zeta.
  pose proof (preserves_process_responses w Hw) as Hw2.
  rewrite (process_responses_connected w l Hc Hl) in *.
  rewrite (process_loop_well_formed _ w l Hw Hl eq_refl Hwf) in *.
  destruct (events_after_bounds (SerialCommunication.responses l)
              (LabPSU.status w)) as (Hlen & Hwr & Hem).
  cbn [result state trace fst snd] in *.
  split; [reflexivity|]. split; [destruct w; reflexivity|].
  split; [destruct w; exact Hc|]. split; [destruct w; reflexivity|].
  split; [exact Hwr|]. split; [exact Hlen|]. split; [exact Hem|exact Hw2].
Qed.

Lemma process_responses_drains_queue_witness :
  let w := state ((LabPSU.measure_voltage ["5.0"] ;; LabPSU.get_output ["ON"])
                    connected_session) in
  result (LabPSU.process_responses w) = Return tt
  /\ LabPSU.link (state (LabPSU.process_responses w))
     = Some (SerialCommunication.Build true [] [] false true).
Proof.
  cbv zeta.
  assert (Hw : consistent
            (state ((LabPSU.measure_voltage ["5.0"] ;; LabPSU.get_output ["ON"])
                      connected_session))).
  { split; [apply consistent_init|].
    intros _. split; [reflexivity|]. eexists. split; reflexivity. }
  destruct (process_responses_drains_queue _
              (SerialCommunication.Build true []
                 [Response.Build ":MEAS:VOLT?" "5.0";
                  Response.Build ":OUTP?" "ON"] false true)
              Hw eq_refl eq_refl eq_refl) as (Hr & Hl & _).
  split; [exact Hr|exact Hl].
Defined.

(** Last reply wins: after [process_responses] on a well-formed queue, a
    field shows the reading of the last exchange that carries it, whatever
    came before. *)
Theorem last_reply_wins (w : LabPSU.t) (l : SerialCommunication.t)
    (before after : list Response.t) (r : Response.t) (key : string)
    (v : PyVal.t) :
  consistent w ->
  LabPSU.connected w = true ->
  LabPSU.link w = Some l ->
  SerialCommunication.responses l = (before ++ r :: after)%list ->
  forallb well_formed (before ++ r :: after) = true ->
  reading r = Some (key, v) ->
  (forall x, In x after -> field_of x <> Some key) ->
  exists c,
    LabPSU.status (state (LabPSU.process_responses w)) !! key = Some c
    /\ shows c v.
Proof.
  intros Hw Hc Hl Hr Hwf Hrd Hafter.
  rewrite (process_responses_connected w l Hc Hl), Hr.
  rewrite (process_loop_well_formed _ w l Hw Hl Hr Hwf).
  cbn [state fst snd].
  assert (Hst : LabPSU.status
            (LabPSU.set_status
               (cache_after (LabPSU.status w) (before ++ r :: after))
               (LabPSU.set_link
                  (Some (SerialCommunication.set_responses [] l)) w))
          = cache_after (LabPSU.status w) (before ++ r :: after))
    by (destruct w; reflexivity).
  rewrite Hst, cache_after_app. cbn [cache_after].
  rewrite cache_after_untouched by assumption.
  unfold cache_step. rewrite Hrd.
  destruct Hw as [Hkeys _].
  destruct (proj2 (cache_after_is_Some before (LabPSU.status w) key)
              (Hkeys key (ex_intro _ key (reading_signal r key v Hrd))))
    as [old Hold].
  exact (cache_set_lookup_same _ key old v Hold).
Qed.

Lemma last_reply_wins_witness :
  let w := state ((LabPSU.measure_voltage ["4.0"] ;;
                   LabPSU.measure_voltage ["5.0"]) connected_session) in
  exists c,
    LabPSU.status (state (LabPSU.process_responses w)) !! "measured_voltage"
    = Some c
    /\ shows c (PyVal.Float (S754_finite false 5629499534213120 (-50))).
Proof.
  cbv zeta.
  assert (Hw : consistent
            (state ((LabPSU.measure_voltage ["4.0"] ;;
                     LabPSU.measure_voltage ["5.0"]) connected_session))).
  { split; [apply consistent_init|].
    intros _. split; [reflexivity|]. eexists. split; reflexivity. }
  apply (last_reply_wins _
           (SerialCommunication.Build true []
              [Response.Build ":MEAS:VOLT?" "4.0";
               Response.Build ":MEAS:VOLT?" "5.0"] false true)
           [Response.Build ":MEAS:VOLT?" "4.0"] []
           (Response.Build ":MEAS:VOLT?" "5.0") "measured_voltage"
           (PyVal.Float (S754_finite false 5629499534213120 (-50)))
           Hw eq_refl eq_refl eq_refl).
  - vm_compute. reflexivity.
  - vm_compute. reflexivity.
  - intros x [].
Defined.



(** Deduplication in the drain: when all the queued exchanges carry the
    same reading and that value is not NaN, [process_responses] emits at
    most one notification, however long the queue. *)
Theorem repeated_reading_notified_once (w : LabPSU.t)
    (l : SerialCommunication.t) (key : string) (v : PyVal.t) :
  consistent w ->
  LabPSU.connected w = true ->
  LabPSU.link w = Some l ->
  (forall x, In x (SerialCommunication.responses l) ->
             reading x = Some (key, v)) ->
  is_nan v = false ->
  trace (LabPSU.process_responses w) = []
  \/ trace (LabPSU.process_responses w) = [Emit key v].
Proof.
  intros Hw Hc Hl Hall Hn.
  assert (Hwf : forallb well_formed (SerialCommunication.responses l) = true).
  { apply forallb_forall. intros x Hx. specialize (Hall x Hx).
    unfold reading, well_formed in *.
    destruct (String.eqb_spec (Response.query x) ":OUTP?") as [->|_];
      [reflexivity|].
    destruct (number_field (Response.query x)); [|reflexivity].
    destruct (PyFloat.of_string _); [reflexivity|discriminate]. }
  rewrite (process_responses_connected w l Hc Hl).
  rewrite (process_loop_well_formed _ w l Hw Hl eq_refl Hwf).
  cbn [trace snd].
  destruct (SerialCommunication.responses l) as [|r rest]; [now left|].
  cbn [events_after]. unfold events_step, cache_step.
  rewrite !(Hall r (or_introl eq_refl)).
  destruct Hw as [Hkeys _].
  destruct (Hkeys key (ex_intro _ key (reading_signal r key v
              (Hall r (or_introl eq_refl))))) as [old Hold].
  destruct (cache_set_lookup_same _ key old v Hold) as (c & Hc1 & Hshow).
  assert (Heq : PyVal.eqb c v = true).
  { destruct Hshow as [->|H]; [now apply PyVal_eqb_refl|exact H]. }
  destruct (events_after_repeated rest _ key c v Hc1 Heq) as [-> _].
  { intros x Hx. apply Hall. now right. }
  rewrite !app_nil_r. unfold notice. rewrite Hold.
  destruct (PyVal.neb old v); [now right|now left].
Qed.

Lemma repeated_reading_notified_once_witness :
  let w := state ((LabPSU.measure_voltage ["5.0"] ;;
                   LabPSU.measure_voltage ["5.000"] ;;
                   LabPSU.measure_voltage ["+5"]) connected_session) in
  trace (LabPSU.process_responses w) = []
  \/ trace (LabPSU.process_responses w)
     = [Emit "measured_voltage"
          (PyVal.Float (S754_finite false 5629499534213120 (-50)))].
Proof.
  cbv zeta.
  assert (Hw : consistent
            (state ((LabPSU.measure_voltage ["5.0"] ;;
                     LabPSU.measure_voltage ["5.000"] ;;
                     LabPSU.measure_voltage ["+5"]) connected_session))).
  { split; [apply consistent_init|].
    intros _. split; [reflexivity|]. eexists. split; reflexivity. }
  apply (repeated_reading_notified_once _
           (SerialCommunication.Build true []
              [Response.Build ":MEAS:VOLT?" "5.0";
               Response.Build ":MEAS:VOLT?" "5.000";
               Response.Build ":MEAS:VOLT?" "+5"] false true)
           "measured_voltage"
           (PyVal.Float (S754_finite false 5629499534213120 (-50)))
           Hw eq_refl eq_refl).
  - intros x [<-|[<-|[<-|[]]]]; vm_compute; reflexivity.
  - reflexivity.
Defined.

(** A malformed number anywhere in the delivery queue: the exchanges
    before it are processed as usual, then [float] raises [ValueError]
    out of [process_responses] and out of the thread
    [task_process_responses]. The malformed exchange has left the queue,
    the exchanges after it stay queued, and the cache is what draining the
    exchanges before it gives. *)
Theorem malformed_reply_stops_drain (w : LabPSU.t)
    (l : SerialCommunication.t) (good rest : list Response.t)
    (bad : Response.t) :
  consistent w ->
  LabPSU.connected w = true ->
  LabPSU.alive w = true ->
  LabPSU.link w = Some l ->
  SerialCommunication.responses l = (good ++ bad :: rest)%list ->
  forallb well_formed good = true ->
  well_formed bad = false ->
  let r := LabPSU.process_responses w in
  result r = Raise (ValueError (Response.response bad))
  /\ LabPSU.link (state r) = Some (SerialCommunication.set_responses rest l)
  /\ writes (trace r) = []
  /\ LabPSU.status (state r)
     = LabPSU.status
         (state (LabPSU.process_responses
                   (LabPSU.set_link
                      (Some (SerialCommunication.set_responses good l)) w)))
  /\ forall turns,
      result (LabPSU.task_process_responses (S turns) w)
      = Raise (ValueError (Response.response bad)).
Proof.
  intros Hw Hc Ha Hl Hr Hwf Hbad. cbv zeta.
  assert (Hp : LabPSU.process_responses w
               = (Raise (ValueError (Response.response bad)),
                  LabPSU.set_status (cache_after (LabPSU.status w) good)
                    (LabPSU.set_link
                       (Some (SerialCommunication.set_responses rest l)) w),
                  events_after (LabPSU.status w) good)).
  { rewrite (process_responses_connected w l Hc Hl), Hr.
    now apply process_loop_malformed. }
  rewrite Hp. cbn [result state trace fst snd].
  split; [reflexivity|]. split; [destruct w; reflexivity|].
  split; [apply events_after_bounds|].
  split.
  - rewrite (process_responses_connected _
               (SerialCommunication.set_responses good l))
      by (destruct w; cbn; auto).
    rewrite (process_loop_well_formed _ _
               (SerialCommunication.set_responses good l)).
    + destruct w, l; reflexivity.
    + destruct Hw as [Hkeys Hco]. split; [destruct w; exact Hkeys|].
      intros _. destruct (Hco Hc) as (Hlw & l0 & Hl0 & Hk).
      rewrite Hl in Hl0. injection Hl0 as <-.
      split; [destruct w; exact Hlw|].
      eexists. split; [destruct w; reflexivity|destruct l; exact Hk].
    + destruct w; reflexivity.
    + destruct l; reflexivity.
    + destruct l; exact Hwf.
  - intros turns. cbn [LabPSU.task_process_responses].
    unfold bind at 1, get. cbn [fst snd]. rewrite Ha. cbn [negb].
    unfold bind at 1, LabPSU.task_process_responses_turn, bind at 1, get.
    cbn [fst snd]. rewrite Hc. cbn [negb]. rewrite Hp. reflexivity.
Qed.

Lemma malformed_reply_stops_drain_witness :
  let w := state ((LabPSU.get_output ["ON"] ;;
                   LabPSU.measure_voltage [""] ;;
                   LabPSU.measure_current ["0.1"]) connected_session) in
  result (LabPSU.process_responses w) = Raise (ValueError "")
  /\ LabPSU.link (state (LabPSU.process_responses w))
     = Some (SerialCommunication.Build true []
               [Response.Build ":MEAS:CURR?" "0.1"] false true).
Proof.
  cbv zeta.
  assert (Hw : consistent
            (state ((LabPSU.get_output ["ON"] ;;
                     LabPSU.measure_voltage [""] ;;
                     LabPSU.measure_current ["0.1"]) connected_session))).
  { split; [apply consistent_init|].
    intros _. split; [reflexivity|]. eexists. split; reflexivity. }
  destruct (malformed_reply_stops_drain _
              (SerialCommunication.Build true []
                 [Response.Build ":OUTP?" "ON";
                  Response.Build ":MEAS:VOLT?" "";
                  Response.Build ":MEAS:CURR?" "0.1"] false true)
              [Response.Build ":OUTP?" "ON"]
              [Response.Build ":MEAS:CURR?" "0.1"]
              (Response.Build ":MEAS:VOLT?" "")
              Hw eq_refl eq_refl eq_refl eq_refl eq_refl eq_refl)
    as (Hr & Hl & _).
  split; [exact Hr|exact Hl].
Defined.

(** An exchange whose query is none of the five of the dispatch table,
    the comparison being exact: the loop body takes it off the queue,
    warns [Unknown query] with the query text, and changes nothing
    else. *)
Theorem unknown_query_warned_and_skipped (w : LabPSU.t)
    (l : SerialCommunication.t) (q value : string)
    (rest : list Response.t) :
  LabPSU.link w = Some l ->
  SerialCommunication.responses l = Response.Build q value :: rest ->
  ~ In q known_queries ->
  LabPSU.process_response w
  = (Return tt,
     LabPSU.set_link (Some (SerialCommunication.set_responses rest l)) w,
     [Warn ("Unknown query: " ++ q)]).
Proof.
  intros Hl Hr Hq. apply (process_response_unknown w l q value rest Hl Hr).
  rewrite response_handlers_lookup. unfold number_field.
  destruct (String.eqb_spec q ":OUTP?") as [->|_];
    [exfalso; apply Hq; cbn; tauto|].
  destruct (String.eqb_spec q ":MEAS:CURR?") as [->|_];
    [exfalso; apply Hq; cbn; tauto|].
  destruct (String.eqb_spec q ":MEAS:VOLT?") as [->|_];
    [exfalso; apply Hq; cbn; tauto|].
  destruct (String.eqb_spec q ":CURR?") as [->|_];
    [exfalso; apply Hq; cbn; tauto|].
  destruct (String.eqb_spec q ":VOLT?") as [->|_];
    [exfalso; apply Hq; cbn; tauto|].
  reflexivity.
Qed.

Lemma unknown_query_warned_and_skipped_witness :
  LabPSU.process_response
    (LabPSU.Build ∅ true true
       (Some (SerialCommunication.Build true []
                [Response.Build ":outp?" "ON"] false true)) true)
  = (Return tt,
     LabPSU.Build ∅ true true
       (Some (SerialCommunication.Build true [] [] false true)) true,
     [Warn "Unknown query: :outp?"]).
Proof.
  apply (unknown_query_warned_and_skipped
           (LabPSU.Build ∅ true true
              (Some (SerialCommunication.Build true []
                       [Response.Build ":outp?" "ON"] false true)) true)
           (SerialCommunication.Build true []
              [Response.Build ":outp?" "ON"] false true)
           ":outp?" "ON" [] eq_refl eq_refl).
  cbn. intros [H|[H|[H|[H|[H|[]]]]]]; discriminate.
Defined.

(** ** What [status_set] leaves alone *)

(** The three ways [status_set] can go. *)
Lemma status_set_cases (w : LabPSU.t) (key : string) (v : PyVal.t) :
  LabPSU.status_set key v w
  = match LabPSU.status w !! key with
    | None => (Raise (KeyError key), w, [])
    | Some old =>
        if PyVal.neb old v then
          let w1 := LabPSU.set_status (<[key := v]> (LabPSU.status w)) w in
          match LabPSU.signals !! key with
          | Some signal => (Return true, w1, [Emit signal v])
          | None => (Raise (KeyError key), w1, [])
          end
        else (Return false, w, [])
    end.
Proof.
  unfold LabPSU.status_set, bind at 1 2, get, getitem. cbn [fst snd].
  destruct (LabPSU.status w !! key) as [old|]; [|reflexivity].
  cbn [ret]. destruct (PyVal.neb old v); [|reflexivity].
  unfold bind, modify, getitem, LabPSU.emit, tell, ret, get.
  cbn [fst snd]. destruct (LabPSU.signals !! key); [|reflexivity].
  destruct w as [st al co lk lw]. cbn. rewrite lookup_insert_eq. reflexivity.
Qed.

(** [status_set(key, value)] on a key the cache does not have raises
    [KeyError] and changes nothing. On any key it leaves the other fields
    as they are, adds no key and removes none, writes nothing to the
    transport, and touches neither the link nor the connection state. *)
Theorem status_set_touches_one_field (w : LabPSU.t) (key : string)
    (v : PyVal.t) :
  let r := LabPSU.status_set key v w in
  (LabPSU.status w !! key = None -> r = (Raise (KeyError key), w, []))
  /\ (forall k, k <> key ->
        LabPSU.status (state r) !! k = LabPSU.status w !! k)
  /\ (forall k, is_Some (LabPSU.status (state r) !! k)
                <-> is_Some (LabPSU.status w !! k))
  /\ LabPSU.connected (state r) = LabPSU.connected w
  /\ LabPSU.link (state r) = LabPSU.link w
  /\ LabPSU.alive (state r) = LabPSU.alive w
  /\ writes (trace r) = [].
Proof.
  cbv zeta. rewrite status_set_cases.
  destruct (LabPSU.status w !! key) as [old|] eqn:Hold.
  2:{ cbn. repeat split; auto. }
  destruct (PyVal.neb old v).
  2:{ cbn. repeat split; auto; discriminate. }
  assert (Hlook : forall k, k <> key ->
            <[key := v]> (LabPSU.status w) !! k = LabPSU.status w !! k)
    by (intros; now apply lookup_insert_ne).
  assert (Hdom : forall k, is_Some (<[key := v]> (LabPSU.status w) !! k)
                           <-> is_Some (LabPSU.status w !! k)).
  { intros k. destruct (decide (key = k)) as [<-|Hne].
    - rewrite lookup_insert_eq, Hold. split; eauto.
    - now rewrite lookup_insert_ne. }
  cbv zeta.
  destruct (LabPSU.signals !! key); destruct w as [st al co lk lw]; cbn in *;
    repeat split; auto; try discriminate; apply Hdom.
Qed.

Lemma status_set_touches_one_field_witness :
  LabPSU.status_set "power" (PyVal.Int 3) LabPSU.__init__
  = (Raise (KeyError "power"), LabPSU.__init__, []).
Proof.
  apply (status_set_touches_one_field LabPSU.__init__ "power" (PyVal.Int 3)).
  reflexivity.
Defined.

(** ** The life cycle of a session *)

Lemma step_refl (w : LabPSU.t) : step w w.
Proof. repeat split; auto. Qed.

Lemma step_trans (a b c : LabPSU.t) : step a b -> step b c -> step a c.
Proof.
  intros (T1 & C1 & W1 & A1 & L1) (T2 & C2 & W2 & A2 & L2).
  repeat split; try congruence; try tauto.
Qed.

Lemma kept_bind {A B} (c : M LabPSU.t A) (k : A -> M LabPSU.t B) :
  kept c -> (forall a, kept (k a)) -> kept (x <- c ;; k x).
Proof.
  intros Hc Hk w. specialize (Hc w). unfold bind.
  destruct (c w) as [[[a|e|] w1] t1]; cbn [state fst snd] in *; try assumption.
  specialize (Hk a w1). destruct (k a w1) as [[r w2] t2].
  cbn [state fst snd] in *. eapply step_trans; eassumption.
Qed.

Lemma kept_ret {A} (a : A) : kept (ret a).
Proof. intros w. apply step_refl. Qed.

Lemma kept_raise {A} (e : exn) : kept (@raise LabPSU.t A e).
Proof. intros w. apply step_refl. Qed.

Lemma kept_get : kept (@get LabPSU.t).
Proof. intros w. apply step_refl. Qed.

Lemma kept_tell (e : event) : kept (@tell LabPSU.t e).
Proof. intros w. apply step_refl. Qed.

Lemma kept_getitem {V} (d : gmap string V) (key : string) :
  kept (@getitem LabPSU.t V d key).
Proof. intros w. unfold getitem. destruct (d !! key); apply step_refl. Qed.

Lemma kept_if {A} (b : bool) (c1 c2 : M LabPSU.t A) :
  kept c1 -> kept c2 -> kept (if b then c1 else c2).
Proof. destruct b; auto. Qed.

Lemma kept_on_link {A} (m : M SerialCommunication.t A) :
  kept (LabPSU.on_link m).
Proof.
  intros w. unfold LabPSU.on_link.
  destruct (LabPSU.link w) as [l|] eqn:Hl; [|apply step_refl].
  destruct (m l) as [[r l'] tr]. destruct w as [st al co lk lw].
  cbn in *. subst lk. repeat split; auto; discriminate.
Qed.

Lemma kept_status_set (key : string) (v : PyVal.t) :
  fits key v -> kept (LabPSU.status_set key v).
Proof.
  intros Hfit w. rewrite status_set_cases.
  destruct (LabPSU.status w !! key) as [old|]; [|apply step_refl].
  destruct (PyVal.neb old v); [|apply step_refl].
  assert (Hs : step w (LabPSU.set_status (<[key := v]> (LabPSU.status w)) w)).
  { destruct w as [st al co lk lw].
    split; [|repeat split; auto].
    intros Ht k x. cbn. destruct (decide (key = k)) as [<-|Hne].
    - rewrite lookup_insert_eq. intros [= <-]. exact Hfit.
    - rewrite lookup_insert_ne by assumption. apply Ht. }
  cbv zeta. destruct (LabPSU.signals !! key); exact Hs.
Qed.

Create HintDb kept.

#[export] Hint Resolve kept_ret kept_raise kept_get kept_tell kept_getitem
  kept_if kept_on_link : kept.

Ltac kept_step :=
  first [ apply kept_bind; [|intros ?] | apply kept_if ]; auto with kept.

Lemma kept_query (q : string) (e : bool) (during : list string) :
  kept (LabPSU.query q e during).
Proof. unfold LabPSU.query. repeat kept_step. Qed.

#[export] Hint Resolve kept_query : kept.

Lemma kept_process_response : kept LabPSU.process_response.
Proof.
  unfold LabPSU.process_response. kept_step. kept_step.
  rewrite response_handlers_lookup. unfold default, from_option, id.
  destruct (String.eqb (Response.query a) ":OUTP?").
  - unfold LabPSU.handled, LabPSU.status_set_on_off. kept_step.
    apply kept_status_set. unfold fits. cbn. eauto.
  - destruct (number_field (Response.query a)) as [key|] eqn:Hkey.
    + unfold LabPSU.handled, LabPSU.status_set_number, LabPSU.float.
      kept_step. kept_step.
      * destruct (PyFloat.of_string _); auto with kept.
      * apply kept_status_set. unfold fits, number_field in *.
        repeat (destruct (String.eqb (Response.query a) _);
                [injection Hkey as <-; cbn; eauto|]).
        discriminate.
    + unfold warn. repeat kept_step.
Qed.

Lemma kept_process_responses : kept LabPSU.process_responses.
Proof.
  unfold LabPSU.process_responses. repeat kept_step.
  induction (SerialCommunication.responses a0) as [|r rs IH];
    cbn [LabPSU.process_loop]; [auto with kept|].
  apply kept_bind; [apply kept_process_response|intros _; exact IH].
Qed.

Lemma kept_reader_thread (m : M SerialCommunication.t unit) :
  kept (LabPSU.reader_thread m).
Proof.
  unfold LabPSU.reader_thread. kept_step.
  destruct (LabPSU.link a); auto with kept.
Qed.

Lemma kept_run (c : call) :
  match c with
  | Connect _ | Disconnect | Del | DeviceConnect _ => True
  | _ => kept (run c)
  end.
Proof.
  destruct c; cbn [run]; try exact I.
  - unfold LabPSU.set_voltage. repeat kept_step.
  - unfold LabPSU.set_current. repeat kept_step.
  - unfold LabPSU.set_output. repeat kept_step.
  - unfold LabPSU.task_query_status_turn, LabPSU.get_output,
      LabPSU.measure_current, LabPSU.measure_voltage, LabPSU.get_current,
      LabPSU.get_voltage. repeat kept_step.
  - unfold LabPSU.task_process_responses_turn. kept_step.
    apply kept_if; [auto with kept|apply kept_process_responses].
  - apply kept_reader_thread.
  - apply kept_reader_thread.
  - unfold ApplicationWindow.device_toggle_output, LabPSU.set_output.
    repeat kept_step.
Qed.

Lemma preserves_run (c : call) : preserves (run c).
Proof.
  destruct c; cbn [run].
  - apply preserves_connect.
  - apply preserves_disconnect.
  - unfold LabPSU.__del__. apply preserves_bind.
    + intros [st al co lk lw] Hw. exact Hw.
    + intros _. apply preserves_disconnect.
  - unfold LabPSU.set_voltage. repeat preserves_step.
  - unfold LabPSU.set_current. repeat preserves_step.
  - unfold LabPSU.set_output. repeat preserves_step.
  - unfold LabPSU.task_query_status_turn, LabPSU.get_output,
      LabPSU.measure_current, LabPSU.measure_voltage, LabPSU.get_current,
      LabPSU.get_voltage. repeat preserves_step.
  - unfold LabPSU.task_process_responses_turn. preserves_step.
    apply preserves_if; [auto with preserves|apply preserves_process_responses].
  - apply preserves_reader_thread. auto with preserves.
  - apply preserves_reader_thread. auto with preserves.
  - unfold ApplicationWindow.device_connect. preserves_step.
    apply preserves_if; [apply preserves_connect|apply preserves_disconnect].
  - unfold ApplicationWindow.device_toggle_output, LabPSU.set_output.
    repeat preserves_step.
Qed.

Lemma sound_init : sound LabPSU.__init__.
Proof.
  split; [apply consistent_init|]. split; [|intros _; split; reflexivity].
  intros key v. unfold LabPSU.__init__. cbn [LabPSU.status].
  cbn [list_to_map foldr fst snd uncurry]. intros H.
  repeat (apply lookup_insert_Some in H as [[<- <-]|[_ H]];
          [cbn; eauto|]).
  rewrite lookup_empty in H. discriminate.
Qed.

Lemma sound_connect (opens : bool) (w : LabPSU.t) :
  sound w -> sound (state (LabPSU.connect opens w)).
Proof.
  intros (Hc & Ht & Hi). split; [now apply preserves_connect|].
  destruct opens; [|split; assumption].
  destruct w as [st al co lk lw]. split; [exact Ht|]. intros [=].
Qed.

Lemma sound_disconnect (w : LabPSU.t) :
  sound w -> sound (state (LabPSU.disconnect w)).
Proof.
  intros (Hc & Ht & Hi). split; [now apply preserves_disconnect|].
  destruct w as [st al [|] lk lw]; [|split; assumption].
  destruct Hc as [_ Hc]. destruct (Hc eq_refl) as (Hlw & l & Hl & Hk).
  cbn in Hlw, Hl. subst lw lk. split; [exact Ht|]. intros _. split; reflexivity.
Qed.

Lemma sound_set_alive (b : bool) (w : LabPSU.t) :
  sound w -> sound (LabPSU.set_alive b w).
Proof. destruct w. intros H. exact H. Qed.

Lemma sound_run (c : call) (w : LabPSU.t) :
  sound w -> sound (state (run c w)).
Proof.
  intros Hs.
  assert (Hkept : kept (run c) -> sound (state (run c w))).
  { intros Hk. destruct Hs as (Hc & Ht & Hi).
    destruct (Hk w) as (T & C & W & A & L).
    split; [now apply preserves_run|]. split; [auto|].
    intros Hd. rewrite C in Hd. destruct (Hi Hd) as [Hl Hlw].
    split; [now apply L|congruence]. }
  pose proof (kept_run c) as Hk.
  destruct c; try (apply Hkept; exact Hk); cbn [run].
  - now apply sound_connect.
  - now apply sound_disconnect.
  - unfold LabPSU.__del__, bind, modify. cbn [fst snd].
    pose proof (sound_disconnect _ (sound_set_alive false w Hs)) as Hd.
    destruct (LabPSU.disconnect (LabPSU.set_alive false w)) as [[r s1] t1].
    exact Hd.
  - unfold ApplicationWindow.device_connect, bind, get. cbn [fst snd].
    pose proof (sound_connect opens w Hs) as H1.
    pose proof (sound_disconnect w Hs) as H2.
    destruct (negb (LabPSU.connected w)).
    + destruct (LabPSU.connect opens w) as [[r s1] t1]. exact H1.
    + destruct (LabPSU.disconnect w) as [[r s1] t1]. exact H2.
Qed.

Lemma sound_run_all (calls : list call) :
  forall w, sound w -> sound (run_all calls w).
Proof.
  induction calls as [|c rest IH]; intros w Hw; [exact Hw|].
  cbn [run_all fold_left]. apply IH. now apply sound_run.
Qed.

(** The invariant of the program: whatever the window, the two threads of
    the session and the reader thread do, in whatever order, and whether or
    not calls raise on the way, the session stays sound. Its cache has the
    five status fields, a boolean under [output] and the initial [-1] or a
    float under the others; while connected it holds a link with a free
    lock and the reader thread; while disconnected it holds neither. *)
Theorem reachable_sessions_sound (calls : list call) :
  let w := run_all calls LabPSU.__init__ in
  (forall key, In key ["set_voltage"; "set_current"; "measured_voltage";
                       "measured_current"; "output"] ->
               is_Some (LabPSU.status w !! key))
  /\ typed w
  /\ (LabPSU.connected w = true ->
      LabPSU.link_worker w = true
      /\ exists l, LabPSU.link w = Some l
                   /\ SerialCommunication.lock l = false)
  /\ (LabPSU.connected w = false ->
      LabPSU.link w = None /\ LabPSU.link_worker w = false).
Proof.
  cbv zeta.
  destruct (sound_run_all calls _ sound_init) as ([Hkeys Hc] & Ht & Hi).
  split; [|split; [exact Ht|split; [exact Hc|exact Hi]]].
  intros key Hin. apply Hkeys. cbn in Hin.
  repeat destruct Hin as [<-|Hin]; try (eexists; reflexivity).
  destruct Hin.
Qed.

Lemma reachable_sessions_sound_witness :
  let w := run_all [Connect true; PollTurn (fun _ => ["ON"]); DrainTurn;
                    DeviceToggleOutput] LabPSU.__init__ in
  is_Some (LabPSU.status w !! "output") /\ LabPSU.link_worker w = true.
Proof.
  cbv zeta.
  destruct (reachable_sessions_sound
              [Connect true; PollTurn (fun _ => ["ON"]); DrainTurn;
               DeviceToggleOutput]) as (Hk & _ & Hc & _).
  split.
  - apply Hk. cbn. tauto.
  - apply Hc. reflexivity.
Defined.

(** [connect] has no guard. When the port opens, the session gets a fresh
    link, with no inbound line, no queued exchange, a free lock and its
    transport, also when it was connected before: what the old link had
    queued is dropped.
    The cache is kept as it was and the connection notification is emitted
    again. When the port does not open, [SerialException] leaves the
    session unchanged and nothing is emitted. *)
Theorem connect_starts_fresh_link (w : LabPSU.t) :
  LabPSU.connect true w
  = (Return tt,
     LabPSU.Build (LabPSU.status w) (LabPSU.alive w) true
       (Some (SerialCommunication.Build true [] [] false true)) true,
     [Emit LabPSU.signal_connection (PyVal.Bool true)])
  /\ LabPSU.connect false w = (Raise SerialException, w, []).
Proof. destruct w. split; reflexivity. Qed.

(** [disconnect] on a sound session returns with the session
    disconnected, the link and the reader thread dropped, and the cache
    kept with its last values. It emits the connection notification with
    [False] when the session was connected and nothing when it was not, so
    a second [disconnect] does nothing. *)
Theorem disconnect_releases_link (w : LabPSU.t) :
  sound w ->
  let d := LabPSU.disconnect w in
  result d = Return tt
  /\ LabPSU.connected (state d) = false
  /\ LabPSU.link (state d) = None
  /\ LabPSU.link_worker (state d) = false
  /\ LabPSU.status (state d) = LabPSU.status w
  /\ LabPSU.alive (state d) = LabPSU.alive w
  /\ trace d = (if LabPSU.connected w
                then [Emit LabPSU.signal_connection (PyVal.Bool false)]
                else [])
  /\ LabPSU.disconnect (state d) = (Return tt, state d, []).
Proof.
  intros ([_ Hc] & _ & Hi). cbv zeta.
  destruct w as [st al [|] lk lw].
  - destruct (Hc eq_refl) as (Hlw & l & Hl & Hk). cbn in Hlw, Hl.
    subst lw lk. cbn. repeat split.
  - destruct (Hi eq_refl) as [Hl Hlw]. cbn in Hl, Hlw. subst lk lw.
    cbn. repeat split.
Qed.

Lemma disconnect_releases_link_witness :
  trace (LabPSU.disconnect connected_session)
  = [Emit LabPSU.signal_connection (PyVal.Bool false)]
  /\ LabPSU.disconnect (state (LabPSU.disconnect connected_session))
     = (Return tt, state (LabPSU.disconnect connected_session), []).
Proof.
  assert (Hs : sound connected_session)
    by exact (sound_run_all [Connect true] _ sound_init).
  destruct (disconnect_releases_link connected_session Hs)
    as (_ & _ & _ & _ & _ & _ & Ht & Hd).
  split; [exact Ht|exact Hd].
Defined.

(** [__del__] on a sound session clears [alive] and disconnects. After
    it both threads end at their next test of [self.alive], without
    writing or processing anything, and every query returns [False]
    without effect. *)
Theorem del_stops_threads (w : LabPSU.t) :
  sound w ->
  let d := LabPSU.__del__ w in
  result d = Return tt
  /\ LabPSU.alive (state d) = false
  /\ LabPSU.connected (state d) = false
  /\ LabPSU.link (state d) = None
  /\ (forall during rest,
        LabPSU.task_query_status (during :: rest) (state d)
        = (Return false, state d, []))
  /\ (forall turns,
        LabPSU.task_process_responses (S turns) (state d)
        = (Return false, state d, []))
  /\ (forall q e during,
        LabPSU.query q e during (state d) = (Return false, state d, [])).
Proof.
  intros ([_ Hc] & _ & Hi). cbv zeta.
  destruct w as [st al [|] lk lw].
  - destruct (Hc eq_refl) as (Hlw & l & Hl & Hk). cbn in Hlw, Hl.
    subst lw lk. cbn. repeat split.
  - destruct (Hi eq_refl) as [Hl Hlw]. cbn in Hl, Hlw. subst lk lw.
    cbn. repeat split.
Qed.

Lemma del_stops_threads_witness :
  LabPSU.task_query_status [fun _ => []]
    (state (LabPSU.__del__ connected_session))
  = (Return false, state (LabPSU.__del__ connected_session), []).
Proof.
  assert (Hs : sound connected_session)
    by exact (sound_run_all [Connect true] _ sound_init).
  destruct (del_stops_threads connected_session Hs)
    as (_ & _ & _ & _ & Hq & _).
  apply Hq.
Defined.

(** ** The window *)

Lemma bind_run {S A B} (c : M S A) (k : A -> M S B) (s s1 : S) (a : A)
    (t1 : list event) :
  c s = (Return a, s1, t1) ->
  (x <- c ;; k x) s
  = (result (k a s1), state (k a s1), (t1 ++ trace (k a s1))%list).
Proof.
  intros Hc. unfold bind. rewrite Hc.
  destruct (k a s1) as [[r s2] t2]. reflexivity.
Qed.

(** What the output button sends, by the cached output state. *)
Lemma toggle_output_writes (w : LabPSU.t) (l : SerialCommunication.t)
    (b : bool) :
  LabPSU.connected w = true ->
  LabPSU.link w = Some l ->
  SerialCommunication.lock l = false ->
  SerialCommunication.transport l = true ->
  LabPSU.status w !! "output" = Some (PyVal.Bool b) ->
  ApplicationWindow.device_toggle_output w
  = (Return tt, w,
     [Write (":OUTP " ++ (if b then "OFF" else "ON")
             ++ SerialCommunication.TERMINATOR)]).
Proof.
  intros Hc Hl Hk Ht Ho.
  unfold ApplicationWindow.device_toggle_output, bind at 1 2, get, getitem.
  cbn [fst snd]. rewrite Ho. cbn [ret ApplicationWindow.truth].
  unfold LabPSU.set_output.
  destruct b; cbn [negb];
    rewrite drop_result, (command_connected w l) by assumption; reflexivity.
Qed.

(** The output button, on a connected session whose link has its
    transport, sends the opposite of the cached output state: [:OUTP ON]
    when the cache says off, [:OUTP OFF] when it says on. The press itself
    does not change the cache, which only a later poll does: a second
    press before that sends the same line again. *)
Theorem device_toggle_output_follows_cache (w : LabPSU.t)
    (l : SerialCommunication.t) (b : bool) :
  LabPSU.connected w = true ->
  LabPSU.link w = Some l ->
  SerialCommunication.lock l = false ->
  SerialCommunication.transport l = true ->
  LabPSU.status w !! "output" = Some (PyVal.Bool b) ->
  let line := ":OUTP " ++ (if b then "OFF" else "ON")
              ++ SerialCommunication.TERMINATOR in
  ApplicationWindow.device_toggle_output w = (Return tt, w, [Write line])
  /\ (ApplicationWindow.device_toggle_output ;;
      ApplicationWindow.device_toggle_output) w
     = (Return tt, w, [Write line; Write line]).
Proof.
  intros Hc Hl Hk Ht Ho. cbv zeta.
  pose proof (toggle_output_writes w l b Hc Hl Hk Ht Ho) as Hp.
  split; [exact Hp|].
  rewrite (bind_run _ _ w w tt _ Hp), Hp. reflexivity.
Qed.

Lemma device_toggle_output_follows_cache_witness :
  ApplicationWindow.device_toggle_output connected_session
  = (Return tt, connected_session,
     [Write (":OUTP ON" ++ SerialCommunication.TERMINATOR)]).
Proof.
  apply (device_toggle_output_follows_cache connected_session
           started_link false eq_refl eq_refl eq_refl eq_refl eq_refl).
Defined.

(** From the button to the device and back, on a link that has its
    transport: with the cache saying off and nothing queued, a press sends
    [:OUTP ON]; the next poll of the output state is answered [ON]; the
    drain writes [True] into the cache and notifies it; the next press
    sends [:OUTP OFF]. *)
Theorem toggle_poll_drain_toggle (w : LabPSU.t) (l : SerialCommunication.t) :
  consistent w ->
  LabPSU.connected w = true ->
  LabPSU.link w = Some l ->
  SerialCommunication.transport l = true ->
  SerialCommunication.received_lines l = [] ->
  SerialCommunication.responses l = [] ->
  LabPSU.status w !! "output" = Some (PyVal.Bool false) ->
  let r := (ApplicationWindow.device_toggle_output ;;
            LabPSU.get_output ["ON"] ;;
            LabPSU.process_responses ;;
            ApplicationWindow.device_toggle_output) w in
  result r = Return tt
  /\ trace r
     = [Write (":OUTP ON" ++ SerialCommunication.TERMINATOR);
        Write (":OUTP?" ++ SerialCommunication.TERMINATOR);
        Emit "output" (PyVal.Bool true);
        Write (":OUTP OFF" ++ SerialCommunication.TERMINATOR)]
  /\ LabPSU.status (state r) !! "output" = Some (PyVal.Bool true)
  /\ LabPSU.link (state r) = Some l.
Proof.
  intros Hw Hc Hl Ht Hrl Hrs Ho. cbv zeta.
  destruct Hw as [Hkeys Hco]. destruct (Hco Hc) as (Hlw & l0 & Hl0 & Hk).
  rewrite Hl in Hl0. injection Hl0 as <-.
  (* the first press *)
  rewrite (bind_run _ _ w w tt _
             (toggle_output_writes w l false Hc Hl Hk Ht Ho)).
  (* the poll of the output state *)
  set (l1 := SerialCommunication.Build (SerialCommunication.connected l) []
               [Response.Build ":OUTP?" "ON"] false
               (SerialCommunication.transport l)).
  set (w1 := LabPSU.set_link (Some l1) w).
  assert (Hg : LabPSU.get_output ["ON"] w
               = (Return tt, w1,
                  [Write (":OUTP?" ++ SerialCommunication.TERMINATOR)])).
  { unfold LabPSU.get_output. rewrite (poll_last w l) by assumption.
    rewrite (link_query_reply l ":OUTP?" "ON" ["ON"] [] Hk Ht)
      by (rewrite Hrl; reflexivity).
    rewrite Hrs. reflexivity. }
  rewrite (bind_run _ _ w w1 tt _ Hg).
  (* the drain *)
  assert (Hw1 : consistent w1).
  { split; [destruct w; exact Hkeys|]. intros _.
    split; [destruct w; exact Hlw|]. exists l1.
    split; [destruct w; reflexivity|reflexivity]. }
  assert (Hst1 : LabPSU.status w1 = LabPSU.status w)
    by (destruct w; reflexivity).
  set (w2 := LabPSU.set_status
               (<["output" := PyVal.Bool true]> (LabPSU.status w))
               (LabPSU.set_link (Some (SerialCommunication.set_responses [] l1))
                  w1)).
  assert (Hp : LabPSU.process_responses w1
               = (Return tt, w2, [Emit "output" (PyVal.Bool true)])).
  { rewrite (process_responses_connected w1 l1)
      by (destruct w; cbn; auto).
    rewrite (process_loop_well_formed _ w1 l1 Hw1)
      by (destruct w; reflexivity).
    cbn [SerialCommunication.responses l1 cache_after events_after].
    unfold cache_step, events_step, cache_set, notice. cbn [reading].
    change (reading (Response.Build ":OUTP?" "ON"))
      with (Some ("output", PyVal.Bool true)).
    cbn iota beta. rewrite Hst1, Ho. reflexivity. }
  rewrite (bind_run _ _ w1 w2 tt _ Hp).
  (* the second press *)
  assert (Hl2 : LabPSU.link w2
                = Some (SerialCommunication.set_responses [] l1))
    by (destruct w; reflexivity).
  rewrite (toggle_output_writes w2 _ true
             ltac:(destruct w; exact Hc) Hl2 eq_refl Ht
             ltac:(destruct w; cbn; apply lookup_insert_eq)).
  cbn [result state trace fst snd app].
  split; [reflexivity|]. split; [reflexivity|].
  split; [destruct w; cbn; apply lookup_insert_eq|].
  rewrite Hl2. destruct l as [c rl rs lk tp]. cbn in *. subst. reflexivity.
Qed.

Lemma toggle_poll_drain_toggle_witness :
  trace ((ApplicationWindow.device_toggle_output ;;
          LabPSU.get_output ["ON"] ;;
          LabPSU.process_responses ;;
          ApplicationWindow.device_toggle_output) connected_session)
  = [Write (":OUTP ON" ++ SerialCommunication.TERMINATOR);
     Write (":OUTP?" ++ SerialCommunication.TERMINATOR);
     Emit "output" (PyVal.Bool true);
     Write (":OUTP OFF" ++ SerialCommunication.TERMINATOR)].
Proof.
  apply (toggle_poll_drain_toggle connected_session started_link
           consistent_connected_session eq_refl eq_refl eq_refl eq_refl
           eq_refl eq_refl).
Defined.

(** The connect button toggles the connection of a sound session: with a
    port that opens, a press connects a disconnected session and
    disconnects a connected one, emitting the connection notification with
    the new state and keeping the cache; the session is sound again. With
    a port that does not open, a press on a disconnected session raises
    [SerialException] and changes nothing. *)
Theorem device_connect_toggles_connection (w : LabPSU.t) :
  sound w ->
  let r := ApplicationWindow.device_connect true w in
  result r = Return tt
  /\ LabPSU.connected (state r) = negb (LabPSU.connected w)
  /\ trace r = [Emit LabPSU.signal_connection
                  (PyVal.Bool (negb (LabPSU.connected w)))]
  /\ LabPSU.status (state r) = LabPSU.status w
  /\ sound (state r)
  /\ (LabPSU.connected w = false ->
      ApplicationWindow.device_connect false w
      = (Raise SerialException, w, [])).
Proof.
  intros Hs. cbv zeta.
  pose proof (sound_run (DeviceConnect true) w Hs) as Hs2. cbn [run] in Hs2.
  destruct Hs as ([_ Hc] & _ & Hi).
  destruct w as [st al [|] lk lw].
  - destruct (Hc eq_refl) as (Hlw & l & Hl & Hk). cbn in Hlw, Hl.
    subst lw lk. do 4 (split; [reflexivity|]). split; [exact Hs2|].
    discriminate.
  - destruct (Hi eq_refl) as [Hl Hlw]. cbn in Hl, Hlw. subst lk lw.
    do 4 (split; [reflexivity|]). split; [exact Hs2|]. reflexivity.
Qed.

Lemma device_connect_toggles_connection_witness :
  LabPSU.connected
    (state (ApplicationWindow.device_connect true connected_session)) = false
  /\ ApplicationWindow.device_connect false LabPSU.__init__
     = (Raise SerialException, LabPSU.__init__, []).
Proof.
  split.
  - destruct (device_connect_toggles_connection connected_session
                (sound_run_all [Connect true] _ sound_init))
      as (_ & Hc & _).
    exact Hc.
  - destruct (device_connect_toggles_connection LabPSU.__init__ sound_init)
      as (_ & _ & _ & _ & _ & Hf).
    exact (Hf eq_refl).
Defined.

(** The drain of a well-formed queue, as one equation. *)
Lemma process_responses_drains_queue_aux (w : LabPSU.t)
    (l : SerialCommunication.t) :
  consistent w ->
  LabPSU.connected w = true ->
  LabPSU.link w = Some l ->
  forallb well_formed (SerialCommunication.responses l) = true ->
  LabPSU.process_responses w
  = (Return tt,
     LabPSU.set_status
       (cache_after (LabPSU.status w) (SerialCommunication.responses l))
       (LabPSU.set_link (Some (SerialCommunication.set_responses [] l)) w),
     events_after (LabPSU.status w) (SerialCommunication.responses l))
  /\ consistent
       (LabPSU.set_status
          (cache_after (LabPSU.status w) (SerialCommunication.responses l))
          (LabPSU.set_link (Some (SerialCommunication.set_responses [] l)) w))
  /\ writes (events_after (LabPSU.status w)
               (SerialCommunication.responses l)) = [].
Proof.
  intros Hw Hc Hl Hwf.
  pose proof (preserves_process_responses w Hw) as Hw2.
  rewrite (process_responses_connected w l Hc Hl) in *.
  rewrite (process_loop_well_formed _ w l Hw Hl eq_refl Hwf) in *.
  split; [reflexivity|]. split; [exact Hw2|]. apply events_after_bounds.
Qed.

(** ** The two threads over many turns *)

Lemma poll_turn_effect (w : LabPSU.t) (during : nat -> list string) :
  consistent w ->
  live w ->
  let r := LabPSU.task_query_status_turn during w in
  result r = Return tt
  /\ consistent (state r)
  /\ live (state r)
  /\ LabPSU.connected (state r) = LabPSU.connected w
  /\ LabPSU.alive (state r) = LabPSU.alive w
  /\ LabPSU.status (state r) = LabPSU.status w
  /\ length (writes (trace r)) = (if LabPSU.connected w then 5 else 0)%nat
  /\ emits (trace r) = [].
Proof.
  intros Hw Hlive. cbv zeta. destruct (LabPSU.connected w) eqn:Hc.
  - destruct Hw as [Hkeys Hco]. destruct (Hco Hc) as (Hlw & l & Hl & Hk).
    pose proof (Hlive l Hl) as Ht.
    rewrite (poll_turn_as_submit_all w l) by assumption.
    destruct (submit_all_effect (battery during) l Hk Ht)
      as (Hr & Hlk & _ & Hwr & He & _ & _).
    cbn [result state trace fst snd].
    split; [exact Hr|]. split.
    { split; [destruct w; exact Hkeys|]. intros _.
      split; [destruct w; exact Hlw|].
      eexists. split; [destruct w; reflexivity|exact Hlk]. }
    split.
    { intros l' Hl'. rewrite link_set_link in Hl'. injection Hl' as <-.
      exact (submit_all_transport (battery during) l Hk Ht). }
    split; [destruct w; exact Hc|]. split; [destruct w; reflexivity|].
    split; [destruct w; reflexivity|]. split; [rewrite Hwr; reflexivity|].
    exact He.
  - unfold LabPSU.task_query_status_turn, bind, get. cbn. rewrite Hc. cbn.
    split; [reflexivity|]. split; [exact Hw|]. split; [exact Hlive|].
    repeat split; auto.
Qed.

Lemma task_query_status_cons (during : nat -> list string)
    (rest : list (nat -> list string)) (w : LabPSU.t) :
  LabPSU.alive w = true ->
  result (LabPSU.task_query_status_turn during w) = Return tt ->
  LabPSU.task_query_status (during :: rest) w
  = let first := LabPSU.task_query_status_turn during w in
    let next := LabPSU.task_query_status rest (state first) in
    (result next, state next, (trace first ++ trace next)%list).
Proof.
  intros Ha Hr. cbn [LabPSU.task_query_status]. unfold bind at 1, get.
  cbn [fst snd]. rewrite Ha. cbn [negb]. unfold bind.
  destruct (LabPSU.task_query_status_turn during w) as [[r1 w1] t1].
  cbn [result state trace fst snd] in *. subst r1.
  destruct (LabPSU.task_query_status rest w1) as [[r2 w2] t2]. reflexivity.
Qed.

Lemma task_process_responses_S (turns : nat) (w : LabPSU.t) :
  LabPSU.alive w = true ->
  result (LabPSU.task_process_responses_turn w) = Return tt ->
  LabPSU.task_process_responses (S turns) w
  = let first := LabPSU.task_process_responses_turn w in
    let next := LabPSU.task_process_responses turns (state first) in
    (result next, state next, (trace first ++ trace next)%list).
Proof.
  intros Ha Hr. cbn [LabPSU.task_process_responses]. unfold bind at 1, get.
  cbn [fst snd]. rewrite Ha. cbn [negb]. unfold bind.
  destruct (LabPSU.task_process_responses_turn w) as [[r1 w1] t1].
  cbn [result state trace fst snd] in *. subst r1.
  destruct (LabPSU.task_process_responses turns w1) as [[r2 w2] t2].
  reflexivity.
Qed.

Lemma task_process_responses_turn_eq (w : LabPSU.t) :
  LabPSU.task_process_responses_turn w
  = if LabPSU.connected w then LabPSU.process_responses w
    else (Return tt, w, []).
Proof.
  unfold LabPSU.task_process_responses_turn, bind, get. cbn [fst snd].
  destruct (LabPSU.connected w); cbn [negb]; [|reflexivity].
  destruct (LabPSU.process_responses w) as [[r s1] t1]. reflexivity.
Qed.

(** The poll loop does not end by itself while the link has its
    transport: on a consistent session that is alive it is still running
    after any number of turns, whatever the device answers or fails to
    answer; a connected session has then been sent five queries for each
    turn, a disconnected one none, and the cache is as it was. On a
    connected session whose link has lost its transport the loop ends in
    its first turn: the first query raises [AttributeError], which nothing
    catches, and nothing is written. *)
Theorem poll_loop_keeps_running (turns : list (nat -> list string))
    (w : LabPSU.t) :
  consistent w ->
  LabPSU.alive w = true ->
  let r := LabPSU.task_query_status turns w in
  (live w ->
   result r = Return true
   /\ length (writes (trace r))
      = ((if LabPSU.connected w then 5 else 0) * length turns)%nat
   /\ emits (trace r) = []
   /\ LabPSU.status (state r) = LabPSU.status w
   /\ LabPSU.connected (state r) = LabPSU.connected w)
  /\ (forall l, turns <> [] -> LabPSU.connected w = true ->
      LabPSU.link w = Some l -> SerialCommunication.transport l = false ->
      r = (Raise AttributeError, w, [])).
Proof.
  intros Hw Ha. cbv zeta. split.
  - revert w Hw Ha. induction turns as [|during rest IH];
      intros w Hw Ha Hlive.
    + cbn. repeat split; lia.
    + destruct (poll_turn_effect w during Hw Hlive)
        as (Hr & Hw1 & Hlive1 & Hc1 & Ha1 & Hs1 & Hn1 & He1).
      rewrite (task_query_status_cons during rest w Ha Hr). cbv zeta.
      rewrite Ha in Ha1.
      destruct (IH _ Hw1 Ha1 Hlive1) as (Hr2 & Hn2 & He2 & Hs2 & Hc2).
      cbn [result state trace fst snd].
      split; [exact Hr2|].
      split; [rewrite writes_app, length_app, Hn1, Hn2, Hc1; cbn [length];
              lia|].
      split.
      { unfold emits in *. rewrite omap_app, He1, He2. reflexivity. }
      split; congruence.
  - intros l Hne Hc Hl Ht. destruct turns as [|during rest]; [congruence|].
    destruct Hw as [_ Hw]. destruct (Hw Hc) as (_ & l' & Hl' & Hk).
    rewrite Hl in Hl'. injection Hl' as <-.
    cbn [LabPSU.task_query_status]. unfold bind at 1, get. cbn [fst snd].
    rewrite Ha. cbn [negb].
    rewrite (bind_raise _ _ w w AttributeError []); [reflexivity|].
    now apply (poll_turn_no_transport w l).
Qed.

Lemma poll_loop_keeps_running_witness :
  result (LabPSU.task_query_status [fun _ => []; fun _ => ["ON"]]
            connected_session) = Return true
  /\ length (writes (trace (LabPSU.task_query_status
                              [fun _ => []; fun _ => ["ON"]]
                              connected_session))) = 10%nat
  /\ LabPSU.task_query_status [fun _ => []; fun _ => ["ON"]]
       (link_lost_session None)
     = (Raise AttributeError, link_lost_session None, []).
Proof.
  destruct (poll_loop_keeps_running [fun _ => []; fun _ => ["ON"]]
              connected_session consistent_connected_session eq_refl)
    as (Hlive & _).
  destruct (Hlive live_connected_session) as (Hr & Hn & _).
  split; [exact Hr|]. split; [exact Hn|].
  destruct (poll_loop_keeps_running [fun _ => []; fun _ => ["ON"]]
              (link_lost_session None) (consistent_link_lost_session None)
              eq_refl)
    as (_ & Hlost).
  apply (Hlost (SerialCommunication.Build false [] [] false false));
    [discriminate|reflexivity|reflexivity|reflexivity].
Defined.

(** The drain loop goes on as long as what it finds is well formed: on a
    consistent session that is alive and whose queued exchanges are all
    well formed, it is still running after any number of turns, it has
    written nothing to the transport, and from the first turn on the
    delivery queue of a connected session is empty. *)
Theorem drain_loop_keeps_running (turns : nat) (w : LabPSU.t) :
  consistent w ->
  LabPSU.alive w = true ->
  (forall l, LabPSU.link w = Some l ->
             forallb well_formed (SerialCommunication.responses l) = true) ->
  let r := LabPSU.task_process_responses (S turns) w in
  result r = Return true
  /\ writes (trace r) = []
  /\ (LabPSU.connected w = true ->
      exists l, LabPSU.link (state r) = Some l
                /\ SerialCommunication.responses l = []).
Proof.
  assert (Hmain : forall n w,
    consistent w -> LabPSU.alive w = true ->
    (forall l, LabPSU.link w = Some l ->
               forallb well_formed (SerialCommunication.responses l) = true) ->
    result (LabPSU.task_process_responses n w) = Return true
    /\ writes (trace (LabPSU.task_process_responses n w)) = []
    /\ (LabPSU.connected w = true ->
        exists l, LabPSU.link (state (LabPSU.task_process_responses n w))
                  = Some l
          /\ (n <> O -> SerialCommunication.responses l = []))).
  { induction n as [|n IH]; intros w0 Hw Ha Hwf.
    - cbn. split; [reflexivity|]. split; [reflexivity|]. intros Hc.
      destruct Hw as [_ Hco]. destruct (Hco Hc) as (_ & l & Hl & _).
      exists l. split; [exact Hl|]. intros H. now destruct H.
    - destruct (LabPSU.connected w0) eqn:Hc.
      + pose proof Hw as [Hkeys Hco].
        destruct (Hco Hc) as (Hlw & l & Hl & Hk).
        destruct (process_responses_drains_queue_aux w0 l Hw Hc Hl (Hwf l Hl))
          as (Hp & Hw1 & Hwr1).
        assert (Ht : LabPSU.task_process_responses_turn w0
                     = LabPSU.process_responses w0)
          by (rewrite task_process_responses_turn_eq, Hc; reflexivity).
        rewrite (task_process_responses_S n w0 Ha)
          by (rewrite Ht, Hp; reflexivity).
        cbv zeta. rewrite Ht, Hp. cbn [result state trace fst snd].
        set (w1 := LabPSU.set_status _ _) in *.
        assert (Hl1 : LabPSU.link w1
                      = Some (SerialCommunication.set_responses [] l))
          by (destruct w0; reflexivity).
        destruct (IH w1 Hw1) as (Hr2 & Hwr2 & Hq2).
        { destruct w0; exact Ha. }
        { intros l2 Hl2. rewrite Hl1 in Hl2. injection Hl2 as <-.
          destruct l; reflexivity. }
        split; [exact Hr2|].
        split; [rewrite writes_app, Hwr1, Hwr2; reflexivity|].
        intros _. destruct Hq2 as (l2 & Hl2 & Hq2); [destruct w0; exact Hc|].
        exists l2. split; [exact Hl2|]. intros _.
        destruct n as [|n'].
        * change (LabPSU.link w1 = Some l2) in Hl2.
          rewrite Hl1 in Hl2. injection Hl2 as <-.
          destruct l; reflexivity.
        * apply Hq2. discriminate.
      + assert (Ht : LabPSU.task_process_responses_turn w0
                     = (Return tt, w0, []))
          by (rewrite task_process_responses_turn_eq, Hc; reflexivity).
        rewrite (task_process_responses_S n w0 Ha)
          by (rewrite Ht; reflexivity).
        cbv zeta. rewrite Ht. cbn [result state trace fst snd app].
        destruct (IH w0 Hw Ha Hwf) as (Hr2 & Hwr2 & _).
        split; [exact Hr2|]. split; [exact Hwr2|]. discriminate. }
  intros Hw Ha Hwf. cbv zeta.
  destruct (Hmain (S turns) w Hw Ha Hwf) as (Hr & Hwr & Hq).
  split; [exact Hr|]. split; [exact Hwr|].
  intros Hc. destruct (Hq Hc) as (l & Hl & He). exists l.
  split; [exact Hl|]. apply He. discriminate.
Qed.

Lemma drain_loop_keeps_running_witness :
  result (LabPSU.task_process_responses 3
            (state ((LabPSU.measure_voltage ["5.0"] ;; LabPSU.get_output ["ON"])
                      connected_session))) = Return true.
Proof.
  assert (Hw : consistent
            (state ((LabPSU.measure_voltage ["5.0"] ;; LabPSU.get_output ["ON"])
                      connected_session))).
  { split; [apply consistent_init|].
    intros _. split; [reflexivity|]. eexists. split; reflexivity. }
  apply (drain_loop_keeps_running 2 _ Hw eq_refl).
  intros l [= <-]. reflexivity.
Defined.

(** ** From the wire to the cache *)

Lemma cache_after_shows (st : gmap string PyVal.t)
    (before after : list Response.t) (r : Response.t) (key : string)
    (v : PyVal.t) :
  reading r = Some (key, v) ->
  (forall x, In x after -> field_of x <> Some key) ->
  is_Some (st !! key) ->
  exists c, cache_after st (before ++ r :: after) !! key = Some c
            /\ shows c v.
Proof.
  intros Hrd Hafter Hkey. rewrite cache_after_app. cbn [cache_after].
  rewrite cache_after_untouched by assumption.
  unfold cache_step. rewrite Hrd.
  destruct (proj2 (cache_after_is_Some before st key) Hkey) as [old Hold].
  exact (cache_set_lookup_same _ key old v Hold).
Qed.

(** From the wire to the cache: a connected session with nothing queued,
    whose link has its transport, polls, the device answers each of the
    five queries with one line, the four numeric ones with lines that
    [float] reads, and the queue is drained. Then nothing has timed out,
    the delivery queue is empty again, and each status field shows what
    its line said: [output] whether the line is [ON], the other four the
    numbers read. *)
Theorem poll_then_drain_updates_cache (w : LabPSU.t)
    (l : SerialCommunication.t) (out cur volt scur svolt : string)
    (xc xv xsc xsv : PyFloat.float) :
  consistent w ->
  LabPSU.connected w = true ->
  LabPSU.link w = Some l ->
  SerialCommunication.transport l = true ->
  SerialCommunication.received_lines l = [] ->
  SerialCommunication.responses l = [] ->
  PyFloat.of_string cur = Some xc ->
  PyFloat.of_string volt = Some xv ->
  PyFloat.of_string scur = Some xsc ->
  PyFloat.of_string svolt = Some xsv ->
  let r := (LabPSU.task_query_status_turn (answers out cur volt scur svolt) ;;
            LabPSU.process_responses) w in
  result r = Return tt
  /\ warns (trace r) = []
  /\ LabPSU.link (state r) = Some l
  /\ (exists c, LabPSU.status (state r) !! "output" = Some c
                /\ shows c (PyVal.Bool (String.eqb out "ON")))
  /\ (exists c, LabPSU.status (state r) !! "measured_current" = Some c
                /\ shows c (PyVal.Float xc))
  /\ (exists c, LabPSU.status (state r) !! "measured_voltage" = Some c
                /\ shows c (PyVal.Float xv))
  /\ (exists c, LabPSU.status (state r) !! "set_current" = Some c
                /\ shows c (PyVal.Float xsc))
  /\ (exists c, LabPSU.status (state r) !! "set_voltage" = Some c
                /\ shows c (PyVal.Float xsv)).
Proof.
  intros Hw Hc Hl Ht Hrl Hrs Hcur Hvolt Hscur Hsvolt. cbv zeta.
  pose proof Hw as [Hkeys Hco]. destruct (Hco Hc) as (Hlw & l0 & Hl0 & Hk).
  rewrite Hl in Hl0. injection Hl0 as <-.
  set (r0 := Response.Build ":OUTP?" out).
  set (r1 := Response.Build ":MEAS:CURR?" cur).
  set (r2 := Response.Build ":MEAS:VOLT?" volt).
  set (r3 := Response.Build ":CURR?" scur).
  set (r4 := Response.Build ":VOLT?" svolt).
  set (l1 := SerialCommunication.Build (SerialCommunication.connected l) []
               [r0; r1; r2; r3; r4] false
               (SerialCommunication.transport l)).
  (* the poll *)
  assert (Hpoll : LabPSU.task_query_status_turn
                    (answers out cur volt scur svolt) w
                  = (Return tt, LabPSU.set_link (Some l1) w,
                     map (fun q => Write (q ++ SerialCommunication.TERMINATOR))
                       [":OUTP?"; ":MEAS:CURR?"; ":MEAS:VOLT?"; ":CURR?";
                        ":VOLT?"])).
  { rewrite (poll_turn_as_submit_all w l) by assumption.
    destruct l as [c rl rs lk tp]. cbn in Hrl, Hrs, Hk, Ht.
    subst rl rs lk tp. reflexivity. }
  rewrite (bind_run _ _ w _ tt _ Hpoll).
  (* the readings *)
  assert (H0 : reading r0 = Some ("output", PyVal.Bool (String.eqb out "ON")))
    by reflexivity.
  assert (H1 : reading r1 = Some ("measured_current", PyVal.Float xc))
    by (unfold reading, r1; cbn -[PyFloat.of_string]; rewrite Hcur;
        reflexivity).
  assert (H2 : reading r2 = Some ("measured_voltage", PyVal.Float xv))
    by (unfold reading, r2; cbn -[PyFloat.of_string]; rewrite Hvolt;
        reflexivity).
  assert (H3 : reading r3 = Some ("set_current", PyVal.Float xsc))
    by (unfold reading, r3; cbn -[PyFloat.of_string]; rewrite Hscur;
        reflexivity).
  assert (H4 : reading r4 = Some ("set_voltage", PyVal.Float xsv))
    by (unfold reading, r4; cbn -[PyFloat.of_string]; rewrite Hsvolt;
        reflexivity).
  assert (Hwf : forallb well_formed [r0; r1; r2; r3; r4] = true).
  { unfold well_formed, r0, r1, r2, r3, r4.
    cbn -[PyFloat.of_string]. rewrite Hcur, Hvolt, Hscur, Hsvolt.
    reflexivity. }
  (* the drain *)
  set (w1 := LabPSU.set_link (Some l1) w).
  assert (Hw1 : consistent w1).
  { split; [destruct w; exact Hkeys|]. intros _.
    split; [destruct w; exact Hlw|]. exists l1.
    split; [destruct w; reflexivity|reflexivity]. }
  destruct (process_responses_drains_queue_aux w1 l1 Hw1
              ltac:(destruct w; exact Hc) ltac:(destruct w; reflexivity) Hwf)
    as (Hp & _ & _).
  rewrite Hp. cbn [result state trace fst snd].
  cbn [SerialCommunication.responses l1].
  assert (Hst : forall (q : gmap string PyVal.t) x y,
            LabPSU.status (LabPSU.set_status q (LabPSU.set_link x y)) = q)
    by (intros; destruct y; reflexivity).
  rewrite Hst.
  assert (Hst1 : LabPSU.status w1 = LabPSU.status w)
    by (destruct w; reflexivity).
  rewrite Hst1.
  assert (Hfield : forall x key v, reading x = Some (key, v) ->
            forall k, k <> key -> field_of x <> Some k).
  { intros x key v Hx k Hne. unfold field_of. rewrite Hx. cbn. congruence. }
  split; [reflexivity|].
  split.
  { unfold warns. rewrite omap_app. cbn [map omap list_omap app].
    destruct (events_after_bounds [r0; r1; r2; r3; r4] (LabPSU.status w))
      as (_ & _ & _).
    cbn [events_after]. unfold events_step. rewrite H0, H1, H2, H3, H4.
    unfold notice.
    repeat match goal with
           | |- context [match ?m !! ?k with _ => _ end] =>
               destruct (m !! k)
           | |- context [if PyVal.neb ?a ?b then _ else _] =>
               destruct (PyVal.neb a b)
           end; reflexivity. }
  split.
  { destruct w as [st al co lk lw], l as [c rl rs lk' tp]. cbn in *.
    subst. reflexivity. }
  split.
  { apply (cache_after_shows _ [] [r1; r2; r3; r4] r0 _ _ H0).
    - intros x [<-|[<-|[<-|[<-|[]]]]];
        [eapply (Hfield _ _ _ H1)|eapply (Hfield _ _ _ H2)
        |eapply (Hfield _ _ _ H3)|eapply (Hfield _ _ _ H4)]; discriminate.
    - apply Hkeys. eexists. reflexivity. }
  split.
  { apply (cache_after_shows _ [r0] [r2; r3; r4] r1 _ _ H1).
    - intros x [<-|[<-|[<-|[]]]];
        [eapply (Hfield _ _ _ H2)|eapply (Hfield _ _ _ H3)
        |eapply (Hfield _ _ _ H4)]; discriminate.
    - apply Hkeys. eexists. reflexivity. }
  split.
  { apply (cache_after_shows _ [r0; r1] [r3; r4] r2 _ _ H2).
    - intros x [<-|[<-|[]]];
        [eapply (Hfield _ _ _ H3)|eapply (Hfield _ _ _ H4)]; discriminate.
    - apply Hkeys. eexists. reflexivity. }
  split.
  { apply (cache_after_shows _ [r0; r1; r2] [r4] r3 _ _ H3).
    - intros x [<-|[]]. eapply (Hfield _ _ _ H4). discriminate.
    - apply Hkeys. eexists. reflexivity. }
  apply (cache_after_shows _ [r0; r1; r2; r3] [] r4 _ _ H4).
  - intros x [].
  - apply Hkeys. eexists. reflexivity.
Qed.

Lemma poll_then_drain_updates_cache_witness :
  exists c,
    LabPSU.status
      (state ((LabPSU.task_query_status_turn
                 (answers "ON" "0.100" "5.000" "0.500" "5.000") ;;
               LabPSU.process_responses) connected_session))
    !! "measured_current" = Some c
    /\ shows c (PyVal.Float (S754_finite false 7205759403792794 (-56))).
Proof.
  destruct (poll_then_drain_updates_cache connected_session started_link
              "ON" "0.100" "5.000" "0.500" "5.000"
              (S754_finite false 7205759403792794 (-56))
              (S754_finite false 5629499534213120 (-50))
              (S754_finite false 4503599627370496 (-53))
              (S754_finite false 5629499534213120 (-50))
              consistent_connected_session eq_refl eq_refl eq_refl eq_refl
              eq_refl)
    as (_ & _ & _ & _ & Hcur & _).
  - vm_compute. reflexivity.
  - vm_compute. reflexivity.
  - vm_compute. reflexivity.
  - vm_compute. reflexivity.
  - exact Hcur.
Defined.
